(** * Waw Quran Companion: deployment scripts

    A shallow embedding of the two deployment scripts

      - [scripts/deployment/seed_ayat_to_supabase.py]      (module [Seeder])
      - [scripts/deployment/generate_context_summaries.py] (module [Generator])

    Both scripts are sequential programs that talk to the outside world
    (a REST store, a completion API, the clock, a local SQLite file and a
    checkpoint file).  Every remote call is answered by an oracle that sees
    the whole history of events so far, and every effect is appended to that
    history, so a run of a script is a pure function from the oracles to the
    trace of events it produced.

    What the model leaves out: the text of most console lines, the headers
    and URLs of the requests, and the JSON encoding of bodies (a body is the
    Python value handed to [json.dumps]).  Reading the local checkpoint
    file is taken to succeed; writing it, and every remote call, may
    raise. *)

From Stdlib Require Import String Ascii ZArith List Lia Bool Sorted.
From Stdlib Require Import DecimalString.
Import ListNotations.

Open Scope Z_scope.

(* ================================================================== *)
(** ** Python values and built-ins used by the scripts *)

Module Py.

(** [str(n)] / [f"{n}"] for a Python int. *)
Definition str_of_int (z : Z) : string := NilZero.string_of_int (Z.to_int z).

(** [f"{x}"] for a value that may be [None] (a column of a LEFT JOIN). *)
Definition str_of_opt (o : option string) : string :=
  match o with
  | Some s => s
  | None => "None"
  end.

(** Truthiness of [os.getenv(...)]: [None] and the empty string are falsy. *)
Definition truthy (o : option string) : bool :=
  match o with
  | Some (String _ _) => true
  | _ => false
  end.

Definition newline : string := String (ascii_of_nat 10) EmptyString.

(** [str.isspace] on one character.  Strings are sequences of code points
    below 256; the white space among them is TAB..CR, FS..US, SPACE, NEL
    and NBSP. *)
Definition is_space (c : ascii) : bool :=
  let n := Z.of_nat (nat_of_ascii c) in
  ((9 <=? n) && (n <=? 13)) || ((28 <=? n) && (n <=? 32))
  || (n =? 133) || (n =? 160).

Fixpoint lstrip (s : string) : string :=
  match s with
  | EmptyString => EmptyString
  | String c s' => if is_space c then lstrip s' else s
  end.

(** [rstrip] keeps a character when it is not white space or when something
    survives to its right. *)
Fixpoint rstrip (s : string) : string :=
  match s with
  | EmptyString => EmptyString
  | String c s' =>
      match rstrip s' with
      | EmptyString => if is_space c then EmptyString else String c EmptyString
      | r => String c r
      end
  end.

(** [str.strip()] *)
Definition strip (s : string) : string := rstrip (lstrip s).

(** [range(start, stop, step)] for a positive step: the values
    [start + k * step] below [stop]; there are
    [(stop - start + step - 1) // step] of them (none when that is
    negative). *)
Definition range (start stop step : Z) : list Z :=
  map (fun k => start + Z.of_nat k * step)
      (seq 0 (Z.to_nat ((stop - start + step - 1) / step))).

(** [l[i:j]] for indices [0 <= i]: Python clamps both ends to [len(l)],
    as [skipn] and [firstn] do. *)
Definition slice {A : Type} (l : list A) (i j : Z) : list A :=
  firstn (Z.to_nat (j - i)) (skipn (Z.to_nat i) l).

(** [x in l] for a list of ints. *)
Definition mem (x : Z) (l : list Z) : bool := existsb (Z.eqb x) l.

(** What [e.read().decode('utf-8')] makes of the body of an HTTP error
    response: its text, or an exception of the read or of the decoding,
    kept by its message. *)
Inductive Body : Type :=
| Text (s : string)
| Unreadable (msg : string).

(** Exceptions derived from [Exception].  [urllib.error.HTTPError] carries
    the status code, the reason phrase and the response body; every other
    exception is kept by its message.  [str(e)] is [exn_str]. *)
Inductive Exn : Type :=
| HTTPError (code : Z) (reason : string) (body : Body)
| OtherError (msg : string).

Definition exn_str (e : Exn) : string :=
  match e with
  | HTTPError code reason _ =>
      ("HTTP Error " ++ str_of_int code ++ ": " ++ reason)%string
  | OtherError msg => msg
  end.

(** How a call ends: it returns, raises an [Exception], or the process
    leaves through [sys.exit(code)] ([SystemExit] is not an [Exception],
    so no [except Exception] handler stops it). *)
Inductive Result (A : Type) : Type :=
| Ok (a : A)
| Raise (e : Exn)
| Exit (code : Z).

Arguments Ok {A} a.
Arguments Raise {A} e.
Arguments Exit {A} code.

End Py.

(* ================================================================== *)
(** ** A state monad with exceptions

    [M S A] is a computation over a state [S] that ends as a [Py.Result].
    The state survives an exception: what was done before the [raise]
    stays done, as with Python objects mutated in place. *)

Definition M (S A : Type) : Type := S -> S * Py.Result A.

Definition ret {S A : Type} (a : A) : M S A := fun st => (st, Py.Ok a).

Definition raise {S A : Type} (e : Py.Exn) : M S A := fun st => (st, Py.Raise e).

Definition sys_exit {S A : Type} (code : Z) : M S A := fun st => (st, Py.Exit code).

Definition bind {S A B : Type} (m : M S A) (k : A -> M S B) : M S B :=
  fun st =>
    match m st with
    | (st', Py.Ok a) => k a st'
    | (st', Py.Raise e) => (st', Py.Raise e)
    | (st', Py.Exit c) => (st', Py.Exit c)
    end.

(** [try: body ... except Exception as e: handler(e)] where the body's
    value is passed on. *)
Definition try_except {S A : Type} (body : M S A) (handler : Py.Exn -> M S A)
  : M S A :=
  fun st =>
    match body st with
    | (st', Py.Raise e) => handler e st'
    | r => r
    end.

Definition get {S : Type} : M S S := fun st => (st, Py.Ok st).

Definition modify {S : Type} (f : S -> S) : M S unit := fun st => (f st, Py.Ok tt).

Declare Scope monad_scope.
Delimit Scope monad_scope with monad.
Notation "x <- m ;; k" := (bind m (fun x => k))
  (at level 61, m at next level, right associativity) : monad_scope.
Notation "m ;; k" := (bind m (fun _ => k))
  (at level 61, right associativity) : monad_scope.
Open Scope monad_scope.

(** [for x in xs: body(x)] *)
Fixpoint for_each {S A : Type} (xs : list A) (body : A -> M S unit) : M S unit :=
  match xs with
  | [] => ret tt
  | x :: xs' => body x ;; for_each xs' body
  end.

(* ================================================================== *)
(** ** generate_context_summaries.py *)

Module Generator.

(** *** Configuration and data *)

Definition MIN_DELAY : Z := 2.
Definition MAX_RETRIES : Z := 3.
Definition BACKOFF_MULTIPLIER : Z := 2.

(** The three variables read with [os.getenv]. *)
Record Environ : Type := {
  OPENROUTER_API_KEY : option string;
  SUPABASE_URL : option string;
  SUPABASE_SERVICE_ROLE : option string
}.

(** A row of the query in [get_ayat_with_translations]; the two
    translations come from LEFT JOINs and may be NULL. *)
Record Ayah : Type := {
  id : Z;
  surah_id : Z;
  ayah_number : Z;
  text_uthmani : string;
  surah_name : string;
  translation_en : option string;
  translation_id : option string
}.

(** An element of [progress["errors"]]. *)
Record ErrorEntry : Type := {
  err_ayah_id : Z;
  err_surah_ayah : string;
  err_error : string;
  err_timestamp : string
}.

(** The checkpoint document.  [updated_at] is absent until the first
    [save_progress]. *)
Record Progress : Type := {
  last_completed_id : Z;
  total_generated : Z;
  errors : list ErrorEntry;
  started_at : string;
  updated_at : option string
}.

(** What is on the local disk when the script starts: the checkpoint file
    (if it exists) and the rows of the SQLite database, in the order of
    the query ([None] when the database file is missing, so that the
    query cannot be answered); [db_dir_exists] tells whether the directory
    of the database file is there, which decides how a missing file
    shows. *)
Record Local : Type := {
  progress_file : option Progress;
  sqlite_db : option (list Ayah);
  db_dir_exists : bool
}.

(** A JSON object with string values, in insertion order. *)
Definition Dict : Type := list (string * string).

(** *** The outside world *)

(** [urlopen] on the completion API: a response whose first choice has the
    given content, an HTTP error with the text of its body, or any other
    exception (no connection, time-out, a response of another shape, an
    HTTP error whose body cannot be read), kept by its message. *)
Inductive CompletionOutcome : Type :=
| Completed (content : string)
| CompletionHTTPError (code : Z) (body : string)
| CompletionFailed (msg : string).

Inductive PatchOutcome : Type :=
| Patched (status : Z)
| PatchFailed (e : Py.Exn).

Inductive QueryOutcome : Type :=
| QueryRows (ids : list Z)
| QueryFailed (e : Py.Exn).

(** [open(PROGRESS_FILE, 'w')] followed by [json.dump]: the file is
    written, or an exception ([OSError] and the like) is raised, kept by
    its message. *)
Inductive WriteOutcome : Type :=
| Written
| WriteFailed (msg : string).

(** The effects of a run, in the order they happen.  [EvSaveProgress p]
    is the checkpoint file written with [p]; [EvWriteFailed p msg] is the
    attempt to write [p] that raised.  Console output is kept for the two
    lines that tell which record is being worked on and how it ended. *)
Inductive Event : Type :=
| EvClock (timestamp : string)
| EvStoreQuery (outcome : QueryOutcome)
| EvCompletion (language prompt : string) (outcome : CompletionOutcome)
| EvPatch (ayah_id : Z) (body : Dict) (outcome : PatchOutcome)
| EvSleep (seconds : Z)
| EvSaveProgress (p : Progress)
| EvWriteFailed (p : Progress) (msg : string)
| EvHeader (current total : Z) (surah_ayah : string) (ayah_id : Z)
| EvResult (success : bool).

(** The oracles: each answers from the history of the run so far. *)
Record World : Type := {
  now : list Event -> string;
  store_query : list Event -> QueryOutcome;
  completion : list Event -> string -> string -> CompletionOutcome;
  patch : list Event -> Z -> Dict -> PatchOutcome;
  write : list Event -> Progress -> WriteOutcome
}.

(** The state of a run: the history and the one [progress] dict that
    [main] creates and every call mutates in place. *)
Record State : Type := {
  trace : list Event;
  progress : Progress
}.

Definition emit (e : Event) : M State unit :=
  modify (fun st => {| trace := trace st ++ [e]; progress := progress st |}).

Definition update_progress (f : Progress -> Progress) : M State unit :=
  modify (fun st => {| trace := trace st; progress := f (progress st) |}).

(** [time.sleep(seconds)] *)
Definition sleep (seconds : Z) : M State unit := emit (EvSleep seconds).

Section Run.

Variable W : World.
Variable local : Local.

(** [datetime.now().isoformat()] *)
Definition isoformat_now : M State string :=
  fun st =>
    let ts := now W (trace st) in
    ({| trace := trace st ++ [EvClock ts]; progress := progress st |}, Py.Ok ts).

(** *** load_progress / save_progress *)

(** Returns the document read from the file, or a fresh one stamped with
    the current time; the clock read, if any, starts the history. *)
Definition load_progress : list Event * Progress :=
  match progress_file local with
  | Some p => ([], p)
  | None =>
      let ts := now W [] in
      ([EvClock ts],
       {| last_completed_id := 0;
          total_generated := 0;
          errors := [];
          started_at := ts;
          updated_at := None |})
  end.

(** Stamps [updated_at] in the dict, then rewrites the whole file; an
    exception of [open] or [json.dump] leaves the dict stamped. *)
Definition save_progress : M State unit :=
  ts <- isoformat_now ;;
  update_progress (fun p =>
    {| last_completed_id := last_completed_id p;
       total_generated := total_generated p;
       errors := errors p;
       started_at := started_at p;
       updated_at := Some ts |}) ;;
  st <- get ;;
  match write W (trace st) (progress st) with
  | Written => emit (EvSaveProgress (progress st))
  | WriteFailed msg =>
      emit (EvWriteFailed (progress st) msg) ;;
      raise (Py.OtherError msg)
  end.

(** *** Remote calls *)

(** Any exception of the request or of reading its answer is caught
    inside and turned into [None]. *)
Definition get_ayat_without_summaries : M State (option (list Z)) :=
  st <- get ;;
  let outcome := store_query W (trace st) in
  emit (EvStoreQuery outcome) ;;
  match outcome with
  | QueryRows ids => ret (Some ids)
  | QueryFailed _ => ret None
  end.

(** A missing database file does not give the rows.  When its directory
    exists, [sqlite3.connect] creates an empty file and the query raises
    [sqlite3.OperationalError] for the missing table; when the directory
    is missing too, [connect] itself raises. *)
Definition get_ayat_with_translations : M State (list Ayah) :=
  match sqlite_db local with
  | Some rows => ret rows
  | None =>
      if db_dir_exists local
      then raise (Py.OtherError "no such table: ayat")
      else raise (Py.OtherError "unable to open database file")
  end.

(** An [HTTPError] is re-raised as a plain [Exception] with the code and
    the body in its message; other exceptions pass through. *)
Definition call_openrouter (prompt language : string) : M State string :=
  st <- get ;;
  let outcome := completion W (trace st) language prompt in
  emit (EvCompletion language prompt outcome) ;;
  match outcome with
  | Completed content => ret (Py.strip content)
  | CompletionHTTPError code body =>
      raise (Py.OtherError
               ("OpenRouter API error " ++ Py.str_of_int code ++ ": " ++ body)%string)
  | CompletionFailed msg => raise (Py.OtherError msg)
  end.

Definition summary_prompt (ayah : Ayah) (translation : option string) : string :=
  ("Surah: " ++ surah_name ayah ++ " (Surah " ++ Py.str_of_int (surah_id ayah) ++ ")"
   ++ Py.newline ++
   "Ayah: " ++ Py.str_of_int (ayah_number ayah) ++ Py.newline ++
   "Arabic: " ++ text_uthmani ayah ++ Py.newline ++
   "Translation: " ++ Py.str_of_opt translation ++ Py.newline ++
   Py.newline ++
   "What does this ayah talk about?")%string.

Definition generate_summary (ayah : Ayah) (language : string) : M State string :=
  let translation :=
    if String.eqb language "English" then translation_en ayah
    else translation_id ayah in
  call_openrouter (summary_prompt ayah translation) language.

(** The body of the PATCH is the dict [data]; the request goes to
    [.../rest/v1/ayat?id=eq.<ayah_id>]. *)
Definition summaries_body (summary_en summary_id : string) : Dict :=
  [("context_summary_en"%string, summary_en);
   ("context_summary_id"%string, summary_id)].

Definition update_supabase (ayah_id : Z) (summary_en summary_id : string)
  : M State bool :=
  let data := summaries_body summary_en summary_id in
  st <- get ;;
  let outcome := patch W (trace st) ayah_id data in
  emit (EvPatch ayah_id data outcome) ;;
  match outcome with
  | Patched status => ret (status =? 204)
  | PatchFailed e => raise e
  end.

(** *** process_ayah *)

Definition surah_ayah_label (ayah : Ayah) : string :=
  (Py.str_of_int (surah_id ayah) ++ ":" ++ Py.str_of_int (ayah_number ayah))%string.

(** The body of the [try]: both summaries, the PATCH, then the counters
    of the checkpoint are changed, the checkpoint is saved and the
    function returns [True].  A write that raises does so after the
    counters were changed. *)
Definition attempt_body (ayah : Ayah) : M State bool :=
  summary_en <- generate_summary ayah "English" ;;
  sleep MIN_DELAY ;;
  summary_id <- generate_summary ayah "Indonesian" ;;
  _ <- update_supabase (id ayah) summary_en summary_id ;;
  update_progress (fun p =>
    {| last_completed_id := id ayah;
       total_generated := total_generated p + 1;
       errors := errors p;
       started_at := started_at p;
       updated_at := updated_at p |}) ;;
  save_progress ;;
  ret true.

(** The [else] branch of the handler: one entry is appended to
    [progress["errors"]], the checkpoint is saved, the function returns
    [False].  Nothing catches an exception of this write. *)
Definition record_failure (ayah : Ayah) (e : Py.Exn) : M State bool :=
  ts <- isoformat_now ;;
  update_progress (fun p =>
    {| last_completed_id := last_completed_id p;
       total_generated := total_generated p;
       errors := errors p ++
                 [{| err_ayah_id := id ayah;
                     err_surah_ayah := surah_ayah_label ayah;
                     err_error := Py.exn_str e;
                     err_timestamp := ts |}];
       started_at := started_at p;
       updated_at := updated_at p |}) ;;
  save_progress ;;
  ret false.

(** [for attempt in range(MAX_RETRIES): try: ... except Exception as e: ...],
    by recursion on the attempts still to come. *)
Fixpoint process_attempts (ayah : Ayah) (attempts : list Z) : M State bool :=
  match attempts with
  | [] => ret false
  | attempt :: rest =>
      try_except (attempt_body ayah)
        (fun e =>
           let wait_time := MIN_DELAY * BACKOFF_MULTIPLIER ^ attempt in
           if attempt <? MAX_RETRIES - 1
           then sleep wait_time ;; process_attempts ayah rest
           else record_failure ayah e)
  end.

Definition process_ayah (ayah : Ayah) : M State bool :=
  process_attempts ayah (Py.range 0 MAX_RETRIES 1).

(** *** main *)

(** The records still to do: those the store listed, or, when the store
    could not be asked, those above the checkpoint's last id. *)
Definition work_set (missing_ids : option (list Z)) (ayat_list : list Ayah)
  (p : Progress) : list Ayah :=
  match missing_ids with
  | Some ids => filter (fun a => Py.mem (id a) ids) ayat_list
  | None =>
      let last_id := last_completed_id p in
      filter (fun a => id a >? last_id) ayat_list
  end.

(** One turn of the loop over [remaining]. *)
Definition process_one (total : Z) (ayah : Ayah) : M State unit :=
  st <- get ;;
  let current := total_generated (progress st) + 1 in
  emit (EvHeader current total (surah_ayah_label ayah) (id ayah)) ;;
  success <- process_ayah ayah ;;
  emit (EvResult success) ;;
  sleep MIN_DELAY.

(** [main] after [load_progress]: the state already holds the dict. *)
Definition main_body : M State unit :=
  missing_ids <- get_ayat_without_summaries ;;
  ayat_list <- get_ayat_with_translations ;;
  let total := Z.of_nat (List.length ayat_list) in
  st <- get ;;
  let remaining := work_set missing_ids ayat_list (progress st) in
  match remaining with
  | [] => ret tt
  | _ => for_each remaining (process_one total)
  end.

Definition main : State * Py.Result unit :=
  let (tr, p) := load_progress in
  main_body {| trace := tr; progress := p |}.

End Run.

(** The module: the check of the environment, then [main()]. *)
Definition script (environ : Environ) (W : World) (local : Local)
  : list Event * Py.Result unit :=
  if forallb Py.truthy
       [OPENROUTER_API_KEY environ; SUPABASE_URL environ;
        SUPABASE_SERVICE_ROLE environ]
  then let (st, r) := main W local in (trace st, r)
  else ([], Py.Exit 1).

End Generator.

(* ================================================================== *)
(** ** seed_ayat_to_supabase.py *)

Module Seeder.

Record Environ : Type := {
  SUPABASE_URL : option string;
  SUPABASE_SERVICE_ROLE : option string
}.

(** A row of the query in [get_ayat_from_sqlite]. *)
Record Ayah : Type := {
  id : Z;
  surah_id : Z;
  ayah_number : Z;
  text_uthmani : string;
  text_simple : string;
  juz_number : Z;
  page_number : Z;
  translation_en : option string;
  translation_id : option string
}.

(** A record as uploaded: the seven columns of the remote table that the
    Seeder fills (the two summaries are left to the generator). *)
Record Row : Type := {
  row_id : Z;
  row_surah_id : Z;
  row_ayah_number : Z;
  row_text_uthmani : string;
  row_text_simple : string;
  row_juz_number : Z;
  row_page_number : Z
}.

(** The local disk: the rows of the database in the order of the query,
    or [None] when the database file does not exist. *)
Record Local : Type := {
  sqlite_db : option (list Ayah)
}.

(** [urlopen] on a POST: a response with its status, or an exception. *)
Inductive PostOutcome : Type :=
| Responded (status : Z)
| PostFailed (e : Py.Exn).

(** [verify_upload]: the count read after the slash of the
    [content-range] header, or nothing usable (no slash in the header, or
    an exception, which is caught and printed). *)
Inductive CountOutcome : Type :=
| Counted (count : Z)
| NotCounted.

(** The lines printed about a batch. *)
Inductive Report : Type :=
| Uploading (batch_num total_batches size : Z)
| BatchUploaded (batch_num : Z)
| BatchFailedStatus (batch_num status : Z)
| BatchFailedHTTP (batch_num code : Z) (body : string)
| RetryingIndividually
| BatchError (batch_num : Z) (msg : string).

(** The effects of a run.  [EvPostBatch] is the POST of a whole batch,
    [EvPostRecord] the POST of a one-record list in the fallback. *)
Inductive Event : Type :=
| EvReport (r : Report)
| EvPostBatch (body : list Row) (outcome : PostOutcome)
| EvPostRecord (body : list Row) (outcome : PostOutcome)
| EvCount (outcome : CountOutcome)
| EvVerdict (matches : bool).

Record World : Type := {
  post : list Event -> list Row -> PostOutcome;
  count_query : list Event -> CountOutcome
}.

(** The state of a run is its history. *)
Definition State : Type := list Event.

Definition emit (e : Event) : M State unit := modify (fun h => h ++ [e]).

Definition batch_size : Z := 100.

Section Run.

Variable W : World.
Variable local : Local.

Definition get_ayat_from_sqlite : M State (list Ayah) :=
  match sqlite_db local with
  | Some rows => ret rows
  | None => raise (Py.OtherError "no such table: ayat")
  end.

(** *** upload_to_supabase *)

Definition to_row (ayah : Ayah) : Row :=
  {| row_id := id ayah;
     row_surah_id := surah_id ayah;
     row_ayah_number := ayah_number ayah;
     row_text_uthmani := text_uthmani ayah;
     row_text_simple := text_simple ayah;
     row_juz_number := juz_number ayah;
     row_page_number := page_number ayah |}.

Definition post_batch (batch : list Row) : M State Z :=
  h <- get ;;
  let outcome := post W h batch in
  emit (EvPostBatch batch outcome) ;;
  match outcome with
  | Responded status => ret status
  | PostFailed e => raise e
  end.

Definition post_record (record : Row) : M State unit :=
  h <- get ;;
  let outcome := post W h [record] in
  emit (EvPostRecord [record] outcome) ;;
  match outcome with
  | Responded _ => ret tt
  | PostFailed e => raise e
  end.

(** The inner loop: each record on its own; only an [HTTPError] is
    passed over. *)
Definition retry_individually (batch : list Row) : M State unit :=
  for_each batch (fun record =>
    try_except (post_record record)
      (fun e =>
         match e with
         | Py.HTTPError _ _ _ => ret tt
         | Py.OtherError _ => raise e
         end)).

(** The body of the loop over [range(0, total, batch_size)].  The
    handler of [HTTPError] first reads and decodes the body of the error.
    An exception raised inside a handler (by that read, or by the
    fallback) is not seen by the other handler of the same [try]. *)
Definition upload_batch (records : list Row) (i : Z) : M State unit :=
  let total := Z.of_nat (List.length records) in
  let batch := Py.slice records i (i + batch_size) in
  let batch_num := i / batch_size + 1 in
  let total_batches := (total + batch_size - 1) / batch_size in
  emit (EvReport (Uploading batch_num total_batches
                    (Z.of_nat (List.length batch)))) ;;
  try_except
    (status <- post_batch batch ;;
     if (status =? 200) || (status =? 201)
     then emit (EvReport (BatchUploaded batch_num))
     else emit (EvReport (BatchFailedStatus batch_num status)))
    (fun e =>
       match e with
       | Py.HTTPError code _ (Py.Unreadable msg) => raise (Py.OtherError msg)
       | Py.HTTPError code _ (Py.Text error_body) =>
           emit (EvReport (BatchFailedHTTP batch_num code error_body)) ;;
           if code =? 409
           then emit (EvReport RetryingIndividually) ;;
                retry_individually batch
           else ret tt
       | Py.OtherError msg => emit (EvReport (BatchError batch_num msg))
       end).

Definition upload_to_supabase (ayat_list : list Ayah) : M State unit :=
  let records := map to_row ayat_list in
  let total := Z.of_nat (List.length records) in
  for_each (Py.range 0 total batch_size) (upload_batch records).

(** *** verify_upload and main *)

Definition verify_upload : M State Z :=
  h <- get ;;
  let outcome := count_query W h in
  emit (EvCount outcome) ;;
  match outcome with
  | Counted count => ret count
  | NotCounted => ret 0
  end.

(** The sample printed before the upload slices the English translation
    of the first row, which raises [TypeError] when that column is NULL. *)
Definition show_sample (ayat_list : list Ayah) : M State unit :=
  match ayat_list with
  | [] => ret tt
  | sample :: _ =>
      match translation_en sample with
      | Some _ => ret tt
      | None => raise (Py.OtherError "'NoneType' object is not subscriptable")
      end
  end.

Definition main : M State unit :=
  match sqlite_db local with
  | None => sys_exit 1
  | Some _ =>
      ayat_list <- get_ayat_from_sqlite ;;
      show_sample ayat_list ;;
      upload_to_supabase ayat_list ;;
      count <- verify_upload ;;
      emit (EvVerdict (count =? Z.of_nat (List.length ayat_list)))
  end.

End Run.

(** The module: the check of the environment, then [main()]. *)
Definition script (environ : Environ) (W : World) (local : Local)
  : list Event * Py.Result unit :=
  if Py.truthy (SUPABASE_URL environ) && Py.truthy (SUPABASE_SERVICE_ROLE environ)
  then main W local []
  else ([], Py.Exit 1).

End Seeder.

(* ================================================================== *)
(** ** Facts about the summary generator *)

Module GeneratorFacts.

Import Generator.


(** The built-ins on small inputs. *)

Example range_of_retries : Py.range 0 Generator.MAX_RETRIES 1 = [0; 1; 2].
Proof. reflexivity. Qed.

Example range_of_250_by_100 : Py.range 0 250 100 = [0; 100; 200].
Proof. reflexivity. Qed.

Example range_of_200_by_100 : Py.range 0 200 100 = [0; 100].
Proof. reflexivity. Qed.

Example slice_is_clamped : Py.slice [1; 2; 3] 2 102 = [3].
Proof. reflexivity. Qed.

Example strip_both_ends :
  Py.strip (String " " (String "T" (String (ascii_of_nat 10) EmptyString))) = "T"%string.
Proof. reflexivity. Qed.

Example str_of_http_error :
  Py.exn_str (Py.HTTPError 409 "Conflict" (Py.Text "duplicate key"))
  = "HTTP Error 409: Conflict"%string.
Proof. reflexivity. Qed.

(** *** What a run of one record looks like *)

Definition prompt_en (a : Ayah) : string := summary_prompt a (translation_en a).
Definition prompt_id (a : Ayah) : string := summary_prompt a (translation_id a).

(** The exception that [call_openrouter] raises on an outcome, if any. *)
Definition completion_exn (o : CompletionOutcome) : option Py.Exn :=
  match o with
  | Completed _ => None
  | CompletionHTTPError code body =>
      Some (Py.OtherError
              ("OpenRouter API error " ++ Py.str_of_int code ++ ": " ++ body)%string)
  | CompletionFailed msg => Some (Py.OtherError msg)
  end.

(** [o] is what the completion API of [W] answered to that request at
    some point of a run. *)
Definition answered (W : World) (language prompt : string)
  (o : CompletionOutcome) : Prop :=
  exists h, completion W h language prompt = o.

(** [o] is how writing the checkpoint [p] ended at some point of a run. *)
Definition wrote (W : World) (p : Progress) (o : WriteOutcome) : Prop :=
  exists h, write W h p = o.

(** The checkpoint after lines 248-250 (the counters changed, then the
    stamp of [save_progress]), and after an exhausted record. *)
Definition advanced (p : Progress) (ayah_id : Z) (ts : string) : Progress :=
  {| last_completed_id := ayah_id;
     total_generated := total_generated p + 1;
     errors := errors p;
     started_at := started_at p;
     updated_at := Some ts |}.

Definition failure_entry (a : Ayah) (e : Py.Exn) (ts : string) : ErrorEntry :=
  {| err_ayah_id := id a;
     err_surah_ayah := surah_ayah_label a;
     err_error := Py.exn_str e;
     err_timestamp := ts |}.

Definition with_failure (p : Progress) (entry : ErrorEntry) (ts : string)
  : Progress :=
  {| last_completed_id := last_completed_id p;
     total_generated := total_generated p;
     errors := errors p ++ [entry];
     started_at := started_at p;
     updated_at := Some ts |}.

(** One pass over the record unit: English summary, pause, Indonesian
    summary, PATCH.  It stops at the first step that raises; the second
    index is the exception, or [None] when all three steps went through. *)
Inductive unit_run (W : World) (a : Ayah) : list Event -> option Py.Exn -> Prop :=
| unit_en_raises o e :
    answered W "English" (prompt_en a) o ->
    completion_exn o = Some e ->
    unit_run W a [EvCompletion "English" (prompt_en a) o] (Some e)
| unit_id_raises c_en o e :
    answered W "English" (prompt_en a) (Completed c_en) ->
    answered W "Indonesian" (prompt_id a) o ->
    completion_exn o = Some e ->
    unit_run W a
      [EvCompletion "English" (prompt_en a) (Completed c_en);
       EvSleep MIN_DELAY;
       EvCompletion "Indonesian" (prompt_id a) o]
      (Some e)
| unit_patch_raises c_en c_id e :
    answered W "English" (prompt_en a) (Completed c_en) ->
    answered W "Indonesian" (prompt_id a) (Completed c_id) ->
    unit_run W a
      [EvCompletion "English" (prompt_en a) (Completed c_en);
       EvSleep MIN_DELAY;
       EvCompletion "Indonesian" (prompt_id a) (Completed c_id);
       EvPatch (id a) (summaries_body (Py.strip c_en) (Py.strip c_id))
         (PatchFailed e)]
      (Some e)
| unit_done c_en c_id status :
    answered W "English" (prompt_en a) (Completed c_en) ->
    answered W "Indonesian" (prompt_id a) (Completed c_id) ->
    unit_run W a
      [EvCompletion "English" (prompt_en a) (Completed c_en);
       EvSleep MIN_DELAY;
       EvCompletion "Indonesian" (prompt_id a) (Completed c_id);
       EvPatch (id a) (summaries_body (Py.strip c_en) (Py.strip c_id))
         (Patched status)]
      None.

(** One attempt, that is one run of the body of the [try] from the
    checkpoint [p]: a pass over the record unit and, when the pass went
    through, the counters are changed and the checkpoint is written.  The
    attempt raises when the pass raised, leaving the checkpoint as it
    was, or when the write raised, leaving the counters changed. *)
Inductive attempt_run (W : World) (a : Ayah) (p : Progress)
  : list Event -> option Py.Exn -> Progress -> Prop :=
| attempt_pass_raises evs e :
    unit_run W a evs (Some e) ->
    attempt_run W a p evs (Some e) p
| attempt_saved evs ts :
    unit_run W a evs None ->
    wrote W (advanced p (id a) ts) Written ->
    attempt_run W a p
      (evs ++ [EvClock ts; EvSaveProgress (advanced p (id a) ts)])
      None (advanced p (id a) ts)
| attempt_write_raises evs ts msg :
    unit_run W a evs None ->
    wrote W (advanced p (id a) ts) (WriteFailed msg) ->
    attempt_run W a p
      (evs ++ [EvClock ts; EvWriteFailed (advanced p (id a) ts) msg])
      (Some (Py.OtherError msg)) (advanced p (id a) ts).

(** The events of [process_ayah] from attempt number [k] (counted from 1)
    on, starting with the checkpoint [p]: how the call ends and the
    checkpoint it leaves in memory.  The call returns [True] after an
    attempt that went through, [False] after a third raising attempt
    whose entry could be saved, and raises when that last save raises. *)
Inductive process_trace (W : World) (a : Ayah)
  : Progress -> Z -> list Event -> Py.Result bool -> Progress -> Prop :=
| pt_success p k evs p1 :
    attempt_run W a p evs None p1 ->
    process_trace W a p k evs (Py.Ok true) p1
| pt_retry p k evs e p1 rest r p' :
    k < MAX_RETRIES ->
    attempt_run W a p evs (Some e) p1 ->
    process_trace W a p1 (k + 1) rest r p' ->
    process_trace W a p k
      (evs ++ EvSleep (MIN_DELAY * BACKOFF_MULTIPLIER ^ (k - 1)) :: rest) r p'
| pt_exhausted p evs e p1 ts ts' :
    attempt_run W a p evs (Some e) p1 ->
    wrote W (with_failure p1 (failure_entry a e ts) ts') Written ->
    process_trace W a p MAX_RETRIES
      (evs ++ [EvClock ts; EvClock ts';
               EvSaveProgress (with_failure p1 (failure_entry a e ts) ts')])
      (Py.Ok false) (with_failure p1 (failure_entry a e ts) ts')
| pt_unsaved p evs e p1 ts ts' msg :
    attempt_run W a p evs (Some e) p1 ->
    wrote W (with_failure p1 (failure_entry a e ts) ts') (WriteFailed msg) ->
    process_trace W a p MAX_RETRIES
      (evs ++ [EvClock ts; EvClock ts';
               EvWriteFailed (with_failure p1 (failure_entry a e ts) ts') msg])
      (Py.Raise (Py.OtherError msg)) (with_failure p1 (failure_entry a e ts) ts').

(** *** Reading a trace *)

(** The PATCH requests sent: the record addressed and the body. *)
Definition patches (evs : list Event) : list (Z * Dict) :=
  flat_map (fun ev => match ev with
                      | EvPatch ayah_id body _ => [(ayah_id, body)]
                      | _ => []
                      end) evs.

(** The records whose PATCH was answered, in order. *)
Definition accepted (evs : list Event) : list Z :=
  flat_map (fun ev => match ev with
                      | EvPatch ayah_id _ (Patched _) => [ayah_id]
                      | _ => []
                      end) evs.

(** The records announced by the loop of [main], in order. *)
Definition header_ids (evs : list Event) : list Z :=
  flat_map (fun ev => match ev with
                      | EvHeader _ _ _ ayah_id => [ayah_id]
                      | _ => []
                      end) evs.

Definition header_labels (evs : list Event) : list string :=
  flat_map (fun ev => match ev with
                      | EvHeader _ _ surah_ayah _ => [surah_ayah]
                      | _ => []
                      end) evs.

(** The checkpoints written, in order. *)
Definition saved (evs : list Event) : list Progress :=
  flat_map (fun ev => match ev with
                      | EvSaveProgress p => [p]
                      | _ => []
                      end) evs.

(** The writes of the checkpoint that raised. *)
Definition unsaved (evs : list Event) : list Progress :=
  flat_map (fun ev => match ev with
                      | EvWriteFailed p _ => [p]
                      | _ => []
                      end) evs.

(** The remote requests of any kind. *)
Definition is_remote (ev : Event) : bool :=
  match ev with
  | EvStoreQuery _ | EvCompletion _ _ _ | EvPatch _ _ _ => true
  | _ => false
  end.

(** Clock reads and checkpoint writes, done or failed. *)
Definition is_checkpointing (ev : Event) : bool :=
  match ev with
  | EvClock _ | EvSaveProgress _ | EvWriteFailed _ _ => true
  | _ => false
  end.

(** The events of the attempts [runs], numbered from [k], with the
    pause of [2 * 2 ^ (k - 1)] seconds after attempt [k] when another
    attempt follows. *)
Fixpoint with_backoff (k : Z) (runs : list (list Event)) : list Event :=
  match runs with
  | [] => []
  | evs :: rest =>
      match rest with
      | [] => evs
      | _ :: _ => evs ++ EvSleep (2 * 2 ^ (k - 1)) :: with_backoff (k + 1) rest
      end
  end.

(** The result of a computation that ends as the attempt did. *)
Definition attempt_result (o : option Py.Exn) : Py.Result bool :=
  match o with
  | None => Py.Ok true
  | Some e => Py.Raise e
  end.

Section Facts.

Variable W : World.

Ltac run_step :=
  cbv beta iota zeta
    delta [bind get emit modify update_progress ret raise sleep
           isoformat_now trace progress];
  cbn [app last_completed_id total_generated errors started_at updated_at].

(** One pass through the body of the [try]. *)
Lemma attempt_body_cases (a : Ayah) (st : State) :
  exists evs o p1,
    attempt_body W a st
    = ({| trace := trace st ++ evs; progress := p1 |}, attempt_result o)
    /\ attempt_run W a (progress st) evs o p1.
Proof.
  destruct st as [h p].
  unfold attempt_body, generate_summary, call_openrouter, update_supabase,
    save_progress.
  change (String.eqb "English" "English") with true.
  change (String.eqb "Indonesian" "English") with false.
  cbv iota. fold (prompt_en a). fold (prompt_id a).
  run_step.
  destruct (completion W h "English" (prompt_en a)) as [c1 | code1 b1 | m1] eqn:E1.
  2:{ eexists [_], (Some _), p. split; [reflexivity |].
      apply attempt_pass_raises.
      eapply unit_en_raises; [exists h; exact E1 | reflexivity]. }
  2:{ eexists [_], (Some _), p. split; [reflexivity |].
      apply attempt_pass_raises.
      eapply unit_en_raises; [exists h; exact E1 | reflexivity]. }
  run_step.
  match goal with
  | |- context [completion W ?h2 "Indonesian" (prompt_id a)] =>
      destruct (completion W h2 "Indonesian" (prompt_id a))
        as [c2 | code2 b2 | m2] eqn:E2
  end.
  2:{ eexists [_; _; _], (Some _), p. split.
      - rewrite <- !app_assoc. reflexivity.
      - apply attempt_pass_raises.
        eapply unit_id_raises;
          [exists h; exact E1 | eexists; exact E2 | reflexivity]. }
  2:{ eexists [_; _; _], (Some _), p. split.
      - rewrite <- !app_assoc. reflexivity.
      - apply attempt_pass_raises.
        eapply unit_id_raises;
          [exists h; exact E1 | eexists; exact E2 | reflexivity]. }
  run_step.
  match goal with
  | |- context [patch W ?h3 (id a) ?body] =>
      destruct (patch W h3 (id a) body) as [status | e] eqn:E3
  end.
  - run_step.
    match goal with
    | |- context [write W ?h4 ?p4] =>
        destruct (write W h4 p4) as [| msg] eqn:E4
    end.
    + run_step. eexists _, None, _. split.
      * rewrite <- !app_assoc. cbn [app]. reflexivity.
      * apply (attempt_saved W a p
                 [EvCompletion "English" (prompt_en a) (Completed c1);
                  EvSleep MIN_DELAY;
                  EvCompletion "Indonesian" (prompt_id a) (Completed c2);
                  EvPatch (id a) (summaries_body (Py.strip c1) (Py.strip c2))
                    (Patched status)]).
        -- eapply unit_done; [exists h; exact E1 | eexists; exact E2].
        -- rewrite <- !app_assoc in E4. cbn [app] in E4. eexists. exact E4.
    + run_step. eexists _, (Some _), _. split.
      * rewrite <- !app_assoc. cbn [app]. reflexivity.
      * apply (attempt_write_raises W a p
                 [EvCompletion "English" (prompt_en a) (Completed c1);
                  EvSleep MIN_DELAY;
                  EvCompletion "Indonesian" (prompt_id a) (Completed c2);
                  EvPatch (id a) (summaries_body (Py.strip c1) (Py.strip c2))
                    (Patched status)]).
        -- eapply unit_done; [exists h; exact E1 | eexists; exact E2].
        -- rewrite <- !app_assoc in E4. cbn [app] in E4. eexists. exact E4.
  - eexists [_; _; _; _], (Some _), p. split.
    + rewrite <- !app_assoc. reflexivity.
    + apply attempt_pass_raises.
      eapply unit_patch_raises; [exists h; exact E1 | eexists; exact E2].
Qed.

(** The attempts from number [k] on, as [process_attempts] runs them. *)
Definition attempts_ok (a : Ayah) (attempts : list Z) (k : Z) : Prop :=
  forall st,
  exists evs r p',
    process_attempts W a attempts st
    = ({| trace := trace st ++ evs; progress := p' |}, r)
    /\ process_trace W a (progress st) k evs r p'.

Lemma last_attempt_ok (a : Ayah) (rest : list Z) :
  attempts_ok a ((MAX_RETRIES - 1) :: rest) MAX_RETRIES.
Proof.
  intros [h p]. cbn [process_attempts]. unfold try_except.
  destruct (attempt_body_cases a {| trace := h; progress := p |})
    as (evs & [e |] & p1 & Heq & Hrun); rewrite Heq;
    cbn [trace progress attempt_result] in *.
  - change (MAX_RETRIES - 1 <? MAX_RETRIES - 1) with false. cbv iota.
    unfold record_failure, save_progress. run_step.
    match goal with
    | |- context [write W ?h4 ?p4] =>
        destruct (write W h4 p4) as [| msg] eqn:E4
    end; run_step.
    + do 3 eexists. split.
      * rewrite <- !app_assoc. reflexivity.
      * rewrite <- !app_assoc in E4.
        apply pt_exhausted; [exact Hrun | eexists; exact E4].
    + do 3 eexists. split.
      * rewrite <- !app_assoc. reflexivity.
      * rewrite <- !app_assoc in E4.
        apply pt_unsaved; [exact Hrun | eexists; exact E4].
  - do 3 eexists. split; [reflexivity |].
    apply pt_success. exact Hrun.
Qed.

Lemma earlier_attempt_ok (a : Ayah) (rest : list Z) (k : Z) :
  k < MAX_RETRIES ->
  attempts_ok a rest (k + 1) ->
  attempts_ok a ((k - 1) :: rest) k.
Proof.
  intros Hk Hrest [h p]. cbn [process_attempts]. unfold try_except.
  destruct (attempt_body_cases a {| trace := h; progress := p |})
    as (evs & [e |] & p1 & Heq & Hrun); rewrite Heq;
    cbn [trace progress attempt_result] in *.
  - assert (Hlt : (k - 1 <? MAX_RETRIES - 1) = true) by (apply Z.ltb_lt; lia).
    rewrite Hlt. run_step.
    match goal with
    | |- context [process_attempts W a rest ?st1] =>
        destruct (Hrest st1) as (evs' & r & p' & Heq' & Htr')
    end.
    rewrite Heq'. cbn [trace progress] in *.
    do 3 eexists. split.
    + rewrite <- !app_assoc. reflexivity.
    + eapply pt_retry; eassumption.
  - do 3 eexists. split; [reflexivity |].
    apply pt_success. exact Hrun.
Qed.

(** [process_ayah] always ends; its events, its result and the
    checkpoint it leaves are those of [process_trace] from the first
    attempt. *)
Lemma process_ayah_spec (a : Ayah) (st : State) :
  exists evs r p',
    process_ayah W a st
    = ({| trace := trace st ++ evs; progress := p' |}, r)
    /\ process_trace W a (progress st) 1 evs r p'.
Proof.
  unfold process_ayah.
  change (Py.range 0 MAX_RETRIES 1) with [1 - 1; 2 - 1; MAX_RETRIES - 1].
  revert st. fold (attempts_ok a [1 - 1; 2 - 1; MAX_RETRIES - 1] 1).
  apply earlier_attempt_ok; [reflexivity |].
  apply (earlier_attempt_ok a [MAX_RETRIES - 1] 2); [reflexivity |].
  apply last_attempt_ok.
Qed.


(** *** How a call of [process_ayah] can end *)

Lemma process_trace_result (a : Ayah) (p p' : Progress) (k : Z)
  (evs : list Event) (r : Py.Result bool) :
  process_trace W a p k evs r p' ->
  r = Py.Ok true \/ r = Py.Ok false
  \/ exists msg, r = Py.Raise (Py.OtherError msg).
Proof.
  intros H. induction H; auto. right. right. eexists. reflexivity.
Qed.

Lemma saved_app (xs ys : list Event) : saved (xs ++ ys) = saved xs ++ saved ys.
Proof. apply flat_map_app. Qed.

Lemma unsaved_app (xs ys : list Event) :
  unsaved (xs ++ ys) = unsaved xs ++ unsaved ys.
Proof. apply flat_map_app. Qed.

Lemma header_ids_app (xs ys : list Event) :
  header_ids (xs ++ ys) = header_ids xs ++ header_ids ys.
Proof. apply flat_map_app. Qed.

Lemma header_labels_app (xs ys : list Event) :
  header_labels (xs ++ ys) = header_labels xs ++ header_labels ys.
Proof. apply flat_map_app. Qed.

Lemma patches_app (xs ys : list Event) :
  patches (xs ++ ys) = patches xs ++ patches ys.
Proof. apply flat_map_app. Qed.

Lemma accepted_app (xs ys : list Event) :
  accepted (xs ++ ys) = accepted xs ++ accepted ys.
Proof. apply flat_map_app. Qed.

Lemma unit_run_saved (a : Ayah) (evs : list Event) (r : option Py.Exn) :
  unit_run W a evs r ->
  saved evs = [] /\ header_ids evs = [] /\ header_labels evs = []
  /\ unsaved evs = [].
Proof. intros H. destruct H; repeat split; reflexivity. Qed.

(** The PATCH of a pass was answered exactly when the pass went through. *)
Lemma unit_run_accepted (a : Ayah) (evs : list Event) (r : option Py.Exn) :
  unit_run W a evs r ->
  accepted evs = match r with None => [id a] | Some _ => [] end.
Proof. intros H. destruct H; reflexivity. Qed.

(** An attempt announces nothing; it writes the checkpoint when it goes
    through. *)
Lemma attempt_run_saved (a : Ayah) (p p1 : Progress) (evs : list Event)
  (o : option Py.Exn) :
  attempt_run W a p evs o p1 ->
  header_ids evs = [] /\ header_labels evs = []
  /\ saved evs = match o with None => [p1] | Some _ => [] end.
Proof.
  intros H.
  destruct H as [evs e Hrun | evs ts Hrun Hw | evs ts msg Hrun Hw];
    destruct (unit_run_saved _ _ _ Hrun) as (Hs & Hh & Hl & _);
    rewrite ?saved_app, ?header_ids_app, ?header_labels_app, Hs, Hh, Hl;
    repeat split; reflexivity.
Qed.

(** The counters of the checkpoint in memory follow the PATCH: they are
    changed exactly when it was answered, whether the attempt then goes
    through or the write raises. *)
Lemma attempt_run_counters (a : Ayah) (p p1 : Progress) (evs : list Event)
  (o : option Py.Exn) :
  attempt_run W a p evs o p1 ->
  (accepted evs = [] /\ p1 = p /\ o <> None)
  \/ (accepted evs = [id a] /\ exists ts, p1 = advanced p (id a) ts).
Proof.
  intros H.
  destruct H as [evs e Hrun | evs ts Hrun Hw | evs ts msg Hrun Hw];
    pose proof (unit_run_accepted _ _ _ Hrun) as Ha; cbn beta iota in Ha.
  - left. repeat split; [exact Ha | discriminate].
  - right. rewrite accepted_app, Ha. split; [reflexivity | eauto].
  - right. rewrite accepted_app, Ha. split; [reflexivity | eauto].
Qed.

Lemma last_default (l : list Z) (d d' : Z) :
  l <> [] -> last l d = last l d'.
Proof.
  induction l as [| x l IH]; [congruence |]. intros _.
  destruct l as [| y l]; [reflexivity |].
  cbn [last] in *. apply IH. discriminate.
Qed.

Lemma last_append (l1 l2 : list Z) (d : Z) :
  last (l1 ++ l2) d = last l2 (last l1 d).
Proof.
  induction l1 as [| x l1 IH]; [reflexivity |].
  destruct l1 as [| y l1].
  - destruct l2 as [| z l2]; [reflexivity |].
    change (last (z :: l2) d = last (z :: l2) x).
    apply last_default. discriminate.
  - change (last (y :: l1 ++ l2) d = last l2 (last (y :: l1) d)). exact IH.
Qed.

(** Over a whole call: [total_generated] has grown by the number of
    PATCH requests that were answered, [last_completed_id] is the
    record's id as soon as one was, and [started_at] is kept. *)
Lemma process_trace_counters (a : Ayah) (p p' : Progress) (k : Z)
  (evs : list Event) (r : Py.Result bool) :
  process_trace W a p k evs r p' ->
  total_generated p' = total_generated p + Z.of_nat (length (accepted evs))
  /\ last_completed_id p' = last (accepted evs) (last_completed_id p)
  /\ started_at p' = started_at p
  /\ Forall (fun i => i = id a) (accepted evs).
Proof.
  assert (Hone : forall p evs o p1,
             attempt_run W a p evs o p1 ->
             total_generated p1 = total_generated p + Z.of_nat (length (accepted evs))
             /\ last_completed_id p1 = last (accepted evs) (last_completed_id p)
             /\ started_at p1 = started_at p
             /\ Forall (fun i => i = id a) (accepted evs)).
  { intros q evs0 o q1 H.
    destruct (attempt_run_counters _ _ _ _ _ H) as [(Ha & -> & _) | (Ha & ts & ->)];
      rewrite Ha; cbn [length Z.of_nat last advanced total_generated
                       last_completed_id started_at];
      repeat split; try lia; repeat constructor. }
  intros H.
  induction H as [p k evs p1 Hrun
                 | p k evs e p1 rest r p' Hk Hrun Hrest IH
                 | p evs e p1 ts ts' Hrun Hw
                 | p evs e p1 ts ts' msg Hrun Hw].
  - exact (Hone _ _ _ _ Hrun).
  - destruct (Hone _ _ _ _ Hrun) as (Ht & Hl & Hs & Hall).
    destruct IH as (IHt & IHl & IHs & IHall).
    change (evs ++ EvSleep ?s :: rest) with (evs ++ [EvSleep s] ++ rest).
    rewrite !accepted_app. cbn [accepted flat_map app].
    rewrite length_app, IHt, IHl, IHs, Ht, Hl, Hs.
    split; [lia |]. split; [| split; [reflexivity |]].
    + symmetry. apply last_append.
    + apply Forall_app. split; assumption.
  - destruct (Hone _ _ _ _ Hrun) as (Ht & Hl & Hs & Hall).
    rewrite accepted_app. cbn [accepted flat_map app].
    rewrite app_nil_r. cbn [with_failure total_generated last_completed_id started_at].
    repeat split; assumption.
  - destruct (Hone _ _ _ _ Hrun) as (Ht & Hl & Hs & Hall).
    rewrite accepted_app. cbn [accepted flat_map app].
    rewrite app_nil_r. cbn [with_failure total_generated last_completed_id started_at].
    repeat split; assumption.
Qed.


(** One record announces nothing.  The checkpoint file is written once,
    at the end, by a call that returns, with the checkpoint the call
    leaves in memory; a call that raises has written nothing. *)
Lemma process_trace_saved (a : Ayah) (p p' : Progress) (k : Z)
  (evs : list Event) (r : Py.Result bool) :
  process_trace W a p k evs r p' ->
  header_ids evs = [] /\ header_labels evs = []
  /\ saved evs = match r with Py.Ok _ => [p'] | _ => [] end.
Proof.
  intros H.
  induction H as [p k evs p1 Hrun
                 | p k evs e p1 rest r p' Hk Hrun Hrest IH
                 | p evs e p1 ts ts' Hrun Hw
                 | p evs e p1 ts ts' msg Hrun Hw];
    destruct (attempt_run_saved _ _ _ _ _ Hrun) as (Hh & Hl & Hs);
    cbn beta iota in Hs.
  - auto.
  - destruct IH as (IHh & IHl & IHs).
    change (evs ++ EvSleep ?s :: rest) with (evs ++ [EvSleep s] ++ rest).
    rewrite !saved_app, !header_ids_app, !header_labels_app, Hs, Hh, Hl,
      IHh, IHl, IHs.
    repeat split.
  - rewrite saved_app, header_ids_app, header_labels_app, Hs, Hh, Hl.
    repeat split.
  - rewrite saved_app, header_ids_app, header_labels_app, Hs, Hh, Hl.
    repeat split.
Qed.

(** *** A completion API that always answers the same text *)

Section FixedText.

Hypothesis fixed_text :
  forall h language prompt, completion W h language prompt = Completed "T".

Lemma unit_run_fixed_text (a : Ayah) (evs : list Event) (r : option Py.Exn) :
  unit_run W a evs r -> patches evs = [(id a, summaries_body "T" "T")].
Proof.
  intros H.
  destruct H as [o e [h Ho] He | c_en o e _ [h Ho] He
                 | c_en c_id e [h1 H1] [h2 H2] | c_en c_id status [h1 H1] [h2 H2]];
    rewrite fixed_text in *.
  - subst o. discriminate He.
  - subst o. discriminate He.
  - injection H1 as <-. injection H2 as <-. reflexivity.
  - injection H1 as <-. injection H2 as <-. reflexivity.
Qed.

Lemma attempt_run_fixed_text (a : Ayah) (p p1 : Progress) (evs : list Event)
  (o : option Py.Exn) :
  attempt_run W a p evs o p1 -> patches evs = [(id a, summaries_body "T" "T")].
Proof.
  intros H. destruct H as [evs e Hrun | evs ts Hrun Hw | evs ts msg Hrun Hw];
    rewrite ?patches_app, (unit_run_fixed_text _ _ _ Hrun); reflexivity.
Qed.

(** Every PATCH of the record carries the two summaries "T", and there
    is at least one. *)
Lemma process_trace_fixed_text (a : Ayah) (p p' : Progress) (k : Z)
  (evs : list Event) (r : Py.Result bool) :
  process_trace W a p k evs r p' ->
  patches evs <> []
  /\ Forall (fun x => x = (id a, summaries_body "T" "T")) (patches evs).
Proof.
  intros H.
  induction H as [p k evs p1 Hrun
                 | p k evs e p1 rest r p' Hk Hrun Hrest IH
                 | p evs e p1 ts ts' Hrun Hw
                 | p evs e p1 ts ts' msg Hrun Hw];
    pose proof (attempt_run_fixed_text _ _ _ _ _ Hrun) as Hp;
    rewrite ?patches_app, Hp.
  - split; [discriminate | repeat constructor].
  - destruct IH as [_ IH]. split; [discriminate |].
    constructor; [reflexivity | exact IH].
  - split; [discriminate | repeat constructor].
  - split; [discriminate | repeat constructor].
Qed.

End FixedText.

(** *** The shape of the retries *)

Lemma with_backoff_cons (k : Z) (evs : list Event) (runs : list (list Event)) :
  runs <> [] ->
  with_backoff k (evs :: runs)
  = evs ++ EvSleep (2 * 2 ^ (k - 1)) :: with_backoff (k + 1) runs.
Proof. destruct runs; [congruence | reflexivity]. Qed.

(** An attempt of the record [a], from some checkpoint. *)
Definition attempt_of (a : Ayah) (evs : list Event) (o : option Py.Exn) : Prop :=
  exists p p1, attempt_run W a p evs o p1.

Lemma process_trace_attempts (a : Ayah) (p p' : Progress) (k : Z)
  (evs : list Event) (r : Py.Result bool) :
  process_trace W a p k evs r p' ->
  k <= MAX_RETRIES ->
  exists (failed : list (list Event * Py.Exn)) (final : list Event)
         (outcome : option Py.Exn) (tail : list Event),
    evs = with_backoff k (map fst failed ++ [final]) ++ tail
    /\ Z.of_nat (List.length failed) <= MAX_RETRIES - k
    /\ Forall (fun x => attempt_of a (fst x) (Some (snd x))) failed
    /\ attempt_of a final outcome
    /\ match outcome with
       | None => r = Py.Ok true /\ tail = []
       | Some e =>
           Z.of_nat (List.length failed) = MAX_RETRIES - k
           /\ exists ts ts' p_failed,
                (r = Py.Ok false /\ tail = [EvClock ts; EvClock ts';
                                            EvSaveProgress p_failed]
                 \/ exists msg,
                      r = Py.Raise (Py.OtherError msg)
                      /\ tail = [EvClock ts; EvClock ts';
                                 EvWriteFailed p_failed msg])
                /\ errors p_failed = errors p ++ [failure_entry a e ts]
       end.
Proof.
  assert (Herr : forall p evs o p1,
             attempt_run W a p evs o p1 -> errors p1 = errors p).
  { intros q evs0 o q1 H. destruct H; reflexivity. }
  intros H.
  induction H as [p k evs p1 Hrun
                 | p k evs e p1 rest r p' Hk Hrun Hrest IH
                 | p evs e p1 ts ts' Hrun Hw
                 | p evs e p1 ts ts' msg Hrun Hw].
  - intros Hle. exists [], evs, None, [].
    cbn [map app with_backoff List.length]. rewrite app_nil_r.
    repeat split; try lia; [constructor | exists p, p1; exact Hrun].
  - intros Hle. destruct IH as [failed IH]; [lia |].
    destruct IH as (final & outcome & tail & -> & Hlen & Hall & Hfin & Hout).
    exists ((evs, e) :: failed), final, outcome, tail.
    cbn [map app fst List.length].
    rewrite with_backoff_cons by (destruct (map fst failed); discriminate).
    split; [rewrite <- app_assoc; reflexivity |].
    split; [lia |].
    split; [constructor; [exists p, p1; exact Hrun | exact Hall] |].
    split; [exact Hfin |].
    destruct outcome as [e' |]; [| exact Hout].
    destruct Hout as (Hn & ts & ts' & pf & Hr & He).
    split; [lia |]. exists ts, ts', pf. split; [exact Hr |].
    now rewrite He, (Herr _ _ _ _ Hrun).
  - intros _. exists [], evs, (Some e).
    exists [EvClock ts; EvClock ts';
            EvSaveProgress (with_failure p1 (failure_entry a e ts) ts')].
    cbn [map app with_backoff List.length].
    split; [reflexivity |]. split; [lia |]. split; [constructor |].
    split; [exists p, p1; exact Hrun |].
    split; [reflexivity |]. do 3 eexists. split; [left; split; reflexivity |].
    cbn [with_failure errors]. now rewrite (Herr _ _ _ _ Hrun).
  - intros _. exists [], evs, (Some e).
    exists [EvClock ts; EvClock ts';
            EvWriteFailed (with_failure p1 (failure_entry a e ts) ts') msg].
    cbn [map app with_backoff List.length].
    split; [reflexivity |]. split; [lia |]. split; [constructor |].
    split; [exists p, p1; exact Hrun |].
    split; [reflexivity |]. do 3 eexists.
    split; [right; exists msg; split; reflexivity |].
    cbn [with_failure errors]. now rewrite (Herr _ _ _ _ Hrun).
Qed.

(** C3. A record is worked on as a unit: [process_ayah] makes between one
    and three attempts, each starting again at the English summary and
    stopping at its first step that raises (an attempt whose pass went
    through ends with the write of the checkpoint, which may raise too);
    every attempt but the last one raised; after attempt k that is
    followed by another, the pause is 2 * 2^(k-1) seconds; a raising last
    attempt is the third one.  Besides the attempts and these pauses the
    call only reads the clock and writes the checkpoint: after a third
    raising attempt, two clock reads and the write of the checkpoint with
    the failure entry, and the call returns [False], or raises when that
    write raises. *)
Theorem record_retried_as_a_unit (a : Ayah) (st : State) :
  exists (failed : list (list Event * Py.Exn)) (final : list Event)
         (outcome : option Py.Exn) (tail : list Event)
         (r : Py.Result bool) (p' : Progress),
    process_ayah W a st
    = ({| trace := trace st ++ with_backoff 1 (map fst failed ++ [final]) ++ tail;
          progress := p' |}, r)
    /\ (List.length failed <= 2)%nat
    /\ Forall (fun x => attempt_of a (fst x) (Some (snd x))) failed
    /\ attempt_of a final outcome
    /\ match outcome with
       | None => r = Py.Ok true /\ tail = []
       | Some _ =>
           List.length failed = 2%nat
           /\ (r = Py.Ok false \/ exists msg, r = Py.Raise (Py.OtherError msg))
       end
    /\ forallb is_checkpointing tail = true.
Proof.
  destruct (process_ayah_spec a st) as (evs & r & p' & Heq & Htr).
  destruct (process_trace_attempts _ _ _ _ _ _ Htr) as [failed Hsh];
    [unfold MAX_RETRIES; lia |].
  destruct Hsh as (final & outcome & tail & -> & Hlen & Hall & Hfin & Hout).
  exists failed, final, outcome, tail, r, p'.
  unfold MAX_RETRIES in *.
  split; [exact Heq |]. split; [lia |]. split; [exact Hall |].
  split; [exact Hfin |].
  destruct outcome as [e |].
  - destruct Hout as (Hn & ts & ts' & pf & [[-> ->] | (msg & -> & ->)] & _).
    + split; [split; [lia | left; reflexivity] | reflexivity].
    + split; [split; [lia | right; exists msg; reflexivity] | reflexivity].
  - destruct Hout as [-> ->]. split; [split; reflexivity | reflexivity].
Qed.


(** A call that raises does so at the write that follows the failure
    entry: that write is the last event, and what it could not write is
    the checkpoint left in memory. *)
Lemma process_trace_raise (a : Ayah) (p p' : Progress) (k : Z)
  (evs : list Event) (e : Py.Exn) :
  process_trace W a p k evs (Py.Raise e) p' ->
  exists msg pre,
    e = Py.OtherError msg
    /\ evs = pre ++ [EvWriteFailed p' msg]
    /\ wrote W p' (WriteFailed msg).
Proof.
  intros H. remember (Py.Raise e) as r eqn:Hr.
  induction H as [p k evs p1 Hrun
                 | p k evs e0 p1 rest r p' Hk Hrun Hrest IH
                 | p evs e0 p1 ts ts' Hrun Hw
                 | p evs e0 p1 ts ts' msg Hrun Hw]; try discriminate.
  - destruct (IH Hr) as (msg & pre & -> & -> & Hw).
    exists msg, (evs ++ EvSleep (MIN_DELAY * BACKOFF_MULTIPLIER ^ (k - 1)) :: pre).
    split; [reflexivity |]. split; [| exact Hw].
    rewrite <- app_assoc. reflexivity.
  - injection Hr as <-. exists msg, (evs ++ [EvClock ts; EvClock ts']).
    split; [reflexivity |]. split; [| exact Hw].
    rewrite <- app_assoc. reflexivity.
Qed.

Lemma last_of_constant (l : list Z) (c d : Z) :
  Forall (fun i => i = c) l -> l <> [] -> last l d = c.
Proof.
  induction l as [| x l IH]; [congruence |]. intros Hall _.
  apply Forall_cons_iff in Hall. destruct Hall as [-> Hall].
  destruct l as [| y l]; [reflexivity |].
  change (last (y :: l) d = c). apply IH; [exact Hall | discriminate].
Qed.

(** The checkpoint's last id after a call is the one before, or the
    record's id. *)
Lemma process_trace_last_id (a : Ayah) (p p' : Progress) (k : Z)
  (evs : list Event) (r : Py.Result bool) :
  process_trace W a p k evs r p' ->
  last_completed_id p' = last_completed_id p \/ last_completed_id p' = id a.
Proof.
  intros H. destruct (process_trace_counters _ _ _ _ _ _ H) as (_ & Hl & _ & Hall).
  rewrite Hl. destruct (accepted evs) as [| x l] eqn:Ha; [left; reflexivity |].
  right. apply last_of_constant; [exact Hall | discriminate].
Qed.

(** *** The loop of [main] *)

(** The events of the loop over the records [remaining], from the
    checkpoint [p]: how the loop ends and the checkpoint at the end.  The
    loop is left early only by the exception of a call of
    [process_ayah]. *)
Inductive loop_trace (total : Z)
  : Progress -> list Ayah -> list Event -> Py.Result unit -> Progress -> Prop :=
| loop_done p : loop_trace total p [] [] (Py.Ok tt) p
| loop_next p a rest evs b p1 evs_rest r p_end :
    process_trace W a p 1 evs (Py.Ok b) p1 ->
    loop_trace total p1 rest evs_rest r p_end ->
    loop_trace total p (a :: rest)
      (EvHeader (total_generated p + 1) total (surah_ayah_label a) (id a)
       :: evs ++ EvResult b :: EvSleep MIN_DELAY :: evs_rest)
      r p_end
| loop_cut p a rest evs msg p1 :
    process_trace W a p 1 evs (Py.Raise (Py.OtherError msg)) p1 ->
    loop_trace total p (a :: rest)
      (EvHeader (total_generated p + 1) total (surah_ayah_label a) (id a)
       :: evs)
      (Py.Raise (Py.OtherError msg)) p1.

Lemma process_one_spec (total : Z) (a : Ayah) (st : State) :
  exists evs r p',
    process_trace W a (progress st) 1 evs r p'
    /\ process_one W total a st
       = match r with
         | Py.Ok b =>
             ({| trace := trace st
                          ++ EvHeader (total_generated (progress st) + 1) total
                               (surah_ayah_label a) (id a)
                             :: evs ++ [EvResult b; EvSleep MIN_DELAY];
                 progress := p' |}, Py.Ok tt)
         | Py.Raise e =>
             ({| trace := trace st
                          ++ EvHeader (total_generated (progress st) + 1) total
                               (surah_ayah_label a) (id a)
                             :: evs;
                 progress := p' |}, Py.Raise e)
         | Py.Exit c =>
             ({| trace := trace st
                          ++ EvHeader (total_generated (progress st) + 1) total
                               (surah_ayah_label a) (id a)
                             :: evs;
                 progress := p' |}, Py.Exit c)
         end.
Proof.
  destruct st as [h p]. unfold process_one. run_step.
  match goal with
  | |- context [process_ayah W a ?st1] =>
      destruct (process_ayah_spec a st1) as (evs & r & p' & Heq & Htr)
  end.
  exists evs, r, p'. rewrite Heq. cbn [trace progress] in *.
  split; [exact Htr |].
  destruct r as [b | e | c]; rewrite <- !app_assoc; reflexivity.
Qed.

Lemma loop_spec (total : Z) (remaining : list Ayah) :
  forall st,
  exists evs r p_end,
    for_each remaining (process_one W total) st
    = ({| trace := trace st ++ evs; progress := p_end |}, r)
    /\ loop_trace total (progress st) remaining evs r p_end.
Proof.
  induction remaining as [| a rest IH]; intros st.
  - exists [], (Py.Ok tt), (progress st). destruct st as [h p].
    cbn. rewrite app_nil_r. split; [reflexivity | constructor].
  - cbn [for_each]. unfold bind at 1.
    destruct (process_one_spec total a st) as (evs & r & p1 & Htr & Heq).
    rewrite Heq.
    destruct (process_trace_result _ _ _ _ _ _ Htr) as [-> | [-> | (msg & ->)]].
    + match goal with
      | |- context [for_each rest _ ?st1] =>
          destruct (IH st1) as (evs_rest & r & p_end & Heq' & Hloop)
      end.
      rewrite Heq'. cbn [trace progress] in *.
      do 3 eexists. split.
      * rewrite <- app_assoc. cbn [app]. rewrite <- app_assoc. reflexivity.
      * econstructor; eassumption.
    + match goal with
      | |- context [for_each rest _ ?st1] =>
          destruct (IH st1) as (evs_rest & r & p_end & Heq' & Hloop)
      end.
      rewrite Heq'. cbn [trace progress] in *.
      do 3 eexists. split.
      * rewrite <- app_assoc. cbn [app]. rewrite <- app_assoc. reflexivity.
      * econstructor; eassumption.
    + do 3 eexists. split; [reflexivity |].
      apply loop_cut. exact Htr.
Qed.

(** The records announced are the first records of the work list, once
    each and in the order of the list: all of them when the loop ends
    normally; otherwise the loop was left by the exception of a write of
    the checkpoint, which is the last event. *)
Lemma loop_trace_headers (total : Z) (p p_end : Progress)
  (remaining : list Ayah) (evs : list Event) (r : Py.Result unit) :
  loop_trace total p remaining evs r p_end ->
  exists worked pending,
    remaining = worked ++ pending
    /\ header_ids evs = map id worked
    /\ header_labels evs = map surah_ayah_label worked
    /\ (r = Py.Ok tt /\ pending = []
        \/ exists msg pre,
             r = Py.Raise (Py.OtherError msg)
             /\ worked <> []
             /\ evs = pre ++ [EvWriteFailed p_end msg]
             /\ wrote W p_end (WriteFailed msg)).
Proof.
  intros H.
  induction H as [p | p a rest evs b p1 evs_rest r p_end Htr Hloop IH
                  | p a rest evs msg p1 Htr].
  - exists [], []. repeat split. left. split; reflexivity.
  - destruct (process_trace_saved _ _ _ _ _ _ Htr) as (Hh & Hl & _).
    destruct IH as (worked & pending & -> & IHh & IHl & IHr).
    exists (a :: worked), pending.
    change (EvHeader ?c total ?l ?i :: ?x) with ([EvHeader c total l i] ++ x).
    change (EvResult b :: EvSleep MIN_DELAY :: evs_rest)
      with ([EvResult b; EvSleep MIN_DELAY] ++ evs_rest).
    rewrite !header_ids_app, !header_labels_app, Hh, Hl, IHh, IHl.
    split; [reflexivity |]. split; [reflexivity |]. split; [reflexivity |].
    destruct IHr as [[-> ->] | (msg & pre & -> & Hne & -> & Hw)].
    + left. split; reflexivity.
    + right. exists msg. eexists. split; [reflexivity |].
      split; [discriminate |]. split; [| exact Hw].
      rewrite !app_assoc. reflexivity.
  - destruct (process_trace_saved _ _ _ _ _ _ Htr) as (Hh & Hl & _).
    destruct (process_trace_raise _ _ _ _ _ _ Htr) as (msg' & pre & Hm & Hevs & Hw).
    injection Hm as <-.
    exists [a], rest.
    change (EvHeader ?c total ?l ?i :: ?x) with ([EvHeader c total l i] ++ x).
    rewrite !header_ids_app, !header_labels_app, Hh, Hl.
    split; [reflexivity |]. split; [reflexivity |]. split; [reflexivity |].
    right. exists msg. eexists. split; [reflexivity |].
    split; [discriminate |]. split; [| exact Hw].
    rewrite Hevs, app_assoc. reflexivity.
Qed.

(** With ascending ids, none below the checkpoint's last id, the saved
    last ids never go down. *)
Lemma loop_trace_saved_sorted (total : Z) (p p_end : Progress)
  (remaining : list Ayah) (evs : list Event) (r : Py.Result unit) :
  loop_trace total p remaining evs r p_end ->
  StronglySorted Z.le (map id remaining) ->
  Forall (fun i => last_completed_id p <= i) (map id remaining) ->
  StronglySorted Z.le (map last_completed_id (saved evs))
  /\ Forall (fun i => last_completed_id p <= i)
       (map last_completed_id (saved evs)).
Proof.
  intros H.
  induction H as [p | p a rest evs b p1 evs_rest r p_end Htr Hloop IH
                  | p a rest evs msg p1 Htr];
    intros Hsorted Hlow.
  - split; constructor.
  - cbn [map] in Hsorted, Hlow.
    apply StronglySorted_inv in Hsorted. destruct Hsorted as [Hsrest Hhd].
    apply Forall_cons_iff in Hlow. destruct Hlow as [Hlow_a Hlow_rest].
    destruct (process_trace_saved _ _ _ _ _ _ Htr) as (_ & _ & Hs).
    cbn beta iota in Hs.
    assert (Hp1 : last_completed_id p <= last_completed_id p1 <= id a)
      by (destruct (process_trace_last_id _ _ _ _ _ _ Htr) as [-> | ->]; lia).
    destruct IH as [IHs IHl]; [exact Hsrest | |].
    { eapply Forall_impl; [| exact Hhd]. cbn beta. intros i Hi. lia. }
    change (EvHeader ?c total ?l ?i :: ?x) with ([EvHeader c total l i] ++ x).
    change (EvResult b :: EvSleep MIN_DELAY :: evs_rest)
      with ([EvResult b; EvSleep MIN_DELAY] ++ evs_rest).
    rewrite !saved_app, Hs. cbn [saved flat_map app map].
    split.
    + constructor; [exact IHs |].
      eapply Forall_impl; [| exact IHl]. cbn beta. intros i Hi. lia.
    + constructor; [lia |].
      eapply Forall_impl; [| exact IHl]. cbn beta. intros i Hi. lia.
  - destruct (process_trace_saved _ _ _ _ _ _ Htr) as (_ & _ & Hs).
    cbn beta iota in Hs.
    change (EvHeader ?c total ?l ?i :: ?x) with ([EvHeader c total l i] ++ x).
    rewrite saved_app, Hs. split; constructor.
Qed.

(** *** [main] as a whole *)

(** What [get_ayat_without_summaries] makes of the store's answer. *)
Definition query_result (o : QueryOutcome) : option (list Z) :=
  match o with
  | QueryRows ids => Some ids
  | QueryFailed _ => None
  end.

Lemma main_unfold (local : Local) (rows : list Ayah) :
  sqlite_db local = Some rows ->
  let tr0 := fst (load_progress W local) in
  let p0 := snd (load_progress W local) in
  let o := store_query W tr0 in
  main W local
  = for_each (work_set (query_result o) rows p0)
      (process_one W (Z.of_nat (length rows)))
      {| trace := tr0 ++ [EvStoreQuery o]; progress := p0 |}.
Proof.
  intros Hdb. unfold main.
  destruct (load_progress W local) as [tr0 p0]. cbn [fst snd].
  unfold main_body, get_ayat_without_summaries, get_ayat_with_translations.
  rewrite Hdb. run_step.
  destruct (store_query W tr0); cbn [query_result];
    destruct (work_set _ rows p0) eqn:Hw; reflexivity.
Qed.

Lemma main_spec (local : Local) (rows : list Ayah) :
  sqlite_db local = Some rows ->
  let tr0 := fst (load_progress W local) in
  let p0 := snd (load_progress W local) in
  let o := store_query W tr0 in
  exists evs r p_end,
    main W local
    = ({| trace := tr0 ++ EvStoreQuery o :: evs; progress := p_end |}, r)
    /\ loop_trace (Z.of_nat (List.length rows)) p0
         (work_set (query_result o) rows p0) evs r p_end.
Proof.
  intros Hdb tr0 p0 o.
  rewrite (main_unfold local rows Hdb). fold tr0 p0 o.
  match goal with
  | |- context [for_each ?l ?f ?st1] =>
      destruct (loop_spec (Z.of_nat (List.length rows)) l st1)
        as (evs & r & p_end & Heq & Hloop)
  end.
  rewrite Heq. cbn [trace progress] in *.
  exists evs, r, p_end. split; [| exact Hloop].
  rewrite <- app_assoc. reflexivity.
Qed.

Lemma strongly_sorted_filter (f : Ayah -> bool) (l : list Ayah) :
  StronglySorted Z.le (map id l) ->
  StronglySorted Z.le (map id (filter f l)).
Proof.
  induction l as [| a l IH]; intros H; [constructor |].
  cbn [map] in H. apply StronglySorted_inv in H. destruct H as [Hl Ha].
  cbn [filter]. destruct (f a); [| exact (IH Hl)].
  cbn [map]. constructor; [exact (IH Hl) |].
  rewrite Forall_forall in *. intros i Hi.
  apply Ha. rewrite in_map_iff in *.
  destruct Hi as (x & Hx & Hin). exists x. split; [exact Hx |].
  apply filter_In in Hin. tauto.
Qed.

Lemma work_set_sorted (ids : option (list Z)) (rows : list Ayah) (p : Progress) :
  Sorted Z.le (map id rows) ->
  StronglySorted Z.le (map id (work_set ids rows p)).
Proof.
  intros H. apply Sorted_StronglySorted in H; [| exact Z.le_trans].
  destruct ids; apply strongly_sorted_filter; exact H.
Qed.

(** In the fall-back every record of the work set lies above the
    checkpoint's last id. *)
Lemma fallback_above_checkpoint (rows : list Ayah) (p : Progress) :
  Forall (fun i => last_completed_id p <= i) (map id (work_set None rows p)).
Proof.
  rewrite Forall_forall. intros i Hi. rewrite in_map_iff in Hi.
  destruct Hi as (a & <- & Hin). apply filter_In in Hin.
  destruct Hin as [_ Hgt]. apply Z.gtb_lt in Hgt. lia.
Qed.

Lemma sorted_prefix (l1 l2 : list Z) :
  StronglySorted Z.le (l1 ++ l2) -> StronglySorted Z.le l1.
Proof.
  induction l1 as [| x l1 IH]; intros H; [constructor |].
  cbn [app] in H. apply StronglySorted_inv in H. destruct H as [Hs Hx].
  constructor; [exact (IH Hs) |].
  apply Forall_app in Hx. tauto.
Qed.


(** C10, as amended.  With the source rows in ascending id order, the
    records are worked on in ascending id order; and when the checkpoint's
    last_completed_id at the start is not above the id of any record of
    the work set (as is always so when the work set comes from the
    checkpoint), the last_completed_id written by the successive saves of
    the run never goes down. *)
Theorem ascending_order_and_checkpoint (local : Local) (rows : list Ayah) :
  sqlite_db local = Some rows ->
  Sorted Z.le (map id rows) ->
  let tr0 := fst (load_progress W local) in
  let p0 := snd (load_progress W local) in
  let o := store_query W tr0 in
  let run := trace (fst (main W local)) in
  Sorted Z.le (header_ids run)
  /\ (query_result o = None
      \/ Forall (fun i => last_completed_id p0 <= i)
           (map id (work_set (query_result o) rows p0)) ->
      Sorted Z.le (map last_completed_id (saved run))).
Proof.
  intros Hdb Hsorted tr0 p0 o run.
  destruct (main_spec local rows Hdb) as (evs & r & p_end & Heq & Hloop).
  fold tr0 p0 o in Heq, Hloop.
  subst run. rewrite Heq. cbn [fst trace].
  pose proof (work_set_sorted (query_result o) rows p0 Hsorted) as Hws.
  assert (Hpre : header_ids tr0 = [] /\ saved tr0 = []).
  { subst tr0. unfold load_progress.
    destruct (progress_file local); split; reflexivity. }
  destruct Hpre as [Hh0 Hs0].
  change (EvStoreQuery o :: evs) with ([EvStoreQuery o] ++ evs).
  rewrite !header_ids_app, !saved_app, Hh0, Hs0. cbn [header_ids saved flat_map app].
  split.
  - destruct (loop_trace_headers _ _ _ _ _ _ Hloop)
      as (worked & pending & Hw & Hh & _).
    fold (header_ids evs). rewrite Hh.
    apply StronglySorted_Sorted. rewrite Hw, map_app in Hws.
    exact (sorted_prefix _ _ Hws).
  - intros Hlow. fold (saved evs).
    apply StronglySorted_Sorted.
    apply (loop_trace_saved_sorted _ _ _ _ _ _ Hloop Hws).
    destruct Hlow as [Hnone | Hlow]; [| exact Hlow].
    rewrite Hnone. apply fallback_above_checkpoint.
Qed.


(** *** A record that cannot be done *)

(** The state after a pause, and after the announcement of a record. *)
Definition paused (seconds : Z) (st : State) : State :=
  {| trace := trace st ++ [EvSleep seconds]; progress := progress st |}.

Definition announced (total : Z) (a : Ayah) (st : State) : State :=
  {| trace := trace st
              ++ [EvHeader (total_generated (progress st) + 1) total
                    (surah_ayah_label a) (id a)];
     progress := progress st |}.

(** An attempt appends to the history and leaves the errors list and
    [started_at] alone. *)
Lemma attempt_body_frame (a : Ayah) (st st' : State) (r : Py.Result bool) :
  attempt_body W a st = (st', r) ->
  errors (progress st') = errors (progress st)
  /\ started_at (progress st') = started_at (progress st).
Proof.
  intros H.
  destruct (attempt_body_cases a st) as (evs & o & p1 & Heq & Hrun).
  rewrite H in Heq. injection Heq as -> _. cbn [progress].
  destruct Hrun; split; reflexivity.
Qed.

(** C2, as amended.  A record whose three attempts all raise, met by the
    loop of [main]: after the third attempt one entry is appended to the
    checkpoint's errors, holding the record's id, its surah:ayah label,
    the message of the last exception and a timestamp, and the checkpoint
    is written.  When that write succeeds the record is reported as
    failed and the loop goes on, from that checkpoint, with exactly the
    remaining records; when it raises, the exception leaves the loop and
    the run ends there. *)
Theorem exhausted_record_logged_once (total : Z) (a : Ayah) (rest : list Ayah)
  (st st1 st2 st3 : State) (e1 e2 e3 : Py.Exn) :
  attempt_body W a (announced total a st) = (st1, Py.Raise e1) ->
  attempt_body W a (paused 2 st1) = (st2, Py.Raise e2) ->
  attempt_body W a (paused 4 st2) = (st3, Py.Raise e3) ->
  let ts := now W (trace st3) in
  let ts' := now W (trace st3 ++ [EvClock ts]) in
  let entry :=
    {| err_ayah_id := id a;
       err_surah_ayah := surah_ayah_label a;
       err_error := Py.exn_str e3;
       err_timestamp := ts |} in
  let p_failed :=
    {| last_completed_id := last_completed_id (progress st3);
       total_generated := total_generated (progress st3);
       errors := errors (progress st) ++ [entry];
       started_at := started_at (progress st);
       updated_at := Some ts' |} in
  let logged := trace st3 ++ [EvClock ts; EvClock ts'] in
  match write W logged p_failed with
  | Written =>
      for_each (a :: rest) (process_one W total) st
      = for_each rest (process_one W total)
          {| trace := logged ++ [EvSaveProgress p_failed; EvResult false;
                                 EvSleep MIN_DELAY];
             progress := p_failed |}
  | WriteFailed msg =>
      for_each (a :: rest) (process_one W total) st
      = ({| trace := logged ++ [EvWriteFailed p_failed msg];
            progress := p_failed |},
         Py.Raise (Py.OtherError msg))
  end.
Proof.
  intros H1 H2 H3.
  destruct (attempt_body_frame _ _ _ _ H1) as [He1 Hs1].
  destruct (attempt_body_frame _ _ _ _ H2) as [He2 Hs2].
  destruct (attempt_body_frame _ _ _ _ H3) as [He3 Hs3].
  destruct st as [h p], st1 as [h1 p1], st2 as [h2 p2], st3 as [h3 p3].
  unfold announced, paused in *. cbn [trace progress] in *.
  rewrite He2, He1 in He3. rewrite Hs2, Hs1 in Hs3.
  cbv zeta. rewrite <- He3, <- Hs3.
  cbn [for_each]. set (go_on := for_each rest (process_one W total)).
  unfold bind at 1. unfold process_one. run_step.
  unfold process_ayah.
  change (Py.range 0 MAX_RETRIES 1) with [0; 1; 2].
  cbn [process_attempts]. unfold try_except.
  rewrite H1.
  change (0 <? MAX_RETRIES - 1) with true. run_step.
  change (MIN_DELAY * BACKOFF_MULTIPLIER ^ 0) with 2. rewrite H2.
  change (1 <? MAX_RETRIES - 1) with true. run_step.
  change (MIN_DELAY * BACKOFF_MULTIPLIER ^ 1) with 4. rewrite H3.
  change (2 <? MAX_RETRIES - 1) with false. cbv iota.
  unfold record_failure, save_progress. run_step.
  rewrite <- !app_assoc. cbn [app].
  match goal with
  | |- match ?w with _ => _ end =>
      destruct w as [| msg]
  end; run_step; subst go_on; rewrite <- ?app_assoc; reflexivity.
Qed.

End Facts.

(** *** Start-up *)

(** A missing or empty variable stops the script before anything else. *)
Lemma generator_checks_environment (environ : Environ) (W : World) (local : Local) :
  Py.truthy (OPENROUTER_API_KEY environ) = false
  \/ Py.truthy (SUPABASE_URL environ) = false
  \/ Py.truthy (SUPABASE_SERVICE_ROLE environ) = false ->
  script environ W local = ([], Py.Exit 1).
Proof.
  intros H. unfold script. cbn [forallb].
  destruct H as [-> | [-> | ->]]; cbn [andb];
    repeat match goal with
           | |- context [Py.truthy ?x] => destruct (Py.truthy x); cbn [andb]
           end; reflexivity.
Qed.



(** *** Concrete runs *)

Definition ayah_3 : Ayah :=
  {| id := 3; surah_id := 1; ayah_number := 3;
     text_uthmani := "ar-rahman ar-rahim"; surah_name := "Al-Fatihah";
     translation_en := Some "The Entirely Merciful"%string;
     translation_id := Some "Yang Maha Pengasih"%string |}.

Definition ayah_5 : Ayah :=
  {| id := 5; surah_id := 2; ayah_number := 255;
     text_uthmani := "ayat al-kursi"; surah_name := "Al-Baqarah";
     translation_en := Some "Allah - there is no deity except Him"%string;
     translation_id := None |}.

Definition fresh_progress : Progress :=
  {| last_completed_id := 0; total_generated := 0; errors := [];
     started_at := "2025-01-01T00:00:00"; updated_at := None |}.

Definition start : State := {| trace := []; progress := fresh_progress |}.

Definition environ_ok : Environ :=
  {| OPENROUTER_API_KEY := Some "sk-or-key"%string;
     SUPABASE_URL := Some "https://project.supabase.co"%string;
     SUPABASE_SERVICE_ROLE := Some "service-role"%string |}.

(** Everything works and the completion API answers "T". *)
Definition world_fixed_text : World :=
  {| now := fun _ => "2025-01-01T00:00:00"%string;
     store_query := fun _ => QueryRows [5];
     completion := fun _ _ _ => Completed "T";
     patch := fun _ _ _ => Patched 204;
     write := fun _ _ => Written |}.

(** The completion API cannot be reached. *)
Definition world_down : World :=
  {| now := fun _ => "2025-01-01T00:00:00"%string;
     store_query := fun _ => QueryRows [3; 5];
     completion := fun _ _ _ => CompletionFailed "timed out";
     patch := fun _ _ _ => Patched 204;
     write := fun _ _ => Written |}.

Definition is_completion (ev : Event) : bool :=
  match ev with
  | EvCompletion _ _ _ => true
  | _ => false
  end.

Definition is_write_failed (ev : Event) : bool :=
  match ev with
  | EvWriteFailed _ _ => true
  | _ => false
  end.

(** The completion API fails three times, then answers. *)
Definition world_recovering : World :=
  {| now := fun _ => "2025-01-02T00:00:00"%string;
     store_query := fun _ => QueryRows [3; 5];
     completion := fun h _ _ =>
       if (List.length (filter is_completion h) <? 3)%nat
       then CompletionFailed "timed out"
       else Completed "T";
     patch := fun _ _ _ => Patched 204;
     write := fun _ _ => Written |}.

(** Everything works and the completion API answers "T", but the
    checkpoint file cannot be written the first [n] times it is tried
    (a full disk that is then freed). *)
Definition world_disk_full (n : nat) : World :=
  {| now := fun _ => "2025-01-01T00:00:00"%string;
     store_query := fun _ => QueryRows [5];
     completion := fun _ _ _ => Completed "T";
     patch := fun _ _ _ => Patched 204;
     write := fun h _ =>
       if (List.length (filter is_write_failed h) <? n)%nat
       then WriteFailed "[Errno 28] No space left on device"
       else Written |}.

(** The completion API cannot be reached and the checkpoint file cannot
    be written. *)
Definition world_down_read_only : World :=
  {| now := fun _ => "2025-01-01T00:00:00"%string;
     store_query := fun _ => QueryRows [3; 5];
     completion := fun _ _ _ => CompletionFailed "timed out";
     patch := fun _ _ _ => Patched 204;
     write := fun _ _ => WriteFailed "[Errno 13] Permission denied" |}.

Definition local_one_row : Local :=
  {| progress_file := None; sqlite_db := Some [ayah_3; ayah_5];
     db_dir_exists := true |}.

(** A checkpoint left by an earlier run that went up to id 100 and could
    not do the records 3 and 5. *)
Definition local_resumed : Local :=
  {| progress_file :=
       Some {| last_completed_id := 100; total_generated := 98; errors := [];
               started_at := "2025-01-01T00:00:00"; updated_at := None |};
     sqlite_db := Some [ayah_3; ayah_5];
     db_dir_exists := true |}.

Definition local_no_database : Local :=
  {| progress_file := None; sqlite_db := None; db_dir_exists := true |}.

Definition local_no_directory : Local :=
  {| progress_file := None; sqlite_db := None; db_dir_exists := false |}.

(** A whole run on one pending record: the store lists id 5, both
    summaries come back as "T", the PATCH is accepted. *)
Example run_on_one_record :
  let st := fst (main world_fixed_text local_one_row) in
  snd (main world_fixed_text local_one_row) = Py.Ok tt
  /\ header_ids (trace st) = [5]
  /\ header_labels (trace st) = ["2:255"%string]
  /\ patches (trace st)
     = [(5, [("context_summary_en"%string, "T"%string);
             ("context_summary_id"%string, "T"%string)])]
  /\ last_completed_id (progress st) = 5
  /\ total_generated (progress st) = 1
  /\ errors (progress st) = [].
Proof. repeat split; reflexivity. Qed.

(** The same source when the completion API is down: both listed records
    are tried three times and logged, the checkpoint does not advance. *)
Example run_with_api_down :
  let st := fst (main world_down local_one_row) in
  snd (main world_down local_one_row) = Py.Ok tt
  /\ header_ids (trace st) = [3; 5]
  /\ length (filter is_completion (trace st)) = 6%nat
  /\ patches (trace st) = []
  /\ map err_ayah_id (errors (progress st)) = [3; 5]
  /\ map err_surah_ayah (errors (progress st)) = ["1:3"%string; "2:255"%string]
  /\ map err_error (errors (progress st)) = ["timed out"%string; "timed out"%string]
  /\ last_completed_id (progress st) = 0
  /\ total_generated (progress st) = 0.
Proof. repeat split; reflexivity. Qed.

(** C1, where the code departs from it: the completion API answers "T"
    to every call and the PATCH is accepted, but the first write of the
    checkpoint raises.  The write sits inside the [try], after the counters were
    changed, so the whole record is done again: the same body is sent in
    a second PATCH, and when the record succeeds total_generated has
    grown by two. *)
Theorem success_counted_twice :
  let run := process_ayah (world_disk_full 1) ayah_5 start in
  snd run = Py.Ok true
  /\ patches (trace (fst run))
     = [(5, [("context_summary_en"%string, "T"%string);
             ("context_summary_id"%string, "T"%string)]);
        (5, [("context_summary_en"%string, "T"%string);
             ("context_summary_id"%string, "T"%string)])]
  /\ length (filter is_write_failed (trace (fst run))) = 1%nat
  /\ last_completed_id (progress (fst run)) = 5
  /\ total_generated (progress (fst run)) = total_generated (progress start) + 2.
Proof. repeat split; reflexivity. Qed.

(** C9, where the code departs from it: the summaries are generated and
    the PATCH is accepted at each of the three attempts, and each time the write of
    the checkpoint raises after the counters were changed; the write of
    the failure entry then succeeds.  [process_ayah] returns [False] and
    the entry is logged, with last_completed_id set to the record's id
    and total_generated three more than before. *)
Theorem failed_record_changes_counters :
  let run := process_ayah (world_disk_full 3) ayah_5 start in
  snd run = Py.Ok false
  /\ accepted (trace (fst run)) = [5; 5; 5]
  /\ map err_ayah_id (errors (progress (fst run))) = [5]
  /\ map err_error (errors (progress (fst run)))
     = ["[Errno 28] No space left on device"%string]
  /\ last_completed_id (progress start) = 0
  /\ last_completed_id (progress (fst run)) = 5
  /\ total_generated (progress (fst run)) = total_generated (progress start) + 3
  /\ map last_completed_id (saved (trace (fst run))) = [5]
  /\ map total_generated (saved (trace (fst run))) = [3].
Proof. repeat split; reflexivity. Qed.

Lemma exhausted_record_witness :
  let run := for_each [ayah_3; ayah_5] (process_one world_recovering 2) start in
  let st1 := fst (attempt_body world_recovering ayah_3 (announced 2 ayah_3 start)) in
  let st2 := fst (attempt_body world_recovering ayah_3 (paused 2 st1)) in
  let st3 := fst (attempt_body world_recovering ayah_3 (paused 4 st2)) in
  attempt_body world_recovering ayah_3 (announced 2 ayah_3 start)
  = (st1, Py.Raise (Py.OtherError "timed out"))
  /\ attempt_body world_recovering ayah_3 (paused 2 st1)
     = (st2, Py.Raise (Py.OtherError "timed out"))
  /\ attempt_body world_recovering ayah_3 (paused 4 st2)
     = (st3, Py.Raise (Py.OtherError "timed out"))
  /\ snd run = Py.Ok tt
  /\ header_ids (trace (fst run)) = [3; 5]
  /\ map err_ayah_id (errors (progress (fst run))) = [3]
  /\ map err_surah_ayah (errors (progress (fst run))) = ["1:3"%string]
  /\ map err_error (errors (progress (fst run))) = ["timed out"%string].
Proof.
  intros run st1 st2 st3.
  assert (H1 : attempt_body world_recovering ayah_3 (announced 2 ayah_3 start)
               = (st1, Py.Raise (Py.OtherError "timed out"))) by reflexivity.
  assert (H2 : attempt_body world_recovering ayah_3 (paused 2 st1)
               = (st2, Py.Raise (Py.OtherError "timed out"))) by reflexivity.
  assert (H3 : attempt_body world_recovering ayah_3 (paused 4 st2)
               = (st3, Py.Raise (Py.OtherError "timed out"))) by reflexivity.
  split; [exact H1 |]. split; [exact H2 |]. split; [exact H3 |].
  pose proof (exhausted_record_logged_once world_recovering 2 ayah_3 [ayah_5]
                start st1 st2 st3 _ _ _ H1 H2 H3) as Hrun.
  cbv zeta in Hrun. change (write world_recovering ?h ?p) with Written in Hrun.
  cbv iota in Hrun. subst run. rewrite Hrun.
  repeat split; reflexivity.
Defined.

(** C2 as stated fails: the completion API is down, so that the three
    attempts on record 3 raise, and the checkpoint file cannot be
    written.  The entry about record 3 is appended in memory, the write
    after it raises, and that exception ends the run: record 5, which the
    store listed too, is never announced. *)
Lemma unsaved_failure_ends_run :
  let run := main world_down_read_only local_one_row in
  let st0 := {| trace := fst (load_progress world_down_read_only local_one_row)
                         ++ [EvStoreQuery (QueryRows [3; 5])];
                progress := snd (load_progress world_down_read_only local_one_row) |} in
  let st1 := fst (attempt_body world_down_read_only ayah_3 (announced 2 ayah_3 st0)) in
  let st2 := fst (attempt_body world_down_read_only ayah_3 (paused 2 st1)) in
  snd (attempt_body world_down_read_only ayah_3 (announced 2 ayah_3 st0))
  = Py.Raise (Py.OtherError "timed out")
  /\ snd (attempt_body world_down_read_only ayah_3 (paused 2 st1))
     = Py.Raise (Py.OtherError "timed out")
  /\ snd (attempt_body world_down_read_only ayah_3 (paused 4 st2))
     = Py.Raise (Py.OtherError "timed out")
  /\ map err_ayah_id (errors (progress (fst run))) = [3]
  /\ saved (trace (fst run)) = []
  /\ snd run = Py.Raise (Py.OtherError "[Errno 13] Permission denied")
  /\ header_ids (trace (fst run)) = [3]
  /\ ~ In 5 (header_ids (trace (fst run))).
Proof.
  repeat split; try reflexivity.
  change (header_ids (trace (fst (main world_down_read_only local_one_row))))
    with [3].
  intros [H | []]. discriminate H.
Qed.


(** C10 as stated fails: the checkpoint of an earlier run stands at 100,
    the store lists the records 3 and 5 as lacking a summary; record 3
    fails again, so that the checkpoint is saved with 100, then record 5
    succeeds and the checkpoint is saved with 5. *)
Lemma checkpoint_can_go_down :
  sqlite_db local_resumed = Some [ayah_3; ayah_5]
  /\ Sorted Z.le (map id [ayah_3; ayah_5])
  /\ header_ids (trace (fst (main world_recovering local_resumed))) = [3; 5]
  /\ map last_completed_id
       (saved (trace (fst (main world_recovering local_resumed))))
     = [100; 5]
  /\ ~ Sorted Z.le
         (map last_completed_id
            (saved (trace (fst (main world_recovering local_resumed))))).
Proof.
  split; [reflexivity |].
  split; [repeat constructor; discriminate |].
  split; [reflexivity |].
  assert (Hsaved : map last_completed_id
                     (saved (trace (fst (main world_recovering local_resumed))))
                   = [100; 5]) by reflexivity.
  split; [exact Hsaved |].
  rewrite Hsaved. intros Hs.
  apply Sorted_inv in Hs. destruct Hs as [_ Hhd].
  apply HdRel_inv in Hhd. lia.
Qed.

Lemma ascending_order_witness :
  sqlite_db local_one_row = Some [ayah_3; ayah_5]
  /\ Sorted Z.le (map id [ayah_3; ayah_5])
  /\ Sorted Z.le (header_ids (trace (fst (main world_recovering local_one_row))))
  /\ Sorted Z.le
       (map last_completed_id
          (saved (trace (fst (main world_recovering local_one_row))))).
Proof.
  assert (Hsorted : Sorted Z.le (map id [ayah_3; ayah_5]))
    by (repeat constructor; discriminate).
  split; [reflexivity |]. split; [exact Hsorted |].
  destruct (ascending_order_and_checkpoint world_recovering local_one_row
              [ayah_3; ayah_5] eq_refl Hsorted) as [Hh Hs].
  split; [exact Hh |]. apply Hs. right.
  repeat constructor; discriminate.
Defined.

(** C8 fails for the generator: all three variables are set and the
    database file is missing; the store is asked for the ids without a
    summary before the SQLite query raises. *)
Lemma generator_asks_store_without_database :
  script environ_ok world_fixed_text local_no_database
  = ([EvClock "2025-01-01T00:00:00"; EvStoreQuery (QueryRows [5])],
     Py.Raise (Py.OtherError "no such table: ayat"))
  /\ existsb is_remote
       (fst (script environ_ok world_fixed_text local_no_database)) = true.
Proof. split; reflexivity. Qed.

End GeneratorFacts.

(* ================================================================== *)
(** ** Facts about the seeder *)

Module SeederFacts.

Import Seeder.

(** *** Batches *)

(** The batches that the loop of [upload_to_supabase] cuts out of
    [records], in the order of the loop. *)
Definition batches (records : list Row) : list (list Row) :=
  map (fun i => Py.slice records i (i + batch_size))
      (Py.range 0 (Z.of_nat (List.length records)) batch_size).

(** The bodies of the batch POSTs of a trace, in order. *)
Definition batch_bodies (evs : list Event) : list (list Row) :=
  flat_map (fun ev => match ev with
                      | EvPostBatch body _ => [body]
                      | _ => []
                      end) evs.

(** The bodies of the single-record POSTs of a trace, in order. *)
Definition record_bodies (evs : list Event) : list (list Row) :=
  flat_map (fun ev => match ev with
                      | EvPostRecord body _ => [body]
                      | _ => []
                      end) evs.

(** The [j]-th run of a hundred elements of [l]. *)
Definition chunk {A : Type} (l : list A) (j : nat) : list A :=
  firstn 100 (skipn (j * 100) l).

(** The number of batches for [n] records. *)
Definition batch_count (n : nat) : nat :=
  Z.to_nat ((Z.of_nat n - 0 + batch_size - 1) / batch_size).

Lemma batches_chunks (records : list Row) :
  batches records = map (chunk records) (seq 0 (batch_count (List.length records))).
Proof.
  unfold batches, Py.range. rewrite map_map.
  apply map_ext. intros j. unfold Py.slice, chunk, batch_size.
  f_equal; [| f_equal]; lia.
Qed.

Lemma firstn_plus {A : Type} (a b : nat) (l : list A) :
  firstn (a + b) l = firstn a l ++ firstn b (skipn a l).
Proof.
  revert l. induction a as [| a IH]; intros l; [reflexivity |].
  destruct l as [| x l]; cbn [Nat.add firstn skipn app].
  - now rewrite firstn_nil.
  - now rewrite IH.
Qed.

Lemma concat_chunks {A : Type} (l : list A) (n : nat) :
  concat (map (chunk l) (seq 0 n)) = firstn (n * 100) l.
Proof.
  induction n as [| n IH]; [reflexivity |].
  rewrite seq_S, map_app, concat_app, IH. cbn [Nat.add map concat].
  rewrite app_nil_r. unfold chunk.
  rewrite <- firstn_plus. f_equal. lia.
Qed.

Lemma batch_count_covers (n : nat) : (n <= batch_count n * 100)%nat.
Proof.
  unfold batch_count, batch_size.
  assert (H : 0 <= (Z.of_nat n - 0 + 100 - 1) / 100)
    by (apply Z.div_pos; lia).
  pose proof (Z.mul_succ_div_gt (Z.of_nat n - 0 + 100 - 1) 100 ltac:(lia)).
  lia.
Qed.



Lemma nth_batch (records : list Row) (j : nat) :
  (j < List.length (batches records))%nat ->
  nth j (batches records) [] = chunk records j.
Proof.
  rewrite batches_chunks, length_map, length_seq. intros Hj.
  rewrite nth_indep with (d' := chunk records 0)
    by now rewrite length_map, length_seq.
  rewrite map_nth, seq_nth by exact Hj. reflexivity.
Qed.



(** *** The upload loop *)

Section Facts.

Variable W : World.

Ltac run_step :=
  cbv beta iota zeta delta [bind get emit modify ret raise try_except];
  cbn [app].

Lemma batch_bodies_app (xs ys : list Event) :
  batch_bodies (xs ++ ys) = batch_bodies xs ++ batch_bodies ys.
Proof. apply flat_map_app. Qed.

Lemma record_bodies_app (xs ys : list Event) :
  record_bodies (xs ++ ys) = record_bodies xs ++ record_bodies ys.
Proof. apply flat_map_app. Qed.

(** The outcome of one single-record POST is passed over unless it is an
    exception other than [HTTPError]. *)
Definition passed_over (o : PostOutcome) : bool :=
  match o with
  | PostFailed (Py.OtherError _) => false
  | _ => true
  end.

(** The fallback posts the records one by one, in order, and stops only
    at an exception that is not an [HTTPError], which it lets through. *)
Lemma retry_individually_spec (batch : list Row) :
  forall h,
  exists (outcomes : list PostOutcome) (r : Py.Result unit),
    retry_individually W batch h
    = (h ++ map (fun ro => EvPostRecord [fst ro] (snd ro))
              (combine batch outcomes), r)
    /\ (length outcomes <= length batch)%nat
    /\ forallb passed_over (removelast outcomes) = true
    /\ match r with
       | Py.Ok _ =>
           length outcomes = length batch
           /\ forallb passed_over outcomes = true
       | Py.Raise e =>
           exists msg, e = Py.OtherError msg
                       /\ last outcomes (Responded 0) = PostFailed e
       | Py.Exit _ => False
       end.
Proof.
  unfold retry_individually.
  induction batch as [| record batch IH]; intros h.
  - exists [], (Py.Ok tt). cbn. rewrite app_nil_r. repeat split; lia.
  - cbn [for_each]. set (go_on := for_each batch _).
    unfold post_record. run_step.
    destruct (post W h [record]) as [status | [code reason body | msg]] eqn:Ho;
      subst go_on.
    + destruct (IH (h ++ [EvPostRecord [record] (Responded status)]))
        as (outcomes & r & Heq & Hlen & Hinit & Hr).
      rewrite Heq. exists (Responded status :: outcomes), r.
      cbn [combine map fst snd length]. rewrite <- app_assoc. cbn [app].
      repeat split; [lia | |].
      * destruct outcomes; [reflexivity |]. exact Hinit.
      * destruct r as [[] | e | c]; [| | exact Hr].
        -- destruct Hr as [Hl Hall]. split; [now rewrite Hl | exact Hall].
        -- destruct Hr as (msg & -> & Hlast). exists msg. split; [reflexivity |].
           destruct outcomes; [discriminate Hlast | exact Hlast].
    + destruct (IH (h ++ [EvPostRecord [record]
                            (PostFailed (Py.HTTPError code reason body))]))
        as (outcomes & r & Heq & Hlen & Hinit & Hr).
      rewrite Heq.
      exists (PostFailed (Py.HTTPError code reason body) :: outcomes), r.
      cbn [combine map fst snd length]. rewrite <- app_assoc. cbn [app].
      repeat split; [lia | |].
      * destruct outcomes; [reflexivity |]. exact Hinit.
      * destruct r as [[] | e | c]; [| | exact Hr].
        -- destruct Hr as [Hl Hall]. split; [now rewrite Hl | exact Hall].
        -- destruct Hr as (msg & -> & Hlast). exists msg. split; [reflexivity |].
           destruct outcomes; [discriminate Hlast | exact Hlast].
    + exists [PostFailed (Py.OtherError msg)], (Py.Raise (Py.OtherError msg)).
      cbn [combine map fst snd length].
      split; [destruct batch; reflexivity |].
      split; [cbn [length]; lia |].
      split; [reflexivity |].
      exists msg. split; reflexivity.
Qed.


Lemma record_posts_no_batch (l : list (Row * PostOutcome)) :
  batch_bodies (map (fun ro => EvPostRecord [fst ro] (snd ro)) l) = [].
Proof. induction l as [| x l IH]; [reflexivity | exact IH]. Qed.

(** An [HTTPError] as the answer to a batch POST. *)
Definition http_error (o : PostOutcome) : bool :=
  match o with
  | PostFailed (Py.HTTPError _ _ _) => true
  | _ => false
  end.

(** The answers to the batch POSTs of a trace, in order. *)
Definition batch_outcomes (evs : list Event) : list PostOutcome :=
  flat_map (fun ev => match ev with
                      | EvPostBatch _ outcome => [outcome]
                      | _ => []
                      end) evs.

Lemma batch_outcomes_app (xs ys : list Event) :
  batch_outcomes (xs ++ ys) = batch_outcomes xs ++ batch_outcomes ys.
Proof. apply flat_map_app. Qed.

Lemma record_posts_no_outcome (l : list (Row * PostOutcome)) :
  batch_outcomes (map (fun ro => EvPostRecord [fst ro] (snd ro)) l) = [].
Proof. induction l as [| x l IH]; [reflexivity | exact IH]. Qed.

(** One turn of the loop: the batch is announced and posted once; the
    turn ends normally unless the POST was answered by an [HTTPError] and
    its handler let an exception through (from reading the body of the
    error, or from the fallback). *)
Lemma upload_batch_spec (records : list Row) (i : Z) (h : State) :
  exists evs r o,
    upload_batch W records i h = (h ++ evs, r)
    /\ batch_bodies evs = [Py.slice records i (i + batch_size)]
    /\ batch_outcomes evs = [o]
    /\ (r = Py.Ok tt
        \/ exists msg, r = Py.Raise (Py.OtherError msg) /\ http_error o = true).
Proof.
  unfold upload_batch, post_batch.
  set (batch := Py.slice records i (i + batch_size)).
  set (retry := retry_individually W batch).
  run_step.
  match goal with
  | |- context [post W ?h1 batch] =>
      destruct (post W h1 batch)
        as [status | [code reason [body | unread] | msg]] eqn:Ho
  end.
  - destruct ((status =? 200) || (status =? 201)); eexists _, _, _;
      (split; [rewrite <- !app_assoc; reflexivity |]);
      (split; [reflexivity |]); (split; [reflexivity | left; reflexivity]).
  - destruct (code =? 409) eqn:Hc.
    + subst retry.
      match goal with
      | |- context [retry_individually W batch ?h2] =>
          destruct (retry_individually_spec batch h2)
            as (outcomes & r & Heq & _ & _ & Hr)
      end.
      rewrite Heq. eexists _, r, _. split; [| split; [| split]].
      * rewrite <- !app_assoc. reflexivity.
      * cbn [app].
        change (batch_bodies (?a :: ?b :: ?c :: ?d :: ?l))
          with (batch_bodies [a; b; c; d] ++ batch_bodies l).
        rewrite record_posts_no_batch. reflexivity.
      * cbn [app].
        change (batch_outcomes (?a :: ?b :: ?c :: ?d :: ?l))
          with (batch_outcomes [a; b; c; d] ++ batch_outcomes l).
        rewrite record_posts_no_outcome. reflexivity.
      * destruct r as [[] | e | c]; [left; reflexivity | | contradiction].
        destruct Hr as (msg & -> & _). right. exists msg. split; reflexivity.
    + eexists _, _, _. split; [rewrite <- !app_assoc; reflexivity |].
      split; [reflexivity |]. split; [reflexivity | left; reflexivity].
  - eexists _, _, _. split; [rewrite <- !app_assoc; reflexivity |].
    split; [reflexivity |]. split; [reflexivity |].
    right. exists unread. split; reflexivity.
  - eexists _, _, _. split; [rewrite <- !app_assoc; reflexivity |].
    split; [reflexivity |]. split; [reflexivity | left; reflexivity].
Qed.




(** When single-record POSTs return or fail with an HTTP error, the
    fallback goes through the whole batch. *)
Lemma retry_individually_http (batch : list Row) :
  (forall h' record msg, post W h' [record] <> PostFailed (Py.OtherError msg)) ->
  forall h,
  exists outcomes,
    length outcomes = length batch
    /\ retry_individually W batch h
       = (h ++ map (fun ro => EvPostRecord [fst ro] (snd ro))
                (combine batch outcomes), Py.Ok tt).
Proof.
  intros Hhttp. unfold retry_individually.
  induction batch as [| record batch IH]; intros h.
  - exists []. cbn. rewrite app_nil_r. split; reflexivity.
  - cbn [for_each]. set (go_on := for_each batch _).
    unfold post_record. run_step.
    destruct (post W h [record]) as [status | [code reason body | msg]] eqn:Ho;
      subst go_on.
    + destruct (IH (h ++ [EvPostRecord [record] (Responded status)]))
        as (outcomes & Hlen & Heq).
      rewrite Heq. exists (Responded status :: outcomes).
      cbn [combine map fst snd length]. rewrite <- app_assoc, Hlen.
      split; reflexivity.
    + destruct (IH (h ++ [EvPostRecord [record]
                            (PostFailed (Py.HTTPError code reason body))]))
        as (outcomes & Hlen & Heq).
      rewrite Heq.
      exists (PostFailed (Py.HTTPError code reason body) :: outcomes).
      cbn [combine map fst snd length]. rewrite <- app_assoc, Hlen.
      split; reflexivity.
    + exfalso. exact (Hhttp _ _ _ Ho).
Qed.

(** A batch whose POST is answered by 409 with a readable body, in a
    world where a single-record POST returns or fails with an HTTP error:
    the batch is reported as failed, then every record of the batch is
    posted on its own, in order; whatever these POSTs answer, nothing
    more is reported and the turn of the loop ends normally. *)
Lemma fallback_over_http_errors (records : list Row) (i : Z) (h : State)
  (reason body : string) :
  let batch := Py.slice records i (i + batch_size) in
  let batch_num := i / batch_size + 1 in
  let total_batches :=
    (Z.of_nat (length records) + batch_size - 1) / batch_size in
  let announced :=
    h ++ [EvReport (Uploading batch_num total_batches (Z.of_nat (length batch)))] in
  let conflict := PostFailed (Py.HTTPError 409 reason (Py.Text body)) in
  post W announced batch = conflict ->
  (forall h' record msg, post W h' [record] <> PostFailed (Py.OtherError msg)) ->
  exists outcomes,
    length outcomes = length batch
    /\ upload_batch W records i h
       = (announced
          ++ EvPostBatch batch conflict
             :: EvReport (BatchFailedHTTP batch_num 409 body)
             :: EvReport RetryingIndividually
             :: map (fun ro => EvPostRecord [fst ro] (snd ro))
                  (combine batch outcomes),
          Py.Ok tt).
Proof.
  intros batch batch_num total_batches announced conflict Hpost Hhttp.
  unfold upload_batch, post_batch.
  fold batch. fold batch_num. fold total_batches.
  set (retry := retry_individually W batch).
  run_step. fold announced. rewrite Hpost. subst conflict.
  cbv beta iota zeta. change (409 =? 409) with true. cbv beta iota.
  subst retry.
  match goal with
  | |- context [retry_individually W batch ?h2] =>
      destruct (retry_individually_http batch Hhttp h2)
        as (outcomes & Hlen & Heq)
  end.
  rewrite Heq. exists outcomes. split; [exact Hlen |].
  f_equal. repeat (rewrite <- app_assoc; cbn [app]). reflexivity.
Qed.


(** *** Errors that are not conflicts *)

(** What is printed for an exception of the batch POST whose handler
    gets as far as printing. *)
Definition failure_report (batch_num : Z) (e : Py.Exn) : Report :=
  match e with
  | Py.HTTPError code _ (Py.Text body) => BatchFailedHTTP batch_num code body
  | Py.HTTPError code _ (Py.Unreadable msg) => BatchError batch_num msg
  | Py.OtherError msg => BatchError batch_num msg
  end.

Definition is_conflict (e : Py.Exn) : bool :=
  match e with
  | Py.HTTPError code _ _ => code =? 409
  | Py.OtherError _ => false
  end.

(** An [HTTPError] whose body cannot be read or decoded. *)
Definition is_unreadable (e : Py.Exn) : bool :=
  match e with
  | Py.HTTPError _ _ (Py.Unreadable _) => true
  | _ => false
  end.

(** A batch POST that raises anything but a 409, the body of an HTTP
    error being readable, is reported, and the turn of the loop ends
    normally. *)
Lemma batch_error_reported (records : list Row) (i : Z) (h : State) (e : Py.Exn) :
  let batch := Py.slice records i (i + batch_size) in
  let batch_num := i / batch_size + 1 in
  let total_batches :=
    (Z.of_nat (length records) + batch_size - 1) / batch_size in
  let announced :=
    h ++ [EvReport (Uploading batch_num total_batches (Z.of_nat (length batch)))] in
  post W announced batch = PostFailed e ->
  is_conflict e = false ->
  is_unreadable e = false ->
  upload_batch W records i h
  = (announced ++ [EvPostBatch batch (PostFailed e);
                   EvReport (failure_report batch_num e)], Py.Ok tt).
Proof.
  intros batch batch_num total_batches announced Hpost Hc Hu.
  unfold upload_batch, post_batch.
  fold batch. fold batch_num. fold total_batches.
  set (retry := retry_individually W batch).
  run_step. fold announced. rewrite Hpost.
  destruct e as [code reason [body | unread] | msg];
    cbn [is_conflict is_unreadable] in Hc, Hu;
    try discriminate Hu;
    cbv beta iota zeta; [rewrite Hc |];
    rewrite <- !app_assoc; reflexivity.
Qed.

(** In a world without 409 answers, where the body of an HTTP error can
    be read, every batch is posted and the upload returns. *)
Lemma upload_without_conflict (ayat_list : list Ayah) (h : State) :
  (forall h' body e, post W h' body = PostFailed e ->
                     is_conflict e = false /\ is_unreadable e = false) ->
  exists evs,
    upload_to_supabase W ayat_list h = (h ++ evs, Py.Ok tt)
    /\ batch_bodies evs = batches (map to_row ayat_list).
Proof.
  intros Hno. unfold upload_to_supabase, batches.
  set (records := map to_row ayat_list).
  generalize (Py.range 0 (Z.of_nat (length records)) batch_size) as indices.
  intros indices. revert h.
  induction indices as [| i indices IH]; intros h.
  - exists []. cbn. rewrite app_nil_r. split; reflexivity.
  - cbn [for_each map]. unfold bind.
    assert (Hturn : exists evs,
               upload_batch W records i h = (h ++ evs, Py.Ok tt)
               /\ batch_bodies evs = [Py.slice records i (i + batch_size)]).
    { destruct (upload_batch_spec records i h) as (evs & r & o & Heq & Hb & _ & Hr).
      exists evs. split; [| exact Hb].
      destruct Hr as [-> | (msg & -> & _)]; [exact Heq | exfalso].
      (* a raise out of the turn needs a 409 first *)
      revert Heq. unfold upload_batch, post_batch.
      set (retry := retry_individually W _). run_step.
      match goal with
      | |- context [post W ?h1 ?b] =>
          destruct (post W h1 b) as [status | e] eqn:Ho
      end.
      - destruct ((status =? 200) || (status =? 201)); discriminate.
      - destruct (Hno _ _ _ Ho) as [Hc Hu].
        destruct e as [code reason [body | unread] | m];
          cbn [is_conflict is_unreadable] in Hc, Hu; try discriminate Hu;
          cbv beta iota zeta; [rewrite Hc |]; discriminate. }
    destruct Hturn as (evs & Heq & Hb). rewrite Heq.
    destruct (IH (h ++ evs)) as (evs' & Heq' & Hb').
    rewrite Heq'. exists (evs ++ evs').
    rewrite <- app_assoc, batch_bodies_app, Hb, Hb'. split; reflexivity.
Qed.

End Facts.

(** *** Start-up *)

Lemma seeder_checks_environment (environ : Environ) (W : World) (local : Local) :
  Py.truthy (SUPABASE_URL environ) = false
  \/ Py.truthy (SUPABASE_SERVICE_ROLE environ) = false ->
  script environ W local = ([], Py.Exit 1).
Proof.
  intros H. unfold script.
  destruct H as [-> | ->]; [| rewrite andb_false_r]; reflexivity.
Qed.

(** Without the database file [main] exits before any request. *)
Lemma seeder_checks_database (environ : Environ) (W : World) (local : Local) :
  sqlite_db local = None ->
  script environ W local = ([], Py.Exit 1).
Proof.
  intros Hdb. unfold script, main. rewrite Hdb.
  destruct (Py.truthy _ && Py.truthy _); reflexivity.
Qed.

(** *** Concrete runs *)

Definition numbered (n : nat) : Ayah :=
  {| id := Z.of_nat n; surah_id := 2; ayah_number := Z.of_nat n;
     text_uthmani := "alif lam mim"; text_simple := "alif lam mim";
     juz_number := 1; page_number := 2;
     translation_en := Some "Alif, Lam, Meem"%string;
     translation_id := None |}.

Definition rows_3 : list Ayah := map numbered (seq 1 3).

Definition rows_101 : list Ayah := map numbered (seq 1 101).

(** Every batch is answered by 409; a single record is accepted when its
    id is odd and refused with 409 when it is even. *)
Definition world_conflict : World :=
  {| post := fun _ body =>
       match body with
       | [record] =>
           if Z.odd (row_id record) then Responded 201
           else PostFailed (Py.HTTPError 409 "Conflict" (Py.Text "duplicate key"))
       | _ => PostFailed (Py.HTTPError 409 "Conflict" (Py.Text "duplicate key"))
       end;
     count_query := fun _ => Counted 3 |}.

(** Every batch of more than one record is answered by 409, and the
    connection is lost when a single record is sent. *)
Definition world_conflict_then_timeout : World :=
  {| post := fun _ body =>
       match body with
       | [_] => PostFailed (Py.OtherError "timed out")
       | _ => PostFailed (Py.HTTPError 409 "Conflict" (Py.Text "duplicate key"))
       end;
     count_query := fun _ => NotCounted |}.

(** The fallback on three records, the second of which is refused with
    409: all three are posted on their own and the 409 is passed over. *)
Example fallback_on_three_records :
  let records := map to_row rows_3 in
  snd (upload_batch world_conflict records 0 []) = Py.Ok tt
  /\ record_bodies (fst (upload_batch world_conflict records 0 []))
     = map (fun r => [r]) records
  /\ flat_map (fun ev => match ev with
                         | EvPostRecord _ o => [o]
                         | _ => []
                         end) (fst (upload_batch world_conflict records 0 []))
     = [Responded 201;
        PostFailed (Py.HTTPError 409 "Conflict" (Py.Text "duplicate key"));
        Responded 201].
Proof. repeat split; reflexivity. Qed.

(** A batch is answered by 409; a single record is accepted, except the
    record with id 2, on which the connection is lost. *)
Definition world_conflict_lost_on_2 : World :=
  {| post := fun _ body =>
       match body with
       | [record] =>
           if row_id record =? 2 then PostFailed (Py.OtherError "timed out")
           else Responded 201
       | _ => PostFailed (Py.HTTPError 409 "Conflict" (Py.Text "duplicate key"))
       end;
     count_query := fun _ => Counted 1 |}.

(** A batch is answered by 409 with a body that is not valid UTF-8. *)
Definition world_conflict_unreadable : World :=
  {| post := fun _ body =>
       match body with
       | [_] => Responded 201
       | _ =>
           PostFailed
             (Py.HTTPError 409 "Conflict"
                (Py.Unreadable "'utf-8' codec can't decode byte 0xff in position 0"))
       end;
     count_query := fun _ => Counted 0 |}.

(** C6 fails on these runs.  Three records make one batch, answered by
    409.  In the first run the single-record POST of record 2 raises a
    time-out, which is not an [HTTPError]: the records 1 and 2 have been
    submitted on their own, record 3 never is, and the exception leaves
    [upload_to_supabase].  In the second run the body of the 409 cannot
    be decoded: the handler raises before the fallback, and no record is
    submitted on its own. *)
Theorem fallback_leaves_records_out :
  let records := map to_row rows_3 in
  let lost := upload_to_supabase world_conflict_lost_on_2 rows_3 [] in
  let unread := upload_to_supabase world_conflict_unreadable rows_3 [] in
  batch_bodies (fst lost) = [records]
  /\ record_bodies (fst lost) = [[to_row (numbered 1)]; [to_row (numbered 2)]]
  /\ snd lost = Py.Raise (Py.OtherError "timed out")
  /\ batch_bodies (fst unread) = [records]
  /\ record_bodies (fst unread) = []
  /\ snd unread
     = Py.Raise (Py.OtherError "'utf-8' codec can't decode byte 0xff in position 0").
Proof. repeat split; reflexivity. Qed.

(** C7 fails on this run: 101 records make two batches; the first batch
    is answered by 409 and the first single-record POST of the fallback
    raises a time-out, which leaves [upload_to_supabase]; the second batch
    is never posted. *)
Lemma fallback_exception_stops_upload :
  length (batches (map to_row rows_101)) = 2%nat
  /\ snd (upload_to_supabase world_conflict_then_timeout rows_101 [])
     = Py.Raise (Py.OtherError "timed out")
  /\ length (batch_bodies
               (fst (upload_to_supabase world_conflict_then_timeout rows_101 [])))
     = 1%nat
  /\ length (record_bodies
               (fst (upload_to_supabase world_conflict_then_timeout rows_101 [])))
     = 1%nat.
Proof. repeat split; vm_compute; reflexivity. Qed.

End SeederFacts.

(* ================================================================== *)
(** ** More about the summary generator: accounting, pacing, cost *)

Module GeneratorRuns.

Import Generator GeneratorFacts.

(** *** More readings of a trace *)

(** The verdicts printed by the loop of [main], in order. *)
Definition results (evs : list Event) : list bool :=
  flat_map (fun ev => match ev with
                      | EvResult b => [b]
                      | _ => []
                      end) evs.

(** The records of a run with their verdicts. *)
Definition outcomes (evs : list Event) : list (Z * bool) :=
  combine (header_ids evs) (results evs).

Definition succeeded (evs : list Event) : list Z :=
  map fst (filter (fun o => snd o) (outcomes evs)).

Definition failed (evs : list Event) : list Z :=
  map fst (filter (fun o => negb (snd o)) (outcomes evs)).


(** The answers of the store to the PATCH requests, in order. *)
Definition patch_outcomes (evs : list Event) : list PatchOutcome :=
  flat_map (fun ev => match ev with
                      | EvPatch _ _ o => [o]
                      | _ => []
                      end) evs.

(** The seconds slept, in order. *)
Definition sleeps (evs : list Event) : list Z :=
  flat_map (fun ev => match ev with
                      | EvSleep s => [s]
                      | _ => []
                      end) evs.

Definition completions (evs : list Event) : nat :=
  length (filter is_completion evs).

Lemma results_app (xs ys : list Event) : results (xs ++ ys) = results xs ++ results ys.
Proof. apply flat_map_app. Qed.

Lemma patch_outcomes_app (xs ys : list Event) :
  patch_outcomes (xs ++ ys) = patch_outcomes xs ++ patch_outcomes ys.
Proof. apply flat_map_app. Qed.

Lemma sleeps_app (xs ys : list Event) : sleeps (xs ++ ys) = sleeps xs ++ sleeps ys.
Proof. apply flat_map_app. Qed.

Lemma completions_app (xs ys : list Event) :
  completions (xs ++ ys) = (completions xs + completions ys)%nat.
Proof. unfold completions. now rewrite filter_app, length_app. Qed.


(** No write of the checkpoint raises. *)
Definition writes_succeed (W : World) : Prop :=
  forall h p, write W h p = Written.

Section Runs.

Variable W : World.

Ltac run_step :=
  cbv beta iota zeta
    delta [bind get emit modify update_progress ret raise sleep
           isoformat_now trace progress];
  cbn [app last_completed_id total_generated errors started_at updated_at].













(** *** Pacing of the completion calls *)

(** Whether at least [MIN_DELAY] seconds were slept in one go since the
    last completion call, after the events [evs]; [rested] is the answer
    before them. *)
Fixpoint rested_after (rested : bool) (evs : list Event) : bool :=
  match evs with
  | [] => rested
  | EvCompletion _ _ _ :: rest => rested_after false rest
  | EvSleep s :: rest => rested_after (rested || (MIN_DELAY <=? s)) rest
  | _ :: rest => rested_after rested rest
  end.

(** Every completion call of [evs] comes after such a sleep. *)
Fixpoint paced (rested : bool) (evs : list Event) : bool :=
  match evs with
  | [] => true
  | EvCompletion _ _ _ :: rest => rested && paced false rest
  | EvSleep s :: rest => paced (rested || (MIN_DELAY <=? s)) rest
  | _ :: rest => paced rested rest
  end.

Lemma rested_after_app (r : bool) (xs ys : list Event) :
  rested_after r (xs ++ ys) = rested_after (rested_after r xs) ys.
Proof.
  revert r. induction xs as [| x xs IH]; intros r; [reflexivity |].
  destruct x; cbn [app rested_after]; apply IH.
Qed.

Lemma paced_app (r : bool) (xs ys : list Event) :
  paced r (xs ++ ys) = paced r xs && paced (rested_after r xs) ys.
Proof.
  revert r. induction xs as [| x xs IH]; intros r; [reflexivity |].
  destruct x; cbn [app paced rested_after]; rewrite ?IH, ?andb_assoc; reflexivity.
Qed.

(** A stretch of events that leaves the run rested, starting unrested,
    holds a long enough sleep. *)
Lemma rested_after_sleep (mid : list Event) :
  rested_after false mid = true ->
  exists s, In (EvSleep s) mid /\ MIN_DELAY <= s.
Proof.
  assert (H : forall r, rested_after r mid = true ->
                        r = true \/ exists s, In (EvSleep s) mid /\ MIN_DELAY <= s).
  { induction mid as [| x mid IH]; intros r Hr; [left; exact Hr |].
    destruct x; cbn [rested_after] in Hr;
      try (destruct (IH _ Hr) as [Hl | (s & Hin & Hs)];
           [left; exact Hl | right; exists s; split; [right; exact Hin | exact Hs]]).
    - destruct (IH _ Hr) as [Hl | (s & Hin & Hs)]; [discriminate |].
      right. exists s. split; [right; exact Hin | exact Hs].
    - destruct (IH _ Hr) as [Hl | (s & Hin & Hs)].
      + apply orb_true_iff in Hl. destruct Hl as [Hl | Hl]; [left; exact Hl |].
        right. exists seconds. split; [left; reflexivity | now apply Z.leb_le].
      + right. exists s. split; [right; exact Hin | exact Hs]. }
  intros Hr. destruct (H false Hr) as [Hf | Hs]; [discriminate | exact Hs].
Qed.

Lemma paced_between (r : bool) (pre mid post : list Event)
  (l1 p1 l2 p2 : string) (o1 o2 : CompletionOutcome) :
  paced r (pre ++ EvCompletion l1 p1 o1 :: mid ++ EvCompletion l2 p2 o2 :: post)
  = true ->
  exists s, In (EvSleep s) mid /\ MIN_DELAY <= s.
Proof.
  rewrite paced_app. intros H. apply andb_true_iff in H. destruct H as [_ H].
  cbn [paced] in H. apply andb_true_iff in H. destruct H as [_ H].
  rewrite paced_app in H. apply andb_true_iff in H. destruct H as [_ H].
  cbn [paced] in H. apply andb_true_iff in H. destruct H as [H _].
  apply rested_after_sleep. exact H.
Qed.

Lemma unit_run_paced (a : Ayah) (evs : list Event) (r : option Py.Exn) :
  unit_run W a evs r ->
  paced true evs = true /\ forall b, rested_after b evs = false.
Proof. intros H. destruct H; split; intros; reflexivity. Qed.

Lemma attempt_run_paced (a : Ayah) (p p1 : Progress) (evs : list Event)
  (o : option Py.Exn) :
  attempt_run W a p evs o p1 ->
  paced true evs = true /\ forall b, rested_after b evs = false.
Proof.
  intros H. destruct H as [evs e Hu | evs ts Hu Hw | evs ts msg Hu Hw];
    destruct (unit_run_paced _ _ _ Hu) as [Hp Hr];
    (split; [| intros b]); rewrite ?paced_app, ?rested_after_app, ?Hp, ?Hr;
    reflexivity.
Qed.

Lemma backoff_long_enough (k : Z) :
  1 <= k -> (MIN_DELAY <=? MIN_DELAY * BACKOFF_MULTIPLIER ^ (k - 1)) = true.
Proof.
  intros Hk. apply Z.leb_le. unfold MIN_DELAY, BACKOFF_MULTIPLIER.
  pose proof (Z.pow_pos_nonneg 2 (k - 1) ltac:(lia) ltac:(lia)). lia.
Qed.

Lemma process_trace_paced (a : Ayah) (p p' : Progress) (k : Z)
  (evs : list Event) (r : Py.Result bool) :
  process_trace W a p k evs r p' ->
  1 <= k ->
  paced true evs = true /\ forall b, rested_after b evs = false.
Proof.
  intros H.
  induction H as [p k evs p1 Hrun
                 | p k evs e p1 rest r p' Hk Hrun Hrest IH
                 | p evs e p1 ts ts' Hrun Hw
                 | p evs e p1 ts ts' msg Hrun Hw]; intros H1;
    destruct (attempt_run_paced _ _ _ _ _ Hrun) as [Hp Hr].
  - split; assumption.
  - destruct IH as [IHp IHr]; [lia |].
    split; [| intros b]; rewrite ?paced_app, ?rested_after_app, ?Hp, ?Hr;
      cbn [paced rested_after andb orb]; rewrite backoff_long_enough by exact H1.
    + exact IHp.
    + apply IHr.
  - split; [| intros b]; rewrite ?paced_app, ?rested_after_app, ?Hp, ?Hr;
      reflexivity.
  - split; [| intros b]; rewrite ?paced_app, ?rested_after_app, ?Hp, ?Hr;
      reflexivity.
Qed.

Lemma loop_trace_paced (total : Z) (p p_end : Progress)
  (remaining : list Ayah) (evs : list Event) (r : Py.Result unit) :
  loop_trace W total p remaining evs r p_end ->
  paced true evs = true.
Proof.
  assert (H : loop_trace W total p remaining evs r p_end ->
              paced true evs = true
              /\ (r = Py.Ok tt -> rested_after true evs = true)).
  { intros H.
    induction H as [p | p a rest evs b p1 evs_rest r p_end Htr Hloop IH
                    | p a rest evs msg p1 Htr].
    - split; reflexivity.
    - destruct (process_trace_paced _ _ _ _ _ _ Htr ltac:(lia)) as [Hp Hr].
      destruct IH as [IHp IHr].
      cbn [paced rested_after].
      rewrite paced_app, rested_after_app, Hp, Hr.
      cbn [paced rested_after andb orb].
      change (MIN_DELAY <=? MIN_DELAY) with true. cbn [orb].
      split; assumption.
    - destruct (process_trace_paced _ _ _ _ _ _ Htr ltac:(lia)) as [Hp Hr].
      cbn [paced]. split; [exact Hp | discriminate]. }
  intros Hl. exact (proj1 (H Hl)).
Qed.

(** X3. Pacing.  In a run, between any two calls of the completion API
    there is a sleep of at least MIN_DELAY seconds, whether the calls
    belong to one attempt, to two attempts of a record or to two
    records, and however the first of them ended. *)
Theorem completion_calls_are_paced (local : Local) (rows : list Ayah)
  (pre mid post : list Event) (l1 p1 l2 p2 : string) (o1 o2 : CompletionOutcome) :
  sqlite_db local = Some rows ->
  trace (fst (main W local))
  = pre ++ EvCompletion l1 p1 o1 :: mid ++ EvCompletion l2 p2 o2 :: post ->
  exists s, In (EvSleep s) mid /\ MIN_DELAY <= s.
Proof.
  intros Hdb Hsplit.
  destruct (main_spec W local rows Hdb) as (evs & r & p_end & Heq & Hloop).
  pose proof (loop_trace_paced _ _ _ _ _ _ Hloop) as Hp.
  apply (paced_between true pre mid post l1 p1 l2 p2 o1 o2).
  rewrite <- Hsplit, Heq. cbn [fst trace].
  unfold load_progress.
  destruct (progress_file local); cbn [fst app paced rested_after]; exact Hp.
Qed.

(** *** PATCH requests and writes of the checkpoint *)

Lemma patches_length (evs : list Event) :
  length (patches evs) = length (patch_outcomes evs).
Proof.
  induction evs as [| ev evs IH]; [reflexivity |].
  destruct ev; cbn [patches patch_outcomes flat_map app length] in *;
    fold (patches evs); fold (patch_outcomes evs); lia.
Qed.

Lemma attempt_run_writes (a : Ayah) (p p1 : Progress) (evs : list Event)
  (o : option Py.Exn) :
  attempt_run W a p evs o p1 ->
  (length (patches evs) <= 1)%nat
  /\ match o with
     | None => length (accepted evs) = 1%nat /\ unsaved evs = []
     | Some _ => length (accepted evs) = length (unsaved evs)
     end.
Proof.
  intros H. destruct H as [evs e Hu | evs ts Hu Hw | evs ts msg Hu Hw];
    pose proof (unit_run_accepted W _ _ _ Hu) as Ha;
    destruct (unit_run_saved W _ _ _ Hu) as (_ & _ & _ & Hun);
    cbn beta iota in Ha;
    rewrite ?patches_app, ?accepted_app, ?unsaved_app, ?length_app, Ha, Hun;
    (split; [destruct Hu; cbn; lia |]); repeat split.
Qed.

Lemma process_trace_writes (a : Ayah) (p p' : Progress) (k : Z)
  (evs : list Event) (r : Py.Result bool) :
  process_trace W a p k evs r p' ->
  k <= MAX_RETRIES ->
  Z.of_nat (length (patches evs)) <= MAX_RETRIES - k + 1
  /\ match r with
     | Py.Ok true => length (accepted evs) = S (length (unsaved evs))
     | Py.Ok false => length (accepted evs) = length (unsaved evs)
     | _ => S (length (accepted evs)) = length (unsaved evs)
     end.
Proof.
  intros H.
  induction H as [p k evs p1 Hrun
                 | p k evs e p1 rest r p' Hk Hrun Hrest IH
                 | p evs e p1 ts ts' Hrun Hw
                 | p evs e p1 ts ts' msg Hrun Hw]; intros Hle;
    destruct (attempt_run_writes _ _ _ _ _ Hrun) as [Hp Hw'];
    cbn beta iota in Hw'.
  - destruct Hw' as [Ha Hu]. rewrite Ha, Hu. split; [lia | reflexivity].
  - destruct IH as [IHp IHw]; [lia |].
    change (evs ++ EvSleep ?s :: rest) with (evs ++ [EvSleep s] ++ rest).
    rewrite !patches_app, !accepted_app, !unsaved_app, !length_app.
    cbn [patches accepted unsaved flat_map app length].
    split; [lia |].
    destruct r as [[] | e' | c]; lia.
  - rewrite !patches_app, !accepted_app, !unsaved_app, !length_app.
    cbn [patches accepted unsaved flat_map app length].
    split; lia.
  - rewrite !patches_app, !accepted_app, !unsaved_app, !length_app.
    cbn [patches accepted unsaved flat_map app length].
    split; lia.
Qed.

(** X4. The PATCH requests and the writes of one record.
    [process_ayah] sends at most three PATCH requests and ends in one of
    three ways.  It returns [True]: the checkpoint in memory is the one
    write that went through, and one more PATCH was answered than writes
    raised.  It returns [False]: the checkpoint in memory, with the
    failure entry, is the one write that went through, and as many PATCH
    requests were answered as writes raised.  It raises: the exception is
    that of a write of the checkpoint in memory, which is the last event
    of the call; no write went through, and one more write raised than
    PATCH requests were answered. *)
Theorem patches_and_writes (a : Ayah) (st : State) :
  exists evs r p',
    process_ayah W a st
    = ({| trace := trace st ++ evs; progress := p' |}, r)
    /\ (length (patches evs) <= 3)%nat
    /\ match r with
       | Py.Ok true =>
           length (accepted evs) = S (length (unsaved evs))
           /\ saved evs = [p']
       | Py.Ok false =>
           length (accepted evs) = length (unsaved evs)
           /\ saved evs = [p']
       | Py.Raise e =>
           S (length (accepted evs)) = length (unsaved evs)
           /\ saved evs = []
           /\ exists msg pre,
                e = Py.OtherError msg /\ evs = pre ++ [EvWriteFailed p' msg]
       | Py.Exit _ => False
       end.
Proof.
  destruct (process_ayah_spec W a st) as (evs & r & p' & Heq & Htr).
  destruct (process_trace_writes _ _ _ _ _ _ Htr) as [Hp Hw];
    [unfold MAX_RETRIES; lia |].
  destruct (process_trace_saved W _ _ _ _ _ _ Htr) as (_ & _ & Hs).
  exists evs, r, p'. split; [exact Heq |].
  unfold MAX_RETRIES in Hp. split; [lia |].
  destruct (process_trace_result W _ _ _ _ _ _ Htr) as [-> | [-> | (msg & ->)]].
  - split; assumption.
  - split; assumption.
  - split; [exact Hw |]. split; [exact Hs |].
    destruct (process_trace_raise W _ _ _ _ _ _ Htr) as (msg' & pre & Hm & Hevs & _).
    exists msg', pre. split; assumption.
Qed.

(** *** The cost of a run *)

Definition total_sleep (evs : list Event) : Z := fold_right Z.add 0 (sleeps evs).

Lemma total_sleep_app (xs ys : list Event) :
  total_sleep (xs ++ ys) = total_sleep xs + total_sleep ys.
Proof.
  unfold total_sleep. rewrite sleeps_app.
  induction (sleeps xs) as [| s l IH]; cbn [app fold_right]; lia.
Qed.

Lemma unit_run_cost (a : Ayah) (evs : list Event) (r : option Py.Exn) :
  unit_run W a evs r ->
  (1 <= completions evs <= 2)%nat
  /\ (length (patches evs) <= 1)%nat
  /\ 0 <= total_sleep evs <= MIN_DELAY.
Proof.
  intros H. destruct H; cbn; unfold MIN_DELAY; repeat split; lia.
Qed.

Lemma attempt_run_cost (a : Ayah) (p p1 : Progress) (evs : list Event)
  (o : option Py.Exn) :
  attempt_run W a p evs o p1 ->
  (1 <= completions evs <= 2)%nat
  /\ (length (patches evs) <= 1)%nat
  /\ 0 <= total_sleep evs <= MIN_DELAY.
Proof.
  intros H. destruct H as [evs e Hu | evs ts Hu Hw | evs ts msg Hu Hw];
    destruct (unit_run_cost _ _ _ Hu) as (Hc & Hp & Hs);
    rewrite ?completions_app, ?patches_app, ?length_app, ?total_sleep_app;
    cbn [completions filter is_completion patches flat_map app length];
    try match goal with
        | |- context [total_sleep [EvClock ?x; ?y]] =>
            change (total_sleep [EvClock x; y]) with 0
        end;
    repeat split; lia.
Qed.

(** The seconds that [process_ayah] may still sleep from attempt [k] on. *)
Definition sleep_budget (k : Z) : Z :=
  if k =? 1 then 12 else if k =? 2 then 8 else 2.

(** The seconds of backoff still to come when the record is exhausted
    from attempt [k] on. *)
Definition backoff_due (k : Z) : Z :=
  if k =? 1 then 6 else if k =? 2 then 4 else 0.

Lemma process_trace_cost (a : Ayah) (p p' : Progress) (k : Z)
  (evs : list Event) (r : Py.Result bool) :
  process_trace W a p k evs r p' ->
  1 <= k <= MAX_RETRIES ->
  (1 <= completions evs)%nat
  /\ Z.of_nat (completions evs) <= 2 * (MAX_RETRIES - k + 1)
  /\ Z.of_nat (length (patches evs)) <= MAX_RETRIES - k + 1
  /\ 0 <= total_sleep evs <= sleep_budget k
  /\ (r <> Py.Ok true -> backoff_due k <= total_sleep evs).
Proof.
  intros H.
  induction H as [p k evs p1 Hrun
                 | p k evs e p1 rest r p' Hk Hrun Hrest IH
                 | p evs e p1 ts ts' Hrun Hw
                 | p evs e p1 ts ts' msg Hrun Hw]; intros Hle;
    destruct (attempt_run_cost _ _ _ _ _ Hrun) as (Hc & Hp & Hs);
    unfold MAX_RETRIES, MIN_DELAY in *.
  - assert (Hb : 2 <= sleep_budget k)
      by (unfold sleep_budget; destruct (k =? 1), (k =? 2); lia).
    repeat split; try lia. congruence.
  - destruct IH as (IHc & IHc' & IHp & IHs & IHb); [lia |].
    change (EvSleep ?s :: rest) with ([EvSleep s] ++ rest).
    rewrite !completions_app, !patches_app, !length_app, !total_sleep_app.
    cbn [completions filter is_completion length patches flat_map app].
    change (total_sleep [EvSleep (2 * BACKOFF_MULTIPLIER ^ (k - 1))])
      with (2 * BACKOFF_MULTIPLIER ^ (k - 1) + 0).
    assert (Hk12 : k = 1 \/ k = 2) by lia.
    destruct Hk12 as [-> | ->].
    all: change (sleep_budget 1) with 12 in *; change (sleep_budget 2) with 8 in *;
      change (sleep_budget (1 + 1)) with 8 in *;
      change (sleep_budget (2 + 1)) with 2 in *;
      change (backoff_due 1) with 6 in *; change (backoff_due 2) with 4 in *;
      change (backoff_due (1 + 1)) with 4 in *;
      change (backoff_due (2 + 1)) with 0 in *;
      change (BACKOFF_MULTIPLIER ^ (1 - 1)) with 1;
      change (BACKOFF_MULTIPLIER ^ (2 - 1)) with 2.
    all: repeat split; try lia.
    all: intros Hr; specialize (IHb Hr); lia.
  - rewrite completions_app, patches_app, length_app, total_sleep_app.
    cbn [completions filter is_completion length patches flat_map app].
    match goal with
    | |- context [total_sleep [EvClock ?x; EvClock ?y; ?z]] =>
        change (total_sleep [EvClock x; EvClock y; z]) with 0
    end.
    change (sleep_budget 3) with 2. change (backoff_due 3) with 0.
    repeat split; lia.
  - rewrite completions_app, patches_app, length_app, total_sleep_app.
    cbn [completions filter is_completion length patches flat_map app].
    match goal with
    | |- context [total_sleep [EvClock ?x; EvClock ?y; ?z]] =>
        change (total_sleep [EvClock x; EvClock y; z]) with 0
    end.
    change (sleep_budget 3) with 2. change (backoff_due 3) with 0.
    repeat split; lia.
Qed.

Lemma loop_trace_cost (total : Z) (p p_end : Progress)
  (remaining : list Ayah) (evs : list Event) (r : Py.Result unit) :
  loop_trace W total p remaining evs r p_end ->
  let n := Z.of_nat (length (header_ids evs)) in
  n <= Z.of_nat (completions evs) <= 6 * n
  /\ Z.of_nat (length (patches evs)) <= 3 * n
  /\ 2 * n <= total_sleep evs <= 14 * n.
Proof.
  intros H.
  induction H as [p | p a rest evs b p1 evs_rest r p_end Htr Hloop IH
                  | p a rest evs msg p1 Htr].
  - cbn. lia.
  - destruct (process_trace_cost _ _ _ _ _ _ Htr ltac:(unfold MAX_RETRIES; lia))
      as (Hc & Hc' & Hp & Hs & _).
    destruct (process_trace_saved W _ _ _ _ _ _ Htr) as (Hh & _).
    cbv zeta in IH. destruct IH as (IHc & IHp & IHs).
    unfold MAX_RETRIES in *. change (sleep_budget 1) with 12 in Hs.
    cbv zeta.
    change (EvHeader ?c total ?l ?i :: ?x) with ([EvHeader c total l i] ++ x).
    change (EvResult b :: EvSleep MIN_DELAY :: evs_rest)
      with ([EvResult b; EvSleep MIN_DELAY] ++ evs_rest).
    rewrite !completions_app, !patches_app, !header_ids_app, !length_app,
      !total_sleep_app, Hh.
    cbn [completions filter is_completion length patches header_ids flat_map app].
    change (total_sleep [EvHeader (total_generated p + 1) total
                           (surah_ayah_label a) (id a)]) with 0.
    change (total_sleep [EvResult b; EvSleep MIN_DELAY]) with 2.
    fold (completions evs) (completions evs_rest).
    cbn [length] in *. lia.
  - destruct (process_trace_cost _ _ _ _ _ _ Htr ltac:(unfold MAX_RETRIES; lia))
      as (Hc & Hc' & Hp & Hs & Hb).
    destruct (process_trace_saved W _ _ _ _ _ _ Htr) as (Hh & _).
    specialize (Hb ltac:(discriminate)).
    unfold MAX_RETRIES in *. change (sleep_budget 1) with 12 in Hs.
    change (backoff_due 1) with 6 in Hb.
    cbv zeta.
    change (EvHeader ?c total ?l ?i :: ?x) with ([EvHeader c total l i] ++ x).
    rewrite !completions_app, !patches_app, !header_ids_app, !length_app,
      !total_sleep_app, Hh.
    cbn [completions filter is_completion length patches header_ids flat_map app].
    change (total_sleep [EvHeader (total_generated p + 1) total
                           (surah_ayah_label a) (id a)]) with 0.
    fold (completions evs).
    cbn [length] in *. lia.
Qed.

(** X5. The cost of a run over n records: between n and 6 n calls of
    the completion API, at most 3 n PATCH requests, and between 2 n and
    14 n seconds of sleep. *)
Theorem run_cost (local : Local) (rows : list Ayah) :
  sqlite_db local = Some rows ->
  let run := trace (fst (main W local)) in
  let n := Z.of_nat (length (header_ids run)) in
  n <= Z.of_nat (completions run) <= 6 * n
  /\ Z.of_nat (length (patches run)) <= 3 * n
  /\ 2 * n <= total_sleep run <= 14 * n.
Proof.
  intros Hdb run n.
  destruct (main_spec W local rows Hdb) as (evs & r & p_end & Heq & Hloop).
  pose proof (loop_trace_cost _ _ _ _ _ _ Hloop) as Hcost. cbv zeta in Hcost.
  assert (Hrun : completions run = completions evs
                 /\ patches run = patches evs
                 /\ total_sleep run = total_sleep evs
                 /\ header_ids run = header_ids evs).
  { subst run. rewrite Heq. cbn [fst trace].
    change (EvStoreQuery ?o :: evs) with ([EvStoreQuery o] ++ evs).
    rewrite !completions_app, !patches_app, !total_sleep_app, !header_ids_app.
    unfold load_progress. destruct (progress_file local); repeat split; reflexivity. }
  destruct Hrun as (-> & -> & -> & Hhr).
  subst n. rewrite Hhr. exact Hcost.
Qed.


(** *** What the completion API says ends up in the store and the log *)

Lemma unfold_attempt_body (a : Ayah) (h : list Event) (p : Progress) :
  attempt_body W a {| trace := h; progress := p |}
  = match completion W h "English" (prompt_en a) with
    | Completed c_en =>
        let h1 := h ++ [EvCompletion "English" (prompt_en a) (Completed c_en);
                        EvSleep MIN_DELAY] in
        match completion W h1 "Indonesian" (prompt_id a) with
        | Completed c_id =>
            let h2 := h1 ++ [EvCompletion "Indonesian" (prompt_id a) (Completed c_id)] in
            let body := summaries_body (Py.strip c_en) (Py.strip c_id) in
            match patch W h2 (id a) body with
            | Patched status =>
                let h3 := h2 ++ [EvPatch (id a) body (Patched status)] in
                let ts := now W h3 in
                let p1 := advanced p (id a) ts in
                match write W (h3 ++ [EvClock ts]) p1 with
                | Written =>
                    ({| trace := h3 ++ [EvClock ts; EvSaveProgress p1];
                        progress := p1 |}, Py.Ok true)
                | WriteFailed msg =>
                    ({| trace := h3 ++ [EvClock ts; EvWriteFailed p1 msg];
                        progress := p1 |}, Py.Raise (Py.OtherError msg))
                end
            | PatchFailed e =>
                ({| trace := h2 ++ [EvPatch (id a) body (PatchFailed e)];
                    progress := p |}, Py.Raise e)
            end
        | o =>
            ({| trace := h1 ++ [EvCompletion "Indonesian" (prompt_id a) o];
                progress := p |},
             match completion_exn o with
             | Some e => Py.Raise e
             | None => Py.Ok true
             end)
        end
    | o =>
        ({| trace := h ++ [EvCompletion "English" (prompt_en a) o];
            progress := p |},
         match completion_exn o with
         | Some e => Py.Raise e
         | None => Py.Ok true
         end)
    end.
Proof.
  unfold attempt_body, generate_summary, call_openrouter, update_supabase,
    save_progress.
  change (String.eqb "English" "English") with true.
  change (String.eqb "Indonesian" "English") with false.
  cbv iota. fold (prompt_en a). fold (prompt_id a).
  run_step.
  destruct (completion W h "English" (prompt_en a)) as [c1 | code1 b1 | m1];
    try reflexivity.
  run_step. cbv zeta. rewrite <- !app_assoc. cbn [app].
  destruct (completion W _ "Indonesian" (prompt_id a)) as [c2 | code2 b2 | m2];
    try (run_step; rewrite <- ?app_assoc; reflexivity).
  run_step. rewrite <- !app_assoc. cbn [app].
  destruct (patch W _ (id a) _) as [status | e];
    run_step; rewrite <- ?app_assoc; cbn [app]; [| reflexivity].
  unfold advanced.
  destruct (write W _ _) as [| msg]; run_step; rewrite <- ?app_assoc; reflexivity.
Qed.


(** [str.strip] leaves nothing to strip. *)

Lemma lstrip_head (s : string) (c : ascii) (t : string) :
  Py.lstrip s = String c t -> Py.is_space c = false.
Proof.
  induction s as [| d s IH]; cbn [Py.lstrip]; [discriminate |].
  destruct (Py.is_space d) eqn:Hd; [exact IH |].
  intros H. injection H as <- _. exact Hd.
Qed.

Lemma rstrip_cons (c : ascii) (t : string) :
  Py.is_space c = false -> Py.rstrip (String c t) = String c (Py.rstrip t).
Proof.
  intros Hc. cbn [Py.rstrip]. rewrite Hc. destruct (Py.rstrip t); reflexivity.
Qed.

Lemma rstrip_step (c : ascii) (s : string) :
  Py.rstrip (String c s)
  = match Py.rstrip s with
    | EmptyString => if Py.is_space c then EmptyString else String c EmptyString
    | r => String c r
    end.
Proof. reflexivity. Qed.

Lemma rstrip_idempotent (s : string) : Py.rstrip (Py.rstrip s) = Py.rstrip s.
Proof.
  induction s as [| c s IH]; [reflexivity |].
  rewrite rstrip_step. destruct (Py.rstrip s) as [| d r] eqn:Hr.
  - destruct (Py.is_space c) eqn:Hc; [reflexivity |].
    rewrite rstrip_step. cbn [Py.rstrip]. now rewrite Hc.
  - rewrite rstrip_step, IH. reflexivity.
Qed.

Lemma strip_idempotent (s : string) : Py.strip (Py.strip s) = Py.strip s.
Proof.
  unfold Py.strip. destruct (Py.lstrip s) as [| c t] eqn:Hl; [reflexivity |].
  pose proof (lstrip_head _ _ _ Hl) as Hc.
  rewrite (rstrip_cons c t Hc). cbn [Py.lstrip]. rewrite Hc.
  rewrite <- (rstrip_cons c t Hc). apply rstrip_idempotent.
Qed.

(** The first and the last character of a stripped text are not white
    space. *)
Fixpoint last_char (s : string) : option ascii :=
  match s with
  | EmptyString => None
  | String c EmptyString => Some c
  | String _ t => last_char t
  end.

Definition first_char (s : string) : option ascii :=
  match s with
  | EmptyString => None
  | String c _ => Some c
  end.

Definition no_outer_space (s : string) : Prop :=
  (forall c, first_char s = Some c -> Py.is_space c = false)
  /\ (forall c, last_char s = Some c -> Py.is_space c = false).

Lemma rstrip_last (s : string) (c : ascii) :
  last_char (Py.rstrip s) = Some c -> Py.is_space c = false.
Proof.
  induction s as [| d s IH]; [discriminate |].
  rewrite rstrip_step. destruct (Py.rstrip s) as [| e r] eqn:Hr.
  - destruct (Py.is_space d) eqn:Hd; [discriminate |].
    cbn. intros H. injection H as <-. exact Hd.
  - cbn [last_char]. exact IH.
Qed.

Lemma strip_no_outer_space (s : string) : no_outer_space (Py.strip s).
Proof.
  split; intros c Hc.
  - unfold Py.strip in Hc. destruct (Py.lstrip s) as [| d t] eqn:Hl;
      [discriminate |].
    pose proof (lstrip_head _ _ _ Hl) as Hd.
    rewrite (rstrip_cons d t Hd) in Hc. injection Hc as <-. exact Hd.
  - unfold Py.strip in Hc. exact (rstrip_last _ _ Hc).
Qed.

Definition stripped_body (body : Dict) : Prop :=
  Forall (fun kv => Py.strip (snd kv) = snd kv /\ no_outer_space (snd kv)) body.

Lemma unit_run_stripped (a : Ayah) (evs : list Event) (r : option Py.Exn) :
  unit_run W a evs r -> Forall (fun x => stripped_body (snd x)) (patches evs).
Proof.
  intros H. destruct H; cbn; repeat constructor;
    cbn [snd]; auto using strip_idempotent, strip_no_outer_space;
    apply strip_no_outer_space.
Qed.


Lemma attempt_run_stripped (a : Ayah) (p p1 : Progress) (evs : list Event)
  (o : option Py.Exn) :
  attempt_run W a p evs o p1 ->
  Forall (fun x => stripped_body (snd x)) (patches evs).
Proof.
  intros H. destruct H as [evs e Hu | evs ts Hu Hw | evs ts msg Hu Hw];
    pose proof (unit_run_stripped _ _ _ Hu) as Hs;
    rewrite ?patches_app; try exact Hs;
    apply Forall_app; (split; [exact Hs | constructor]).
Qed.

Lemma process_trace_stripped (a : Ayah) (p p' : Progress) (k : Z)
  (evs : list Event) (r : Py.Result bool) :
  process_trace W a p k evs r p' ->
  Forall (fun x => stripped_body (snd x)) (patches evs).
Proof.
  intros H.
  induction H as [p k evs p1 Hrun
                 | p k evs e p1 rest r p' Hk Hrun Hrest IH
                 | p evs e p1 ts ts' Hrun Hw
                 | p evs e p1 ts ts' msg Hrun Hw];
    pose proof (attempt_run_stripped _ _ _ _ _ Hrun) as Hs;
    rewrite ?patches_app; try exact Hs;
    apply Forall_app; split; try exact Hs.
  - exact IH.
  - constructor.
  - constructor.
Qed.

(** X6. Whatever the completion API returns, the two summaries of every
    PATCH body of a run are stripped: stripping them again changes
    nothing, and neither begins or ends with white space. *)
Theorem stored_summaries_are_stripped (local : Local) (rows : list Ayah) :
  sqlite_db local = Some rows ->
  Forall (fun x => stripped_body (snd x)) (patches (trace (fst (main W local)))).
Proof.
  intros Hdb.
  destruct (main_spec W local rows Hdb) as (evs & r & p_end & Heq & Hloop).
  rewrite Heq. cbn [fst trace].
  change (EvStoreQuery ?o :: evs) with ([EvStoreQuery o] ++ evs).
  rewrite !patches_app. apply Forall_app. split.
  - unfold load_progress. destruct (progress_file local); constructor.
  - apply Forall_app. split; [constructor |].
    clear Heq.
    induction Hloop as [p | p a rest evs b p1 evs_rest r p_end Htr Hloop IH
                        | p a rest evs msg p1 Htr];
      [constructor | |].
    + change (EvHeader ?c ?t ?l ?i :: ?x) with ([EvHeader c t l i] ++ x).
      change (EvResult b :: EvSleep MIN_DELAY :: evs_rest)
        with ([EvResult b; EvSleep MIN_DELAY] ++ evs_rest).
      rewrite !patches_app. repeat (apply Forall_app; split); try constructor.
      * exact (process_trace_stripped _ _ _ _ _ _ Htr).
      * exact IH.
    + change (EvHeader ?c ?t ?l ?i :: ?x) with ([EvHeader c t l i] ++ x).
      rewrite !patches_app. apply Forall_app. split; [constructor |].
      exact (process_trace_stripped _ _ _ _ _ _ Htr).
Qed.

(** *** When every remote call is answered *)

(** The completion API returns a text and the store accepts the PATCH,
    whenever they are called. *)
Definition answers_all : Prop :=
  (forall h language prompt, exists c, completion W h language prompt = Completed c)
  /\ (forall h ayah_id body, exists status, patch W h ayah_id body = Patched status).

Lemma process_ayah_answered (a : Ayah) (h : list Event) (p : Progress) :
  answers_all ->
  writes_succeed W ->
  exists c_en c_id status ts,
    process_ayah W a {| trace := h; progress := p |}
    = ({| trace := h ++ [EvCompletion "English" (prompt_en a) (Completed c_en);
                         EvSleep MIN_DELAY;
                         EvCompletion "Indonesian" (prompt_id a) (Completed c_id);
                         EvPatch (id a)
                           (summaries_body (Py.strip c_en) (Py.strip c_id))
                           (Patched status);
                         EvClock ts;
                         EvSaveProgress (advanced p (id a) ts)];
          progress := advanced p (id a) ts |}, Py.Ok true)
    /\ answered W "English" (prompt_en a) (Completed c_en)
    /\ answered W "Indonesian" (prompt_id a) (Completed c_id).
Proof.
  intros [Hc Hp] Hw. unfold process_ayah.
  change (Py.range 0 MAX_RETRIES 1) with [0; 1; 2].
  cbn [process_attempts]. unfold try_except.
  rewrite unfold_attempt_body.
  destruct (Hc h "English"%string (prompt_en a)) as [c_en E1]. rewrite E1.
  cbv zeta.
  match goal with
  | |- context [completion W ?h1 "Indonesian" (prompt_id a)] =>
      destruct (Hc h1 "Indonesian"%string (prompt_id a)) as [c_id E2]; rewrite E2
  end.
  match goal with
  | |- context [patch W ?h2 (id a) ?body] =>
      destruct (Hp h2 (id a) body) as [status E3]; rewrite E3
  end.
  rewrite Hw.
  exists c_en, c_id, status. eexists. split.
  - repeat (rewrite <- app_assoc; cbn [app]). reflexivity.
  - split; eexists; eassumption.
Qed.

Lemma loop_answered (total : Z) (remaining : list Ayah) :
  answers_all ->
  writes_succeed W ->
  forall st,
  exists evs p_end,
    for_each remaining (process_one W total) st
    = ({| trace := trace st ++ evs; progress := p_end |}, Py.Ok tt)
    /\ header_ids evs = map id remaining
    /\ results evs = map (fun _ => true) remaining
    /\ map fst (patches evs) = map id remaining
    /\ completions evs = (2 * length remaining)%nat
    /\ total_generated p_end
       = total_generated (progress st) + Z.of_nat (length remaining)
    /\ errors p_end = errors (progress st).
Proof.
  intros Hall Hw. induction remaining as [| a rest IH]; intros [h p].
  - exists [], p. cbn. rewrite app_nil_r. repeat split. lia.
  - cbn [for_each]. set (go_on := for_each rest (process_one W total)).
    unfold bind at 1. unfold process_one. run_step.
    match goal with
    | |- context [process_ayah W a {| trace := ?h1; progress := p |}] =>
        destruct (process_ayah_answered a h1 p Hall Hw)
          as (c_en & c_id & status & ts & Heq & _)
    end.
    rewrite Heq. run_step. subst go_on.
    match goal with
    | |- context [for_each rest _ ?st1] =>
        destruct (IH st1) as (evs & p_end & Heq' & Hh & Hr & Hp & Hc & Ht & He)
    end.
    rewrite Heq'. cbn [trace progress] in *.
    eexists _, p_end. split.
    + repeat (rewrite <- app_assoc; cbn [app]). reflexivity.
    + cbn [header_ids results patches flat_map app map fst length].
      fold (header_ids evs) (results evs) (patches evs).
      unfold completions in *. cbn [filter is_completion length].
      rewrite Hh, Hr, Hp, Hc, Ht, He.
      cbn [advanced total_generated errors].
      repeat split; lia.
Qed.

(** X7. When every completion call returns a text, every PATCH is
    accepted and every write of the checkpoint succeeds, each record of
    the run succeeds at its first attempt: it costs two completion calls
    and one PATCH, the PATCH requests address the records announced, in
    order, the checkpoint's total_generated grows by the number of
    records and its errors list is left as it was loaded. *)
Theorem all_answered_run (local : Local) (rows : list Ayah) :
  answers_all ->
  writes_succeed W ->
  sqlite_db local = Some rows ->
  let p0 := snd (load_progress W local) in
  let st := fst (main W local) in
  let run := trace st in
  snd (main W local) = Py.Ok tt
  /\ results run = map (fun _ => true) (header_ids run)
  /\ map fst (patches run) = header_ids run
  /\ completions run = (2 * length (header_ids run))%nat
  /\ total_generated (progress st)
     = total_generated p0 + Z.of_nat (length (header_ids run))
  /\ errors (progress st) = errors p0.
Proof.
  intros Hall Hw Hdb p0 st run.
  pose proof (main_unfold W local rows Hdb) as Hm. cbv zeta in Hm.
  fold p0 in Hm.
  match type of Hm with
  | _ = for_each ?r _ ?st1 =>
      destruct (loop_answered (Z.of_nat (length rows)) r Hall Hw st1)
        as (evs & p_end & Heq & Hh & Hr & Hp & Hc & Ht & He)
  end.
  rewrite Heq in Hm. cbn [trace progress] in Hm, Ht, He.
  assert (Hrun : results run = results evs /\ header_ids run = header_ids evs
                 /\ patches run = patches evs
                 /\ completions run = completions evs).
  { subst run st. rewrite Hm. cbn [fst trace].
    rewrite !results_app, !header_ids_app, !patches_app, !completions_app.
    unfold load_progress. destruct (progress_file local); repeat split; reflexivity. }
  destruct Hrun as (Hrr & Hrh & Hrp & Hrc).
  assert (Hst : progress st = p_end) by (subst st; now rewrite Hm).
  split; [now rewrite Hm |].
  split; [rewrite Hrr, Hrh, Hr, Hh, !map_map; reflexivity |].
  split; [rewrite Hrp, Hrh, Hp, Hh; reflexivity |].
  split; [rewrite Hrc, Hrh, Hc, Hh, length_map; reflexivity |].
  split; [rewrite Hst, Ht, Hrh, Hh, length_map; reflexivity |].
  rewrite Hst. exact He.
Qed.

(** A text made of white space only. *)
Fixpoint blank (s : string) : bool :=
  match s with
  | EmptyString => true
  | String c t => Py.is_space c && blank t
  end.

Lemma strip_blank (s : string) : blank s = true -> Py.strip s = EmptyString.
Proof.
  unfold Py.strip. induction s as [| c t IH]; [reflexivity |].
  cbn [blank Py.lstrip]. intros H. apply andb_true_iff in H.
  destruct H as [-> Ht]. exact (IH Ht).
Qed.

(** X8. A completion made of white space only (or empty) is not an
    error: when the PATCH is accepted and the checkpoint can be written,
    the record succeeds at once, both summaries are stored as the empty
    text and the checkpoint advances. *)
Theorem blank_completion_is_stored (a : Ayah) (st : State) (c : string) :
  blank c = true ->
  (forall h language prompt, completion W h language prompt = Completed c) ->
  (forall h ayah_id body, exists status, patch W h ayah_id body = Patched status) ->
  writes_succeed W ->
  exists evs p',
    process_ayah W a st
    = ({| trace := trace st ++ evs; progress := p' |}, Py.Ok true)
    /\ patches evs
       = [(id a, [("context_summary_en"%string, EmptyString);
                  ("context_summary_id"%string, EmptyString)])]
    /\ last_completed_id p' = id a
    /\ total_generated p' = total_generated (progress st) + 1.
Proof.
  intros Hblank Hc Hp Hw. destruct st as [h p].
  assert (Hall : answers_all).
  { split; [intros h' l q; exists c; apply Hc | exact Hp]. }
  destruct (process_ayah_answered a h p Hall Hw)
    as (c_en & c_id & status & ts & Heq & [h1 H1] & [h2 H2]).
  rewrite Hc in H1, H2. injection H1 as <-. injection H2 as <-.
  rewrite (strip_blank c Hblank) in Heq.
  eexists _, _. split; [exact Heq |].
  repeat split.
Qed.

(** *** When the completion API refuses *)

(** X9. When the completion API answers every call with the HTTP error
    [code] and the body [body], a record makes three calls, all for the
    English summary, with pauses of 2 and 4 seconds, and sends no PATCH;
    the counters of the checkpoint are left alone and one entry is added
    to its errors, with the text "OpenRouter API error <code>: <body>".
    The call returns [False] when the checkpoint could then be written,
    and raises the exception of that write otherwise. *)
Theorem http_error_is_logged (a : Ayah) (st : State) (code : Z) (body : string) :
  (forall h language prompt,
      completion W h language prompt = CompletionHTTPError code body) ->
  exists evs p' ts,
    fst (process_ayah W a st) = {| trace := trace st ++ evs; progress := p' |}
    /\ errors p'
       = errors (progress st)
         ++ [{| err_ayah_id := id a;
                err_surah_ayah := surah_ayah_label a;
                err_error :=
                  ("OpenRouter API error " ++ Py.str_of_int code ++ ": " ++ body)%string;
                err_timestamp := ts |}]
    /\ last_completed_id p' = last_completed_id (progress st)
    /\ total_generated p' = total_generated (progress st)
    /\ patches evs = []
    /\ completions evs = 3%nat
    /\ sleeps evs = [2; 4]
    /\ (snd (process_ayah W a st) = Py.Ok false /\ saved evs = [p']
        \/ exists msg,
             snd (process_ayah W a st) = Py.Raise (Py.OtherError msg)
             /\ saved evs = [] /\ unsaved evs = [p']).
Proof.
  intros Hc. destruct st as [h p].
  unfold process_ayah.
  change (Py.range 0 MAX_RETRIES 1) with [0; 1; 2].
  cbn [process_attempts]. unfold try_except.
  rewrite unfold_attempt_body, Hc. cbn [completion_exn].
  change (0 <? MAX_RETRIES - 1) with true. run_step.
  rewrite unfold_attempt_body, Hc. cbn [completion_exn].
  change (1 <? MAX_RETRIES - 1) with true. run_step.
  rewrite unfold_attempt_body, Hc. cbn [completion_exn].
  change (2 <? MAX_RETRIES - 1) with false. cbv iota.
  unfold record_failure, save_progress. run_step.
  rewrite <- !app_assoc. cbn [app].
  destruct (write W _ _) as [| msg]; run_step; rewrite <- ?app_assoc; cbn [app];
    cbn [fst snd]; eexists _, _, _; (split; [reflexivity |]);
    repeat (split; [reflexivity |]).
  - left. split; reflexivity.
  - right. exists msg. repeat split.
Qed.


(** *** Resuming from the checkpoint *)




(** *** A missing translation *)

(** The record with each missing translation replaced by the text that
    the f-string of [generate_summary] prints for [None]. *)
Definition spelled_out (a : Ayah) : Ayah :=
  {| id := id a;
     surah_id := surah_id a;
     ayah_number := ayah_number a;
     text_uthmani := text_uthmani a;
     surah_name := surah_name a;
     translation_en := Some (Py.str_of_opt (translation_en a));
     translation_id := Some (Py.str_of_opt (translation_id a)) |}.

Lemma process_one_spelled_out (total : Z) (a : Ayah) (st : State) :
  process_one W total (spelled_out a) st = process_one W total a st.
Proof. destruct a as [i s n t sn [en |] [idn |]]; reflexivity. Qed.

Lemma work_set_spelled_out (o : option (list Z)) (rows : list Ayah) (p : Progress) :
  work_set o (map spelled_out rows) p = map spelled_out (work_set o rows p).
Proof.
  destruct o as [ids |]; cbn [work_set];
    induction rows as [| a rows IH]; try reflexivity;
    cbn [map filter spelled_out id]; rewrite IH;
    match goal with |- context [if ?c then _ else _] => destruct c end;
    reflexivity.
Qed.

Lemma for_each_spelled_out (total : Z) (l : list Ayah) (st : State) :
  for_each (map spelled_out l) (process_one W total) st
  = for_each l (process_one W total) st.
Proof.
  revert st. induction l as [| a l IH]; intros st; [reflexivity |].
  cbn [map for_each]. unfold bind.
  rewrite process_one_spelled_out.
  destruct (process_one W total a st) as [st' [[] | e | c]]; auto.
Qed.

(** X19. A record without a translation is neither skipped nor an
    error.  A whole run over rows some of which lack a translation is,
    request for request, the run over the same rows with the four
    letters None as the missing translations: the prompt then reads
    "Translation: None", and nothing else depends on the translations. *)
Theorem missing_translation_is_sent (local : Local) (rows : list Ayah) :
  sqlite_db local = Some rows ->
  main W local
  = main W {| progress_file := progress_file local;
              sqlite_db := Some (map spelled_out rows);
              db_dir_exists := db_dir_exists local |}.
Proof.
  intros Hdb.
  rewrite (main_unfold W local rows Hdb).
  rewrite (main_unfold W {| progress_file := progress_file local;
                            sqlite_db := Some (map spelled_out rows);
                            db_dir_exists := db_dir_exists local |}
             (map spelled_out rows) eq_refl).
  change (load_progress W {| progress_file := progress_file local;
                             sqlite_db := Some (map spelled_out rows);
                             db_dir_exists := db_dir_exists local |})
    with (load_progress W local).
  rewrite work_set_spelled_out, length_map.
  symmetry. apply for_each_spelled_out.
Qed.

End Runs.

(** *** How the script ends *)


(** *** Concrete runs *)

(** The completion API pads its answers with white space. *)
Definition world_padded : World :=
  {| now := fun _ => "2025-01-03T00:00:00"%string;
     store_query := fun _ => QueryRows [3; 5];
     completion := fun _ _ _ =>
       Completed (String " " (String "T" (String (ascii_of_nat 10) EmptyString)));
     patch := fun _ _ _ => Patched 200;
     write := fun _ _ => Written |}.

(** The completion API answers with white space only. *)
Definition world_blank : World :=
  {| now := fun _ => "2025-01-03T00:00:00"%string;
     store_query := fun _ => QueryRows [5];
     completion := fun _ _ _ => Completed (String " " (String " " EmptyString));
     patch := fun _ _ _ => Patched 204;
     write := fun _ _ => Written |}.

(** The completion API refuses every call with 429. *)
Definition world_rate_limited : World :=
  {| now := fun _ => "2025-01-03T00:00:00"%string;
     store_query := fun _ => QueryRows [5];
     completion := fun _ _ _ => CompletionHTTPError 429 "slow down";
     patch := fun _ _ _ => Patched 204;
     write := fun _ _ => Written |}.



(** The same accounts on a run whose first write of the checkpoint
    fails: the one record of the work set is stored twice and counted
    twice, though it succeeds once. *)
Example accounts_of_a_cut_run :
  let st := fst (main (world_disk_full 1) local_one_row) in
  let run := trace st in
  header_ids run = [5]
  /\ accepted run = [5; 5]
  /\ succeeded run = [5]
  /\ total_generated (progress st) = 2
  /\ snd (main (world_disk_full 1) local_one_row) = Py.Ok tt.
Proof. repeat split. Qed.


Lemma completion_calls_are_paced_witness :
  exists pre c1 mid c2 post,
    trace (fst (main world_fixed_text local_one_row))
    = pre ++ c1 :: mid ++ c2 :: post
    /\ is_completion c1 = true /\ is_completion c2 = true
    /\ exists s, In (EvSleep s) mid /\ MIN_DELAY <= s.
Proof.
  exists [EvClock "2025-01-01T00:00:00"; EvStoreQuery (QueryRows [5]);
          EvHeader 1 2 "2:255" 5],
    (EvCompletion "English" (prompt_en ayah_5) (Completed "T")),
    [EvSleep 2],
    (EvCompletion "Indonesian" (prompt_id ayah_5) (Completed "T")).
  exists (skipn 6 (trace (fst (main world_fixed_text local_one_row)))).
  split; [reflexivity |]. split; [reflexivity |]. split; [reflexivity |].
  apply (completion_calls_are_paced world_fixed_text local_one_row
           [ayah_3; ayah_5]
           [EvClock "2025-01-01T00:00:00"; EvStoreQuery (QueryRows [5]);
            EvHeader 1 2 "2:255" 5]
           [EvSleep 2]
           (skipn 6 (trace (fst (main world_fixed_text local_one_row))))
           "English" (prompt_en ayah_5) "Indonesian" (prompt_id ayah_5)
           (Completed "T") (Completed "T")); reflexivity.
Defined.

Lemma run_cost_witness :
  let run := trace (fst (main world_recovering local_one_row)) in
  let n := Z.of_nat (length (header_ids run)) in
  sqlite_db local_one_row = Some [ayah_3; ayah_5]
  /\ n = 2 /\ completions run = 5%nat /\ total_sleep run = 12
  /\ (n <= Z.of_nat (completions run) <= 6 * n
      /\ Z.of_nat (length (patches run)) <= 3 * n
      /\ 2 * n <= total_sleep run <= 14 * n).
Proof.
  intros run n. repeat (split; [reflexivity |]).
  exact (run_cost world_recovering local_one_row [ayah_3; ayah_5] eq_refl).
Defined.

Lemma stored_summaries_are_stripped_witness :
  sqlite_db local_one_row = Some [ayah_3; ayah_5]
  /\ map snd (patches (trace (fst (main world_padded local_one_row))))
     = [summaries_body "T" "T"; summaries_body "T" "T"]
  /\ Forall (fun x => stripped_body (snd x))
       (patches (trace (fst (main world_padded local_one_row)))).
Proof.
  split; [reflexivity |]. split; [reflexivity |].
  exact (stored_summaries_are_stripped world_padded local_one_row
           [ayah_3; ayah_5] eq_refl).
Defined.

Lemma world_padded_answers_all : answers_all world_padded.
Proof. split; intros; eexists; reflexivity. Qed.

Lemma all_answered_run_witness :
  let st := fst (main world_padded local_one_row) in
  let run := trace st in
  answers_all world_padded
  /\ writes_succeed world_padded
  /\ header_ids run = [3; 5]
  /\ (snd (main world_padded local_one_row) = Py.Ok tt
      /\ results run = map (fun _ => true) (header_ids run)
      /\ map fst (patches run) = header_ids run
      /\ completions run = (2 * length (header_ids run))%nat
      /\ total_generated (progress st)
         = 0 + Z.of_nat (length (header_ids run))
      /\ errors (progress st) = []).
Proof.
  intros st run. split; [exact world_padded_answers_all |].
  split; [intros h p; reflexivity |].
  split; [reflexivity |].
  exact (all_answered_run world_padded local_one_row [ayah_3; ayah_5]
           world_padded_answers_all (fun _ _ => eq_refl) eq_refl).
Defined.

Lemma blank_completion_is_stored_witness :
  blank (String " " (String " " EmptyString)) = true
  /\ exists evs p',
       process_ayah world_blank ayah_5 start
       = ({| trace := trace start ++ evs; progress := p' |}, Py.Ok true)
       /\ patches evs
          = [(id ayah_5, [("context_summary_en"%string, EmptyString);
                          ("context_summary_id"%string, EmptyString)])]
       /\ last_completed_id p' = id ayah_5
       /\ total_generated p' = total_generated (progress start) + 1.
Proof.
  split; [reflexivity |].
  apply (blank_completion_is_stored world_blank ayah_5 start
           (String " " (String " " EmptyString))).
  - reflexivity.
  - intros h language prompt. reflexivity.
  - intros h ayah_id body. exists 204. reflexivity.
  - intros h p. reflexivity.
Defined.

Lemma http_error_is_logged_witness :
  (forall h language prompt,
      completion world_rate_limited h language prompt
      = CompletionHTTPError 429 "slow down")
  /\ exists evs p' ts,
       fst (process_ayah world_rate_limited ayah_5 start)
       = {| trace := trace start ++ evs; progress := p' |}
       /\ errors p'
          = errors (progress start)
            ++ [{| err_ayah_id := id ayah_5;
                   err_surah_ayah := surah_ayah_label ayah_5;
                   err_error :=
                     ("OpenRouter API error " ++ Py.str_of_int 429 ++ ": "
                      ++ "slow down")%string;
                   err_timestamp := ts |}]
       /\ last_completed_id p' = last_completed_id (progress start)
       /\ total_generated p' = total_generated (progress start)
       /\ patches evs = []
       /\ completions evs = 3%nat
       /\ sleeps evs = [2; 4]
       /\ (snd (process_ayah world_rate_limited ayah_5 start) = Py.Ok false
           /\ saved evs = [p']
           \/ exists msg,
                snd (process_ayah world_rate_limited ayah_5 start)
                = Py.Raise (Py.OtherError msg)
                /\ saved evs = [] /\ unsaved evs = [p']).
Proof.
  split; [intros h language prompt; reflexivity |].
  apply (http_error_is_logged world_rate_limited ayah_5 start 429 "slow down").
  intros h language prompt. reflexivity.
Defined.


(** The record 5 of the examples has no Indonesian translation. *)
Lemma missing_translation_is_sent_witness :
  sqlite_db local_one_row = Some [ayah_3; ayah_5]
  /\ translation_id ayah_5 = None
  /\ main world_recovering local_one_row
     = main world_recovering
         {| progress_file := progress_file local_one_row;
            sqlite_db := Some (map spelled_out [ayah_3; ayah_5]);
            db_dir_exists := db_dir_exists local_one_row |}.
Proof.
  split; [reflexivity |]. split; [reflexivity |].
  exact (missing_translation_is_sent world_recovering local_one_row
           [ayah_3; ayah_5] eq_refl).
Defined.

End GeneratorRuns.

(* ================================================================== *)
(** ** More about the seeder: reports, requests, how it ends *)

Module SeederRuns.

Import Seeder SeederFacts.

(** The batches announced: number, number of batches, size. *)
Definition announcements (evs : list Event) : list (Z * Z * Z) :=
  flat_map (fun ev => match ev with
                      | EvReport (Uploading k n size) => [(k, n, size)]
                      | _ => []
                      end) evs.

Definition is_post (ev : Event) : bool :=
  match ev with
  | EvPostBatch _ _ | EvPostRecord _ _ => true
  | _ => false
  end.

(** The line printed after a batch POST whose turn ends with a report. *)
Definition report_of (batch_num : Z) (o : PostOutcome) : Report :=
  match o with
  | Responded status =>
      if (status =? 200) || (status =? 201)
      then BatchUploaded batch_num
      else BatchFailedStatus batch_num status
  | PostFailed e => failure_report batch_num e
  end.

Definition conflict (o : PostOutcome) : bool :=
  match o with
  | Responded _ => false
  | PostFailed e => is_conflict e
  end.

Definition unreadable (o : PostOutcome) : bool :=
  match o with
  | Responded _ => false
  | PostFailed e => is_unreadable e
  end.

(** The requests of a trace, in order: [true] marks the POST of a batch,
    [false] the POST of a single record in the fallback. *)
Definition requests (evs : list Event) : list (bool * list Row) :=
  flat_map (fun ev => match ev with
                      | EvPostBatch body _ => [(true, body)]
                      | EvPostRecord body _ => [(false, body)]
                      | _ => []
                      end) evs.

Definition alone (record : Row) : bool * list Row := (false, [record]).

(** The requests of one turn of the loop that posts the batch and then
    its first [n] records one by one. *)
Definition turn_requests (bn : list Row * nat) : list (bool * list Row) :=
  (true, fst bn) :: map alone (firstn (snd bn) (fst bn)).

Lemma announcements_app (xs ys : list Event) :
  announcements (xs ++ ys) = announcements xs ++ announcements ys.
Proof. apply flat_map_app. Qed.

Lemma requests_app (xs ys : list Event) :
  requests (xs ++ ys) = requests xs ++ requests ys.
Proof. apply flat_map_app. Qed.

Lemma firsts_of_combine {A B : Type} (l : list A) (r : list B) :
  map fst (combine l r) = firstn (length r) l.
Proof.
  revert r. induction l as [| a l IH]; intros [| b r]; try reflexivity.
  cbn [combine map fst length firstn]. now rewrite IH.
Qed.

Section Runs.

Variable W : World.

Ltac run_step :=
  cbv beta iota zeta delta [bind get emit modify ret raise try_except];
  cbn [app].

(** One turn of the loop, by the answer to the batch POST. *)
Lemma upload_batch_cases (records : list Row) (i : Z) (h : State) :
  let batch := Py.slice records i (i + batch_size) in
  let batch_num := i / batch_size + 1 in
  let total_batches :=
    (Z.of_nat (length records) + batch_size - 1) / batch_size in
  let announced :=
    h ++ [EvReport (Uploading batch_num total_batches (Z.of_nat (length batch)))] in
  let o := post W announced batch in
  if unreadable o
  then exists code reason msg,
         o = PostFailed (Py.HTTPError code reason (Py.Unreadable msg))
         /\ upload_batch W records i h
            = (announced ++ [EvPostBatch batch o], Py.Raise (Py.OtherError msg))
  else if conflict o
  then exists reason body,
         o = PostFailed (Py.HTTPError 409 reason (Py.Text body))
         /\ upload_batch W records i h
            = retry_individually W batch
                (announced ++ [EvPostBatch batch o;
                               EvReport (BatchFailedHTTP batch_num 409 body);
                               EvReport RetryingIndividually])
  else upload_batch W records i h
       = (announced ++ [EvPostBatch batch o; EvReport (report_of batch_num o)],
          Py.Ok tt).
Proof.
  intros batch batch_num total_batches announced o.
  unfold upload_batch, post_batch.
  fold batch. fold batch_num. fold total_batches.
  set (retry := retry_individually W batch).
  run_step. fold announced. fold o.
  destruct o as [status | [code reason [body | unread] | msg]];
    cbn [unreadable is_unreadable conflict is_conflict].
  - cbv beta iota zeta. cbn [report_of].
    destruct ((status =? 200) || (status =? 201));
      rewrite <- !app_assoc; reflexivity.
  - destruct (code =? 409) eqn:Hc.
    + apply Z.eqb_eq in Hc. subst code.
      exists reason, body. split; [reflexivity |].
      cbv beta iota zeta. change (409 =? 409) with true. cbv beta iota.
      subst retry. f_equal. rewrite <- !app_assoc. reflexivity.
    + cbv beta iota zeta. cbn [report_of failure_report].
      rewrite <- !app_assoc. reflexivity.
  - exists code, reason, unread. split; [reflexivity |].
    cbv beta iota zeta. reflexivity.
  - cbv beta iota zeta. cbn [report_of failure_report].
    rewrite <- !app_assoc. reflexivity.
Qed.

Lemma record_posts_readings (l : list (Row * PostOutcome)) :
  announcements (map (fun ro => EvPostRecord [fst ro] (snd ro)) l) = [].
Proof. induction l as [| x l IH]; auto. Qed.

Lemma report_of_announces_nothing (k : Z) (o : PostOutcome) :
  announcements [EvReport (report_of k o)] = [].
Proof.
  destruct o as [status | [code reason [body | unread] | msg]];
    cbn [report_of failure_report];
    [destruct ((status =? 200) || (status =? 201)) | | |]; reflexivity.
Qed.

Lemma record_posts_requests (l : list (Row * PostOutcome)) :
  requests (map (fun ro => EvPostRecord [fst ro] (snd ro)) l)
  = map alone (map fst l).
Proof.
  induction l as [| x l IH]; [reflexivity |].
  cbn [map requests flat_map app]. fold (requests (map (fun ro => EvPostRecord [fst ro] (snd ro)) l)).
  now rewrite IH.
Qed.

Lemma requests_split (evs : list Event) :
  batch_bodies evs = map snd (filter fst (requests evs))
  /\ record_bodies evs = map snd (filter (fun x => negb (fst x)) (requests evs))
  /\ length (filter is_post evs) = length (requests evs).
Proof.
  induction evs as [| ev evs (IH1 & IH2 & IH3)]; [repeat split |].
  destruct ev;
    cbn [requests batch_bodies record_bodies flat_map app filter fst snd negb map
         is_post length];
    fold (requests evs) (batch_bodies evs) (record_bodies evs);
    rewrite ?IH1, ?IH2, ?IH3; repeat split.
Qed.

(** What one turn of the loop leaves in the trace. *)
Lemma upload_batch_turn (records : list Row) (i : Z) (h : State) :
  let batch := Py.slice records i (i + batch_size) in
  let batch_num := i / batch_size + 1 in
  let total_batches :=
    (Z.of_nat (length records) + batch_size - 1) / batch_size in
  let announced :=
    h ++ [EvReport (Uploading batch_num total_batches (Z.of_nat (length batch)))] in
  let o := post W announced batch in
  exists evs r n,
    upload_batch W records i h = (h ++ evs, r)
    /\ announcements evs = [(batch_num, total_batches, Z.of_nat (length batch))]
    /\ requests evs = turn_requests (batch, n)
    /\ batch_outcomes evs = [o]
    /\ (n <= length batch)%nat
    /\ (r = Py.Ok tt \/ exists msg, r = Py.Raise (Py.OtherError msg))
    /\ (conflict o && negb (unreadable o) = false -> n = 0%nat)
    /\ (conflict o = false -> unreadable o = false -> r = Py.Ok tt)
    /\ (r = Py.Ok tt -> conflict o = true -> n = length batch).
Proof.
  intros batch batch_num total_batches announced o.
  pose proof (upload_batch_cases records i h) as Hc. cbv zeta in Hc.
  fold batch batch_num total_batches announced o in Hc.
  destruct (unreadable o) eqn:Hun.
  - destruct Hc as (code & reason & msg & Ho & Heq). rewrite Heq.
    eexists _, _, 0%nat.
    split; [subst announced; rewrite <- app_assoc; reflexivity |].
    split; [reflexivity |]. split; [reflexivity |]. split; [reflexivity |].
    split; [lia |]. split; [right; exists msg; reflexivity |].
    split; [reflexivity |]. split; discriminate.
  - destruct (conflict o) eqn:Hconf.
    + destruct Hc as (reason & body & Ho & Heq).
      match type of Heq with
      | _ = retry_individually W batch ?h2 =>
          destruct (retry_individually_spec W batch h2)
            as (outcomes & r & Hretry & Hlen & _ & Hr)
      end.
      rewrite Hretry in Heq. rewrite Heq.
      pose proof (record_posts_readings (combine batch outcomes)) as Ha.
      eexists _, r, (length outcomes).
      split; [| split; [| split; [| split; [| split; [| split; [| split; [| split]]]]]]].
      * subst announced. repeat (rewrite <- app_assoc; cbn [app]). reflexivity.
      * change (announcements (?a :: ?b :: ?c :: ?d :: ?l))
          with (announcements [a; b; c; d] ++ announcements l).
        rewrite Ha. reflexivity.
      * change (requests (?a :: ?b :: ?c :: ?d :: ?l))
          with (requests [a; b; c; d] ++ requests l).
        rewrite record_posts_requests, firsts_of_combine. reflexivity.
      * change (batch_outcomes (?a :: ?b :: ?c :: ?d :: ?l))
          with (batch_outcomes [a; b; c; d] ++ batch_outcomes l).
        rewrite record_posts_no_outcome. reflexivity.
      * exact Hlen.
      * destruct r as [[] | e | c]; [left; reflexivity | | contradiction].
        destruct Hr as (msg & -> & _). right. exists msg. reflexivity.
      * discriminate.
      * discriminate.
      * intros -> _. destruct Hr as [Hl _]. exact Hl.
    + rewrite Hc. eexists _, _, 0%nat.
      split; [subst announced; rewrite <- app_assoc; reflexivity |].
      split.
      { change (announcements ([?a] ++ [?b; ?c]))
          with (announcements [a] ++ announcements [b] ++ announcements [c]).
        rewrite report_of_announces_nothing. reflexivity. }
      split; [reflexivity |]. split; [reflexivity |].
      split; [lia |]. split; [left; reflexivity |].
      split; [reflexivity |]. split; [reflexivity | discriminate].
Qed.

(** The loop over any list of start indices: the turns done, and for
    each of them the number of records posted one by one. *)
Lemma upload_loop_turns (records : list Row) (indices : list Z) :
  let total_batches :=
    (Z.of_nat (length records) + batch_size - 1) / batch_size in
  let cut := fun i => Py.slice records i (i + batch_size) in
  forall h,
  exists evs r done pending (sent : list nat),
    for_each indices (upload_batch W records) h = (h ++ evs, r)
    /\ indices = done ++ pending
    /\ announcements evs
       = map (fun i => (i / batch_size + 1, total_batches,
                        Z.of_nat (length (cut i))))
           done
    /\ length sent = length done
    /\ requests evs = concat (map turn_requests (combine (map cut done) sent))
    /\ Forall2 (fun b n => (n <= length b)%nat) (map cut done) sent
    /\ Forall2 (fun o n => conflict o && negb (unreadable o) = false -> n = 0%nat)
         (batch_outcomes evs) sent
    /\ (r = Py.Ok tt ->
        pending = []
        /\ Forall2 (fun o bn => conflict o = true -> snd bn = length (fst bn))
             (batch_outcomes evs) (combine (map cut done) sent))
    /\ (r = Py.Ok tt \/ exists msg, r = Py.Raise (Py.OtherError msg))
    /\ ((forall h' body, conflict (post W h' body) = false) ->
        Forall (fun n => n = 0%nat) sent)
    /\ ((forall h' body, conflict (post W h' body) = false
                         /\ unreadable (post W h' body) = false) ->
        r = Py.Ok tt).
Proof.
  intros total_batches cut.
  induction indices as [| i indices IH]; intros h.
  - exists [], (Py.Ok tt), [], [], []. cbn. rewrite app_nil_r.
    repeat split; auto.
  - cbn [for_each]. unfold bind.
    pose proof (upload_batch_turn records i h) as Hturn. cbv zeta in Hturn.
    fold (cut i) in Hturn. fold total_batches in Hturn.
    destruct Hturn as (evs & r & n & Heq & Ha & Hq & Ho & Hn & Hr & Hnc & Hok & Hfull).
    rewrite Heq. destruct Hr as [-> | (msg & ->)].
    + destruct (IH (h ++ evs))
        as (evs' & r' & done & pending & sent & Heq' & Hi & Ha' & Hl' & Hq' & Hf'
            & Hz' & Hp' & Hr' & Hno' & Hok').
      rewrite Heq'. exists (evs ++ evs'), r', (i :: done), pending, (n :: sent).
      rewrite <- app_assoc, announcements_app, requests_app, batch_outcomes_app,
        Ha, Ha', Hq, Hq', Ho.
      split; [reflexivity |]. split; [now rewrite Hi |]. split; [reflexivity |].
      split; [cbn [length]; now rewrite Hl' |].
      split; [reflexivity |].
      split; [constructor; assumption |].
      split; [constructor; assumption |].
      split.
      * intros Hr. destruct (Hp' Hr) as [Hpend Hall]. split; [exact Hpend |].
        cbn [map combine app]. constructor; [| exact Hall].
        cbn [fst snd]. exact (Hfull eq_refl).
      * split; [exact Hr' |]. split; [| exact Hok'].
        intros Hall. constructor; [| exact (Hno' Hall)].
        apply Hnc. now rewrite Hall.
    + exists evs, (Py.Raise (Py.OtherError msg)), [i], indices, [n].
      rewrite Ha, Hq, Ho. split; [reflexivity |]. split; [reflexivity |].
      split; [reflexivity |]. split; [reflexivity |].
      split; [cbn; now rewrite app_nil_r |].
      split; [repeat constructor; exact Hn |].
      split; [repeat constructor; exact Hnc |].
      split; [discriminate |].
      split; [right; exists msg; reflexivity |].
      split; [intros Hall; constructor; [apply Hnc; now rewrite Hall | constructor] |].
      intros Hall.
      destruct (Hall (h ++ [EvReport (Uploading (i / batch_size + 1)
                              total_batches (Z.of_nat (length (cut i))))]) (cut i))
        as [H1 H2].
      specialize (Hok H1 H2). discriminate Hok.
Qed.

Lemma prefix_of_map_seq {A : Type} (g : nat -> A) (done pending : list A) :
  forall start n,
  map g (seq start n) = done ++ pending ->
  done = map g (seq start (length done)) /\ (length done <= n)%nat.
Proof.
  induction done as [| x done IH]; intros start n H; [split; [reflexivity | cbn; lia] |].
  destruct n as [| n]; [discriminate |].
  cbn [seq map app] in H. injection H as Hx H.
  destruct (IH _ _ H) as [Hd Hl]. cbn [length seq map].
  split; [now rewrite Hx, <- Hd | lia].
Qed.

Lemma total_batches_count (records : list Row) :
  (Z.of_nat (length records) + batch_size - 1) / batch_size
  = Z.of_nat (length (batches records)).
Proof.
  rewrite batches_chunks, length_map, length_seq. unfold batch_count, batch_size.
  rewrite Z2Nat.id by (apply Z.div_pos; lia). f_equal. lia.
Qed.

(** The batches of the turns done are the first batches. *)
Lemma done_batches (records : list Row) (done pending : list Z) :
  Py.range 0 (Z.of_nat (length records)) batch_size = done ++ pending ->
  map (fun i => Py.slice records i (i + batch_size)) done
  = firstn (length done) (batches records)
  /\ (length done <= length (batches records))%nat.
Proof.
  intros Hi. unfold batches. rewrite Hi, map_app.
  rewrite <- (length_map (fun i => Py.slice records i (i + batch_size)) done) at 1.
  rewrite firstn_app, Nat.sub_diag, firstn_all, firstn_O, app_nil_r.
  split; [reflexivity |]. rewrite length_app, !length_map. lia.
Qed.

(** X12. The announcements "Uploading batch k/N (size records)".  For
    any answers of the store, the batches are announced with the numbers
    1, 2, ... in order, N is the number of batches and size the number of
    records of batch k; every batch is announced when the upload
    returns, and the upload can only be cut short by an exception that
    is not an HTTP error. *)
Theorem batches_are_numbered (ayat_list : list Ayah) (h : State) :
  let bs := batches (map to_row ayat_list) in
  exists evs r m,
    upload_to_supabase W ayat_list h = (h ++ evs, r)
    /\ (m <= length bs)%nat
    /\ announcements evs
       = map (fun j => (Z.of_nat j + 1, Z.of_nat (length bs),
                        Z.of_nat (length (nth j bs []))))
           (seq 0 m)
    /\ (r = Py.Ok tt -> m = length bs)
    /\ (r = Py.Ok tt \/ exists msg, r = Py.Raise (Py.OtherError msg)).
Proof.
  intros bs. unfold upload_to_supabase.
  set (records := map to_row ayat_list) in *.
  pose proof (upload_loop_turns records
                (Py.range 0 (Z.of_nat (length records)) batch_size)) as Hl.
  cbv zeta in Hl.
  destruct (Hl h)
    as (evs & r & done & pending & sent & Heq & Hi & Ha & _ & _ & _ & _ & Hp & Hr & _).
  assert (Hrange : Py.range 0 (Z.of_nat (length records)) batch_size
                   = map (fun k => 0 + Z.of_nat k * batch_size)
                       (seq 0 (length bs))).
  { subst bs. rewrite batches_chunks, length_map, length_seq. reflexivity. }
  rewrite Hrange in Hi.
  destruct (prefix_of_map_seq _ _ _ _ _ Hi) as [Hd Hm].
  exists evs, r, (length done).
  split; [exact Heq |]. split; [exact Hm |].
  split; [| split; [| exact Hr]].
  - rewrite Ha, Hd at 1. rewrite map_map.
    apply map_ext_in. intros j Hj. apply in_seq in Hj.
    rewrite total_batches_count. fold bs.
    assert (Hnum : (0 + Z.of_nat j * batch_size) / batch_size + 1 = Z.of_nat j + 1)
      by (unfold batch_size; rewrite Z.add_0_l, Z.div_mul by lia; reflexivity).
    assert (Hsl : Py.slice records (0 + Z.of_nat j * batch_size)
                    (0 + Z.of_nat j * batch_size + batch_size)
                  = nth j bs []).
    { subst bs. rewrite nth_batch by lia.
      unfold Py.slice, chunk, batch_size. f_equal; [| f_equal]; lia. }
    rewrite Hnum, Hsl. reflexivity.
  - intros Hok. destruct (Hp Hok) as [Hpend _].
    rewrite Hpend, app_nil_r in Hi.
    apply (f_equal (@length Z)) in Hi.
    rewrite length_map, length_seq in Hi. symmetry. exact Hi.
Qed.

(** *** The requests of an upload *)

Lemma combine_firstn_left {A B : Type} (l : list A) (r : list B) :
  combine (firstn (length r) l) r = combine l r.
Proof.
  revert r. induction l as [| a l IH]; intros [| b r]; try reflexivity.
  cbn [length firstn combine]. now rewrite IH.
Qed.


Lemma turns_length (bs : list (list Row)) (sent : list nat) :
  Forall2 (fun b n => (n <= length b)%nat) bs sent ->
  (length (concat (map turn_requests (combine bs sent)))
   <= length bs + length (concat bs))%nat.
Proof.
  induction 1 as [| b n bs sent Hn _ IH]; [cbn; lia |].
  change (concat (map turn_requests (combine (b :: bs) (n :: sent))))
    with ((true, b) :: map alone (firstn n b)
          ++ concat (map turn_requests (combine bs sent))).
  change (concat (b :: bs)) with (b ++ concat bs).
  cbn [length]. rewrite !length_app, length_map, length_firstn. lia.
Qed.

Lemma concat_batches (records : list Row) : concat (batches records) = records.
Proof.
  rewrite batches_chunks, concat_chunks.
  apply firstn_all2. apply batch_count_covers.
Qed.

Lemma concat_firstn_length {A : Type} (m : nat) (ls : list (list A)) :
  (length (concat (firstn m ls)) <= length (concat ls))%nat.
Proof.
  rewrite <- (firstn_skipn m ls) at 2. rewrite concat_app, length_app. lia.
Qed.


(** X18. The requests of an upload, whatever the store answers.  They
    are, in order and for the batches from the first to the last one
    started: the POST of the batch, then the POSTs of its first n records
    one by one, in the order of the batch, each once.  For a batch n is
    zero unless its POST was answered by a 409 with a readable body; when
    the upload returns normally every batch was started and n is the size
    of each batch answered by a 409.  So there is at most one POST per
    batch and, beyond those, at most one per record. *)
Theorem upload_requests_in_order (ayat_list : list Ayah) (h : State) :
  let records := map to_row ayat_list in
  let bs := batches records in
  exists evs r (sent : list nat),
    upload_to_supabase W ayat_list h = (h ++ evs, r)
    /\ (length sent <= length bs)%nat
    /\ requests evs = concat (map turn_requests (combine bs sent))
    /\ Forall2 (fun b n => (n <= length b)%nat) (firstn (length sent) bs) sent
    /\ Forall2 (fun o n => conflict o && negb (unreadable o) = false -> n = 0%nat)
         (batch_outcomes evs) sent
    /\ (r = Py.Ok tt ->
        length sent = length bs
        /\ Forall2 (fun o bn => conflict o = true -> snd bn = length (fst bn))
             (batch_outcomes evs) (combine bs sent))
    /\ length (filter is_post evs) = length (requests evs)
    /\ (length (requests evs) <= length bs + length records)%nat.
Proof.
  intros records bs. unfold upload_to_supabase. fold records.
  set (indices := Py.range 0 (Z.of_nat (length records)) batch_size).
  pose proof (upload_loop_turns records indices) as Hl. cbv zeta in Hl.
  destruct (Hl h)
    as (evs & r & done & pending & sent & Heq & Hi & _ & Hlen & Hq & Hf & Hz & Hp & _).
  destruct (done_batches records done pending Hi) as [Hd Hm].
  fold bs in Hd, Hm. rewrite Hd in Hq, Hf, Hp.
  rewrite <- Hlen in Hq, Hf, Hp, Hm. rewrite combine_firstn_left in Hq, Hp.
  exists evs, r, sent.
  split; [exact Heq |]. split; [exact Hm |]. split; [exact Hq |].
  split; [exact Hf |]. split; [exact Hz |].
  split; [| split].
  - intros Hr. destruct (Hp Hr) as [Hpend Hall]. split; [| exact Hall].
    rewrite Hpend, app_nil_r in Hi.
    subst bs. unfold batches. fold indices. rewrite Hi, length_map. exact Hlen.
  - apply requests_split.
  - rewrite Hq, <- combine_firstn_left.
    pose proof (turns_length _ _ Hf) as Hle.
    pose proof (concat_firstn_length (length sent) bs) as Hc.
    subst bs. rewrite concat_batches in Hc.
    rewrite length_firstn in Hle. lia.
Qed.

End Runs.

(** *** How the script ends *)





(** The first batch meets a server error, the connection is lost on the
    second, later ones are accepted with 201; the count comes to 101. *)
Definition world_flaky : World :=
  {| post := fun h _ =>
       match length (filter is_post h) with
       | O => PostFailed (Py.HTTPError 500 "Internal Server Error" (Py.Text "boom"))
       | S O => PostFailed (Py.OtherError "timed out")
       | _ => Responded 201
       end;
     count_query := fun _ => Counted 101 |}.

Definition rows_201 : list Ayah := map numbered (seq 1 201).

Definition environ_seeder : Environ :=
  {| SUPABASE_URL := Some "https://example.supabase.co"%string;
     SUPABASE_SERVICE_ROLE := Some "service-role"%string |}.



(** Three batches, all posted although two of them fail; the count then
    disagrees with the 201 rows, which is a warning only. *)
Example flaky_run :
  let run := script environ_seeder world_flaky {| sqlite_db := Some rows_201 |} in
  snd run = Py.Ok tt
  /\ map (@length Row) (batch_bodies (fst run)) = [100; 100; 1]%nat
  /\ filter (fun ev => match ev with
                       | EvReport (Uploading _ _ _) | EvPostBatch _ _ => false
                       | _ => true
                       end) (fst run)
     = [EvReport (BatchFailedHTTP 1 500 "boom");
        EvReport (BatchError 2 "timed out");
        EvReport (BatchUploaded 3);
        EvCount (Counted 101); EvVerdict false].
Proof. vm_compute. repeat split. Qed.

(** The requests of the fallback on three records, the second of which
    the store refuses with 400: batch, then each record. *)
Example requests_of_a_fallback :
  requests (fst (upload_to_supabase world_conflict rows_3 []))
  = turn_requests (map to_row rows_3, 3%nat).
Proof. reflexivity. Qed.

End SeederRuns.

(* ================================================================== *)
(** ** Reading the count in verify_upload *)

Module ContentRange.

Import Seeder.

(** ['/' in s] *)
Fixpoint has_slash (s : string) : bool :=
  match s with
  | EmptyString => false
  | String c rest => Ascii.eqb c "/" || has_slash rest
  end.

(** [s.split('/')[-1]]: what follows the last slash, or all of [s]. *)
Fixpoint last_field (s : string) : string :=
  match s with
  | EmptyString => EmptyString
  | String c rest =>
      if has_slash rest then last_field rest
      else if Ascii.eqb c "/" then rest
      else s
  end.

(** [urlopen] on the count request: a response, of which only the
    [content-range] header is read ([None] when it has none), or an
    exception. *)
Inductive CountResponse : Type :=
| CountHeaders (content_range : option string)
| CountRaised (e : Py.Exn).

Section Reading.

(** The built-in [int] on a text, [None] standing for [ValueError].
    Which texts it accepts (white space, signs, underscores, the limit
    on the number of digits) is the interpreter's business and is left
    open here. *)
Variable int : string -> option Z.

(** The body of [verify_upload] after the request: the header defaults
    to the empty text; a [ValueError] of [int] is caught like any other
    exception. *)
Definition read_count (r : CountResponse) : CountOutcome :=
  match r with
  | CountRaised _ => NotCounted
  | CountHeaders content_range =>
      let count_header :=
        match content_range with
        | Some v => v
        | None => EmptyString
        end in
      if has_slash count_header
      then match int (last_field count_header) with
           | Some count => Counted count
           | None => NotCounted
           end
      else NotCounted
  end.

Lemma has_slash_app (r t : string) :
  has_slash (r ++ String "/" t)%string = true.
Proof.
  induction r as [| c r IH]; cbn [String.append has_slash].
  - reflexivity.
  - rewrite IH. apply orb_true_r.
Qed.

Lemma last_field_app (r t : string) :
  has_slash t = false -> last_field (r ++ String "/" t)%string = t.
Proof.
  intros Ht. induction r as [| c r IH]; cbn [String.append last_field].
  - now rewrite Ht.
  - now rewrite has_slash_app.
Qed.

(** A header without a slash, a missing header and a failed request all
    give no count, without [int] being called. *)
Lemma no_slash_no_count (s : string) :
  has_slash s = false ->
  read_count (CountHeaders (Some s)) = NotCounted
  /\ read_count (CountHeaders None) = NotCounted
  /\ forall e, read_count (CountRaised e) = NotCounted.
Proof. intros Hs. unfold read_count. rewrite Hs. repeat split. Qed.

(** X16 (verify_upload).  Only what follows the last slash of the
    [content-range] header is read: for a header [r/t] where [t] holds no
    slash the result is [int(t)] when [int] returns and 0 (nothing
    counted) when [int] raises, whatever [r] is and whatever texts [int]
    accepts. *)
Theorem count_is_last_field (r t : string) :
  has_slash t = false ->
  read_count (CountHeaders (Some (r ++ String "/" t)%string))
  = match int t with
    | Some count => Counted count
    | None => NotCounted
    end.
Proof.
  intros Ht. unfold read_count.
  now rewrite has_slash_app, last_field_app.
Qed.

End Reading.

(** An [int] that knows one numeral. *)
Definition int_6236 (s : string) : option Z :=
  if String.eqb s "6236" then Some 6236 else None.

Example count_of_postgrest_header :
  read_count int_6236 (CountHeaders (Some "0-99/6236"%string)) = Counted 6236.
Proof. reflexivity. Qed.

Example count_unknown :
  read_count int_6236 (CountHeaders (Some "0-99/*"%string)) = NotCounted.
Proof. reflexivity. Qed.

Example count_after_last_slash :
  read_count int_6236 (CountHeaders (Some "items/0-99/6236"%string)) = Counted 6236.
Proof. reflexivity. Qed.

Lemma count_is_last_field_witness :
  has_slash "6236" = false
  /\ read_count int_6236 (CountHeaders (Some ("0-99" ++ String "/" "6236")%string))
     = match int_6236 "6236" with
       | Some count => Counted count
       | None => NotCounted
       end.
Proof.
  split; [reflexivity |].
  apply (count_is_last_field int_6236 "0-99" "6236"). reflexivity.
Defined.

End ContentRange.
